(** * AI-Text-Summarizer: the caching, rate-limiting and validation layer of app.py

    A shallow embedding of [src/app.py] and the properties its specification
    states about it.

    Conventions of the embedding.
    - A Python [str] is a [string]: one [ascii] per code point, so the texts
      covered are those over U+0000..U+00FF.  [len] is [String.length].
    - A Python exception is an [exn] carrying the text of [str(e)]; a
      computation that can raise returns a [result].  Only instances of
      [Exception] are modelled, as these are what [except Exception] catches.
    - Mutable process state (the Redis server behind [redis_client], the
      [ModelManager._model] attribute) is threaded explicitly through the
      monad [M]; a raised exception keeps the effects performed before it.
    - A Python [float] is an IEEE-754 binary64 number ([spec_float] with
      precision 53).
    - The clock of the Redis server stands still while one request is
      handled and moves between requests ([later]); a round trip to the
      server may fail, before or after the server has run the command.
    - What the process cannot decide is given: the outcome of loading the
      model, the model itself, the clock readings and the [json] codec. *)

From Stdlib Require Import ZArith List Ascii String Bool Lia DecimalString.
From Stdlib Require Import Floats.SpecFloat.
From Stdlib Require DecimalZ DecimalPos.
From stdpp Require Import gmap strings.
Import ListNotations.

Local Open Scope Z_scope.

(** ** Python strings *)

Module Str.

(** [str.isspace] on one code point below U+0100: TAB..CR, FS..US, SPACE,
    NEL and NBSP. *)
Definition isspace (c : ascii) : bool :=
  let n := N_of_ascii c in
  ((9 <=? n) && (n <=? 13) || (28 <=? n) && (n <=? 32)
   || (n =? 133) || (n =? 160))%N.

(** [bool(s)]: a string is true when it is not empty. *)
Definition truthy (s : string) : bool :=
  match s with EmptyString => false | String _ _ => true end.

(** Leading characters that satisfy [sp] are dropped. *)
Fixpoint lstrip_with (sp : ascii -> bool) (s : string) : string :=
  match s with
  | String c s' => if sp c then lstrip_with sp s' else s
  | EmptyString => EmptyString
  end.

(** Trailing characters that satisfy [sp] are dropped: a character stays
    when it does not satisfy [sp] or when something remains after it. *)
Fixpoint rstrip_with (sp : ascii -> bool) (s : string) : string :=
  match s with
  | String c s' =>
      match rstrip_with sp s' with
      | EmptyString => if sp c then EmptyString else String c EmptyString
      | r => String c r
      end
  | EmptyString => EmptyString
  end.

Definition strip_with (sp : ascii -> bool) (s : string) : string :=
  rstrip_with sp (lstrip_with sp s).

(** [s.strip()] *)
Definition strip (s : string) : string := strip_with isspace s.

(** [s.split()]: the maximal runs of non-space characters.  [word] is the
    run being scanned. *)
Fixpoint split_from (word s : string) : list string :=
  match s with
  | String c s' =>
      if isspace c
      then (if truthy word then word :: split_from EmptyString s'
            else split_from EmptyString s')
      else split_from (word +:+ String c EmptyString) s'
  | EmptyString => if truthy word then [word] else []
  end.

Definition split (s : string) : list string := split_from EmptyString s.

(** [s[:n]] for [n >= 0] *)
Fixpoint take (n : nat) (s : string) : string :=
  match n, s with
  | S n', String c s' => String c (take n' s')
  | _, _ => EmptyString
  end.

(** [str.lower] on one code point below U+0100: A..Z and the capital
    letters U+00C0..U+00DE other than the multiplication sign U+00D7. *)
Definition lower_char (c : ascii) : ascii :=
  let n := N_of_ascii c in
  if ((65 <=? n) && (n <=? 90)
      || (192 <=? n) && (n <=? 222) && negb (n =? 215))%N
  then ascii_of_N (n + 32) else c.

Fixpoint lower (s : string) : string :=
  match s with
  | String c s' => String (lower_char c) (lower s')
  | EmptyString => EmptyString
  end.

(** [sep.join(ws)] *)
Fixpoint join (sep : string) (ws : list string) : string :=
  match ws with
  | [] => EmptyString
  | [w] => w
  | w :: ws' => w +:+ sep +:+ join sep ws'
  end.

(** [s * n] *)
Fixpoint repeat (s : string) (n : nat) : string :=
  match n with O => EmptyString | S n' => s +:+ repeat s n' end.

Definition has (sp : ascii -> bool) (s : string) : bool :=
  existsb sp (list_ascii_of_string s).

Definition has_space (s : string) : bool := has isspace s.

(** [str(n)] for an [int] *)
Definition of_Z (n : Z) : string := NilZero.string_of_int (Z.to_int n).

End Str.

(** ** Exceptions *)

(** An exception instance, identified with the text of [str(e)]. *)
Inductive exn := Exception (msg : string).

Definition str_exn (e : exn) : string := let 'Exception m := e in m.

Inductive result (A : Type) :=
| Return (a : A)
| Raise (e : exn).
Arguments Return {A} a.
Arguments Raise {A} e.

(** ** Floats *)

Module Float.

Definition float := spec_float.
Definition prec : Z := 53.
Definition emax : Z := 1024.

Definition mul : float -> float -> float := SFmul prec emax.
Definition sub : float -> float -> float := SFsub prec emax.

(** The binary64 number nearest to [k / p] (ties to even), for [0 <= k]
    and [0 < p], with sign [s]. *)
Definition of_ratio (s : bool) (k p : Z) : float :=
  if k =? 0 then S754_zero s
  else let '(q, e, l) := SFdiv_core_binary prec emax k 0 p 0 in
       binary_round_aux prec emax s q e l.

(** [float(n)] for an [int] *)
Definition of_Z (n : Z) : float := binary_normalize prec emax n 0 false.

(** [a / b] on [int]s: the correctly rounded quotient. *)
Definition truediv (a b : Z) : result float :=
  if b =? 0 then Raise (Exception "division by zero")
  else Return (of_ratio (xorb (a <? 0) (b <? 0)) (Z.abs a) (Z.abs b)).

(** The integer nearest to [n / d], ties to the even one ([0 <= n],
    [0 < d]). *)
Definition div_half_even (n d : Z) : Z :=
  let q := n / d in
  match (2 * (n mod d)) ?= d with
  | Lt => q
  | Gt => q + 1
  | Eq => if Z.even q then q else q + 1
  end.

(** [round(x, ndigits)] for [0 <= ndigits]: the exact value of [x] is
    rounded to a multiple [k / 10^ndigits], ties to even, and that decimal
    is converted back to the nearest float.  Infinities and NaN round to
    themselves. *)
Definition round (x : float) (ndigits : nat) : float :=
  match x with
  | S754_finite s m e =>
      let p := 10 ^ Z.of_nat ndigits in
      let k := if 0 <=? e then Z.pos m * 2 ^ e * p
               else div_half_even (Z.pos m * p) (2 ^ (- e)) in
      of_ratio s k p
  | _ => x
  end.

End Float.
Abbreviation float := Float.float.

(** ** UTF-8 and MD5 ([str.encode] and [hashlib.md5]) *)

Module MD5.

(** [s.encode()]: the UTF-8 bytes of a string over U+0000..U+00FF. *)
Fixpoint encode (s : string) : list Z :=
  match s with
  | String c s' =>
      let n := Z.of_N (N_of_ascii c) in
      if n <? 128 then n :: encode s'
      else Z.lor 192 (Z.shiftr n 6) :: Z.lor 128 (Z.land n 63) :: encode s'
  | EmptyString => []
  end.

Definition mask32 (x : Z) : Z := Z.land x 4294967295.
Definition add32 (x y : Z) : Z := mask32 (x + y).
Definition not32 (x : Z) : Z := Z.lxor x 4294967295.
Definition rotl32 (x c : Z) : Z :=
  mask32 (Z.lor (Z.shiftl x c) (Z.shiftr x (32 - c))).

(** [floor(2^32 * abs(sin(i + 1)))] for [i = 0..63] *)
Definition K : list Z :=
  [3614090360; 3905402710; 606105819; 3250441966; 4118548399; 1200080426;
   2821735955; 4249261313; 1770035416; 2336552879; 4294925233; 2304563134;
   1804603682; 4254626195; 2792965006; 1236535329; 4129170786; 3225465664;
   643717713; 3921069994; 3593408605; 38016083; 3634488961; 3889429448;
   568446438; 3275163606; 4107603335; 1163531501; 2850285829; 4243563512;
   1735328473; 2368359562; 4294588738; 2272392833; 1839030562; 4259657740;
   2763975236; 1272893353; 4139469664; 3200236656; 681279174; 3936430074;
   3572445317; 76029189; 3654602809; 3873151461; 530742520; 3299628645;
   4096336452; 1126891415; 2878612391; 4237533241; 1700485571; 2399980690;
   4293915773; 2240044497; 1873313359; 4264355552; 2734768916; 1309151649;
   4149444226; 3174756917; 718787259; 3951481745].

Definition shifts : list Z :=
  [7; 12; 17; 22; 7; 12; 17; 22; 7; 12; 17; 22; 7; 12; 17; 22;
   5; 9; 14; 20; 5; 9; 14; 20; 5; 9; 14; 20; 5; 9; 14; 20;
   4; 11; 16; 23; 4; 11; 16; 23; 4; 11; 16; 23; 4; 11; 16; 23;
   6; 10; 15; 21; 6; 10; 15; 21; 6; 10; 15; 21; 6; 10; 15; 21].

Definition le_bytes (n : nat) (x : Z) : list Z :=
  map (fun i => Z.land (Z.shiftr x (8 * Z.of_nat i)) 255) (seq 0 n).

Fixpoint le_word (bs : list Z) : Z :=
  match bs with
  | [] => 0
  | b :: bs' => b + 256 * le_word bs'
  end.

(** The message followed by 0x80, zeros up to 56 modulo 64, and the bit
    length on 8 bytes. *)
Definition pad (msg : list Z) : list Z :=
  let n := Z.of_nat (List.length msg) in
  let zeros := Z.to_nat ((55 - n) mod 64) in
  msg ++ [128] ++ List.repeat 0 zeros ++ le_bytes 8 ((8 * n) mod 2 ^ 64).

Fixpoint chunks (fuel size : nat) (bs : list Z) : list (list Z) :=
  match fuel, bs with
  | S fuel', _ :: _ => firstn size bs :: chunks fuel' size (skipn size bs)
  | _, _ => []
  end.

Definition words (block : list Z) : list Z :=
  map le_word (chunks 16 4 block).

Definition state : Type := Z * Z * Z * Z.

Definition step (m : list Z) (st : state) (i : nat) : state :=
  let '(a, b, c, d) := st in
  let zi := Z.of_nat i in
  let '(f, g) :=
    if zi <? 16 then (Z.lor (Z.land b c) (Z.land (not32 b) d), zi)
    else if zi <? 32
         then (Z.lor (Z.land d b) (Z.land (not32 d) c), (5 * zi + 1) mod 16)
    else if zi <? 48 then (Z.lxor (Z.lxor b c) d, (3 * zi + 5) mod 16)
    else (Z.lxor c (Z.lor b (not32 d)), (7 * zi) mod 16) in
  let f' := add32 (add32 (add32 f a) (nth i K 0)) (nth (Z.to_nat g) m 0) in
  (d, add32 b (rotl32 f' (nth i shifts 0)), b, c).

Definition compress (st : state) (block : list Z) : state :=
  let '(a0, b0, c0, d0) := st in
  let '(a, b, c, d) := fold_left (step (words block)) (seq 0 64) st in
  (add32 a0 a, add32 b0 b, add32 c0 c, add32 d0 d).

Definition init : state := (1732584193, 4023233417, 2562383102, 271733878).

Definition digest (msg : list Z) : list Z :=
  let padded := pad msg in
  let '(a, b, c, d) :=
    fold_left compress (chunks (List.length padded) 64 padded) init in
  le_bytes 4 a ++ le_bytes 4 b ++ le_bytes 4 c ++ le_bytes 4 d.

Definition hex_digit (n : Z) : ascii :=
  ascii_of_N (Z.to_N (if n <? 10 then 48 + n else 87 + n)).

Fixpoint hex (bs : list Z) : string :=
  match bs with
  | [] => EmptyString
  | b :: bs' => String (hex_digit (b / 16)) (String (hex_digit (b mod 16)) (hex bs'))
  end.

(** [hashlib.md5(data).hexdigest()] *)
Definition hexdigest (data : list Z) : string := hex (digest data).

End MD5.

(** ** Python values *)

#[local] Set Warnings "-register-all".

(** The values that JSON carries: what [request.get_json()] and
    [json.loads] return and what [jsonify] and [json.dumps] take.  A dict
    keeps its items in insertion order, with one item per key. *)
Inductive pyval :=
| PNone
| PBool (b : bool)
| PInt (n : Z)
| PFloat (x : float)
| PStr (s : string)
| PList (l : list pyval)
| PDict (d : list (string * pyval)).

Module Py.

(** [len(s)] *)
Definition len (s : string) : Z := Z.of_nat (String.length s).

(** [bool(v)] *)
Definition truthy (v : pyval) : bool :=
  match v with
  | PNone => false
  | PBool b => b
  | PInt n => negb (n =? 0)
  | PFloat (S754_zero _) => false
  | PFloat _ => true
  | PStr s => Str.truthy s
  | PList l => match l with [] => false | _ => true end
  | PDict d => match d with [] => false | _ => true end
  end.

(** [type(v).__name__] *)
Definition type_name (v : pyval) : string :=
  match v with
  | PNone => "NoneType"
  | PBool _ => "bool"
  | PInt _ => "int"
  | PFloat _ => "float"
  | PStr _ => "str"
  | PList _ => "list"
  | PDict _ => "dict"
  end.

Definition AttributeError (v : pyval) (attr : string) : exn :=
  Exception ("'" +:+ type_name v +:+ "' object has no attribute '" +:+ attr +:+ "'").

Fixpoint lookup (d : list (string * pyval)) (k : string) : option pyval :=
  match d with
  | [] => None
  | (k', v) :: d' => if String.eqb k' k then Some v else lookup d' k
  end.

(** [d[k] = v] on the items of a dict: an existing key keeps its place. *)
Fixpoint store (d : list (string * pyval)) (k : string) (v : pyval)
  : list (string * pyval) :=
  match d with
  | [] => [(k, v)]
  | (k', v') :: d' =>
      if String.eqb k' k then (k', v) :: d' else (k', v') :: store d' k v
  end.

(** [v.get(k, default)] *)
Definition get (v : pyval) (k : string) (default : pyval) : result pyval :=
  match v with
  | PDict d => Return (match lookup d k with Some x => x | None => default end)
  | _ => Raise (AttributeError v "get")
  end.

(** [v[k] = x] for a string key [k], giving the updated object. *)
Definition setitem (v : pyval) (k : string) (x : pyval) : result pyval :=
  match v with
  | PDict d => Return (PDict (store d k x))
  | PList _ =>
      Raise (Exception "list indices must be integers or slices, not str")
  | _ => Raise (Exception ("'" +:+ type_name v
                           +:+ "' object does not support item assignment"))
  end.

(** [v.strip()] *)
Definition strip (v : pyval) : result string :=
  match v with
  | PStr s => Return (Str.strip s)
  | _ => Raise (AttributeError v "strip")
  end.

(** [v.lower()] *)
Definition lower (v : pyval) : result string :=
  match v with
  | PStr s => Return (Str.lower s)
  | _ => Raise (AttributeError v "lower")
  end.

(** [v[k]] when [v] is a dict that has the key [k] *)
Definition field (v : pyval) (k : string) : option pyval :=
  match v with
  | PDict d => lookup d k
  | _ => None
  end.

Definition is_digit (c : ascii) : bool :=
  let n := N_of_ascii c in ((48 <=? n) && (n <=? 57))%N.

(** The digits of an [int] literal given to [int()]: single underscores
    may separate digits.  [prev] tells whether the previous character was a
    digit. *)
Fixpoint digits (prev : bool) (s : string) : option string :=
  match s with
  | EmptyString => if prev then Some EmptyString else None
  | String c s' =>
      if is_digit c then option_map (String c) (digits true s')
      else if Ascii.eqb c "_" then (if prev then digits false s' else None)
      else None
  end.

Definition nat_literal (s : string) : option Z :=
  match digits false s with
  | Some ds => option_map Z.of_uint (NilZero.uint_of_string ds)
  | None => None
  end.

(** The white space that [int()] accepts around a literal, on one code
    point below U+0100: TAB..CR, SPACE, NEL and NBSP (FS..US are not). *)
Definition int_space (c : ascii) : bool :=
  let n := N_of_ascii c in
  ((9 <=? n) && (n <=? 13) || (n =? 32) || (n =? 133) || (n =? 160))%N.

(** [int(s)] in base 10: surrounding white space is dropped, a sign may
    come first.  The limit on the number of digits that recent
    interpreters apply is left out. *)
Definition int (s : string) : result Z :=
  let parsed :=
    match Str.strip_with int_space s with
    | String "+" r => nat_literal r
    | String "-" r => option_map Z.opp (nat_literal r)
    | r => nat_literal r
    end in
  match parsed with
  | Some n => Return n
  | None => Raise (Exception ("invalid literal for int() with base 10: '"
                              +:+ s +:+ "'"))
  end.

End Py.

(** The [json] module, as far as the application uses it.  [json_loads]
    raises on text that is not JSON. *)
Class Json := {
  json_dumps : pyval -> string;
  json_loads : string -> result pyval
}.

(** ** The Redis server and its client *)

Module Redis.

(** A key holds a string and, when it is volatile, the time in
    milliseconds at which it expires. *)
Record entry := Entry { value : string; deadline : option Z }.

(** A round trip that fails: the client raises [error]; the command had
    reached the server and was run when [applied] is set. *)
Record fault := Fault { applied : bool; error : exn }.

(** The server: its keys and its clock (milliseconds).  [outage n] tells
    whether the [n]-th round trip of the client fails; [trips] counts the
    round trips made so far. *)
Record server := Server {
  db : gmap string entry;
  clock : Z;
  outage : nat -> option fault;
  trips : nat
}.

Definition with_db (d : gmap string entry) (r : server) : server :=
  Server d (clock r) (outage r) (trips r).

(** The server after one more round trip of the client. *)
Definition bump (r : server) : server :=
  Server (db r) (clock r) (outage r) (S (trips r)).

(** Time passes on the server. *)
Definition tick (ms : Z) (r : server) : server :=
  Server (db r) (clock r + ms) (outage r) (trips r).

Definition expired (now : Z) (e : entry) : bool :=
  match deadline e with
  | Some t => t <? now
  | None => false
  end.

(** The entry of a key that is present and has not expired. *)
Definition live (key : string) (r : server) : option entry :=
  match db r !! key with
  | Some e => if expired (clock r) e then None else Some e
  | None => None
  end.

(** The value of a key read as a signed 64-bit integer in canonical
    decimal form. *)
Definition to_int64 (s : string) : option Z :=
  match NilZero.int_of_string s with
  | Some i =>
      let n := Z.of_int i in
      if String.eqb (Str.of_Z n) s && (- 2 ^ 63 <=? n) && (n <? 2 ^ 63)
      then Some n else None
  | None => None
  end.

Inductive command :=
| GET (key : string)
| SETEX (key : string) (seconds : Z) (val : string)
| INCR (key : string)
| EXPIRE (key : string) (seconds : Z).

Inductive reply :=
| Bulk (s : option string)
| Status (s : string)
| Integer (n : Z)
| Error (msg : string).

(** The server runs one command. *)
Definition run (c : command) (r : server) : reply * server :=
  match c with
  | GET key => (Bulk (option_map value (live key r)), r)
  | SETEX key seconds val =>
      if seconds <=? 0
      then (Error "invalid expire time in 'setex' command", r)
      else (Status "OK",
            with_db (<[key := Entry val (Some (clock r + 1000 * seconds))]> (db r)) r)
  | INCR key =>
      match live key r with
      | None => (Integer 1, with_db (<[key := Entry "1" None]> (db r)) r)
      | Some e =>
          match to_int64 (value e) with
          | None => (Error "value is not an integer or out of range", r)
          | Some n =>
              if n =? 2 ^ 63 - 1
              then (Error "increment or decrement would overflow", r)
              else (Integer (n + 1),
                    with_db (<[key := Entry (Str.of_Z (n + 1)) (deadline e)]> (db r)) r)
          end
      end
  | EXPIRE key seconds =>
      match live key r with
      | None => (Integer 0, r)
      | Some e =>
          if seconds <=? 0 then (Integer 1, with_db (delete key (db r)) r)
          else (Integer 1,
                with_db (<[key := Entry (value e) (Some (clock r + 1000 * seconds))]> (db r)) r)
      end
  end.

(** The commands of a MULTI/EXEC block run one after the other; a command
    that fails does not stop the ones after it. *)
Fixpoint run_all (cs : list command) (r : server) : list reply * server :=
  match cs with
  | [] => ([], r)
  | c :: cs' =>
      let '(x, r1) := run c r in
      let '(xs, r2) := run_all cs' r1 in
      (x :: xs, r2)
  end.

(** One round trip of the client. *)
Definition round_trip {A : Type} (op : server -> A * server) (r : server)
  : result A * server :=
  let r' := bump r in
  match outage r (trips r) with
  | Some f => (Raise (error f), if applied f then snd (op r') else r')
  | None => let '(a, r'') := op r' in (Return a, r'')
  end.

Fixpoint first_error (xs : list reply) : option string :=
  match xs with
  | [] => None
  | Error msg :: _ => Some msg
  | _ :: xs' => first_error xs'
  end.

(** The client raises on an error reply. *)
Definition checked {A : Type} (x : result (list reply) * server)
  (k : list reply -> A) : result A * server :=
  match x with
  | (Return xs, r) =>
      match first_error xs with
      | Some msg => (Raise (Exception msg), r)
      | None => (Return (k xs), r)
      end
  | (Raise e, r) => (Raise e, r)
  end.

(** [redis_client.get(key)] with [decode_responses=True] *)
Definition get (key : string) (r : server) : result (option string) * server :=
  checked (round_trip (run_all [GET key]) r)
    (fun xs => match xs with Bulk s :: _ => s | _ => None end).

(** [redis_client.setex(key, seconds, val)] *)
Definition setex (key : string) (seconds : Z) (val : string) (r : server)
  : result unit * server :=
  checked (round_trip (run_all [SETEX key seconds val]) r) (fun _ => tt).

(** [pipe.execute()] for a pipeline holding the commands [cs] *)
Definition execute (cs : list command) (r : server)
  : result (list reply) * server :=
  checked (round_trip (run_all cs) r) (fun xs => xs).

End Redis.

(** ** The process state and the monad of request handling *)

(** The loaded summarization pipeline, called as
    [model(text, max_length=.., min_length=.., do_sample=False,
    truncation=True)]: it raises, or it returns a list whose first item
    holds the summary under ['summary_text'], which is given here. *)
Definition Model : Type := string -> Z -> Z -> result string.

(** The module-level state of app.py: the flag set once at start-up, the
    server behind [redis_client], and [ModelManager._model]. *)
Record world := World {
  REDIS_AVAILABLE : bool;
  redis_client : Redis.server;
  _model : option Model
}.

(** What the outside answers while one request is handled: the outcome of
    [pipeline("summarization", ...)] should the model be loaded, the two
    readings of [time.time()] around the model call, and
    [datetime.utcnow().isoformat()]. *)
Record env := Env {
  pipeline : result Model;
  time_start : float;
  time_end : float;
  utcnow_isoformat : string
}.

(** The Flask request: [request.remote_addr] and the outcome of
    [request.get_json()]. *)
Record request := Request {
  remote_addr : string;
  get_json : result pyval
}.

(** [jsonify(body), status] *)
Record response := Response {
  body : pyval;
  status : Z
}.

Definition M (A : Type) : Type := world -> result A * world.

Definition ret {A : Type} (a : A) : M A := fun w => (Return a, w).

Definition raise {A : Type} (e : exn) : M A := fun w => (Raise e, w).

Definition bind {A B : Type} (m : M A) (k : A -> M B) : M B :=
  fun w =>
    match m w with
    | (Return a, w') => k a w'
    | (Raise e, w') => (Raise e, w')
    end.

(** [try: body / except Exception as e: handler(e)] *)
Definition try_except {A : Type} (body : M A) (handler : exn -> M A) : M A :=
  fun w =>
    match body w with
    | (Return a, w') => (Return a, w')
    | (Raise e, w') => handler e w'
    end.

Definition lift {A : Type} (r : result A) : M A := fun w => (r, w).

Definition gets {A : Type} (f : world -> A) : M A := fun w => (Return (f w), w).

(** A call on [redis_client]. *)
Definition redis {A : Type} (op : Redis.server -> result A * Redis.server) : M A :=
  fun w =>
    let '(x, r) := op (redis_client w) in
    (x, World (REDIS_AVAILABLE w) r (_model w)).

Definition set_model (m : option Model) : M unit :=
  fun w => (Return tt, World (REDIS_AVAILABLE w) (redis_client w) m).

Declare Scope py_scope.
Delimit Scope py_scope with py.
Notation "x <- c1 ;; c2" := (bind c1 (fun x => c2))
  (at level 100, c1 at next level, right associativity) : py_scope.
Notation "c1 ;; c2" := (bind c1 (fun _ => c2))
  (at level 100, right associativity) : py_scope.
Local Open Scope py_scope.

(** ** app.py *)

(** [ModelManager.get_model] *)
Definition get_model (ev : env) : M (option Model) :=
  m <- gets _model;;
  match m with
  | None => loaded <- lift (pipeline ev);; set_model (Some loaded)
  | Some _ => ret tt
  end;;
  gets _model.

(** [model(...)] on what [get_model] returned *)
Definition call (model : option Model) (text : string) (max_length min_length : Z)
  : result string :=
  match model with
  | Some m => m text max_length min_length
  | None => Raise (Exception "'NoneType' object is not callable")
  end.

(** [rate_limit(max_requests, window)(f)]: the decorated handler. *)
Definition rate_limit (max_requests window : Z) (f : request -> M response)
  : request -> M response :=
  fun req =>
    available <- gets REDIS_AVAILABLE;;
    if negb available then f req
    else
      let ip := remote_addr req in
      let key := "rate_limit:" +:+ ip in
      rejected <-
        try_except
          (current <- redis (Redis.get key);;
           over <- match current with
                   | Some s =>
                       if Str.truthy s
                       then n <- lift (Py.int s);; ret (max_requests <=? n)
                       else ret false
                   | None => ret false
                   end;;
           if (over : bool)
           then ret (Some (Response
                  (PDict [("error", PStr "Rate limit exceeded");
                          ("message", PStr ("Max " +:+ Str.of_Z max_requests
                                            +:+ " requests per "
                                            +:+ Str.of_Z window +:+ "s"))])
                  429))
           else
             let pipe := [Redis.INCR key; Redis.EXPIRE key window] in
             redis (Redis.execute pipe);;
             ret None)
          (fun e => ret None);;
      match rejected with
      | Some r => ret r
      | None => f req
      end.

(** [get_cache_key] *)
Definition get_cache_key (text length : string) : string :=
  let content := Str.take 1000 text +:+ ":" +:+ length in
  "summary:" +:+ MD5.hexdigest (MD5.encode content).

Section WithJson.

Context `{Json}.

(** [get_cached_summary] *)
Definition get_cached_summary (text length : string) : M pyval :=
  available <- gets REDIS_AVAILABLE;;
  if negb available then ret PNone
  else
    found <-
      try_except
        (let key := get_cache_key text length in
         cached <- redis (Redis.get key);;
         match cached with
         | Some s =>
             if Str.truthy s
             then v <- lift (json_loads s);; ret (Some v)
             else ret None
         | None => ret None
         end)
        (fun e => ret None);;
    match found with
    | Some v => ret v
    | None => ret PNone
    end.

(** [cache_summary] *)
Definition cache_summary (text length : string) (summary_data : pyval) : M unit :=
  available <- gets REDIS_AVAILABLE;;
  if negb available then ret tt
  else
    try_except
      (let key := get_cache_key text length in
       redis (Redis.setex key 86400 (json_dumps summary_data)))
      (fun e => ret tt).

(** [validate_input] *)
Definition validate_input (text length : string) : list string :=
  let errors := [] in
  let errors :=
    if negb (Str.truthy text) || negb (Str.truthy (Str.strip text))
    then errors ++ ["Text cannot be empty"] else errors in
  let errors :=
    if 10000 <? Py.len text
    then errors ++ ["Text too long (max 10,000 characters)"] else errors in
  let errors :=
    if Z.of_nat (List.length (Str.split text)) <? 30
    then errors ++ ["Text too short (minimum 30 words)"] else errors in
  let errors :=
    if negb (existsb (String.eqb length) ["short"; "medium"; "long"])
    then errors ++ ["Invalid length option"] else errors in
  errors.

(** [length_config.get(length, length_config['medium'])], as the pair
    [(max_length, min_length)] *)
Definition length_config (length : string) : Z * Z :=
  if String.eqb length "short" then (50, 20)
  else if String.eqb length "medium" then (130, 30)
  else if String.eqb length "long" then (250, 50)
  else (130, 30).

(** [generate_summary] *)
Definition generate_summary (ev : env) (text length : string) : M pyval :=
  try_except
    (cached <- get_cached_summary text length;;
     if Py.truthy cached
     then lift (Py.setitem cached "cached" (PBool true))
     else
       let config := length_config length in
       model <- get_model ev;;
       let start_time := time_start ev in
       summary_text <- lift (call model text (fst config) (snd config));;
       let inference_time := Float.sub (time_end ev) start_time in
       ratio <- lift (Float.truediv (Py.len summary_text) (Py.len text));;
       let response :=
         PDict
           [("summary", PStr summary_text);
            ("original_length", PInt (Z.of_nat (List.length (Str.split text))));
            ("summary_length",
              PInt (Z.of_nat (List.length (Str.split summary_text))));
            ("compression_ratio",
              PFloat (Float.round (Float.mul ratio (Float.of_Z 100)) 1));
            ("inference_time", PFloat (Float.round inference_time 2));
            ("cached", PBool false);
            ("timestamp", PStr (utcnow_isoformat ev))] in
       cache_summary text length response;;
       ret response)
    (fun e => raise e).

(** [summarize], the handler of POST /api/summarize before decoration *)
Definition summarize (ev : env) (req : request) : M response :=
  try_except
    (data <- lift (get_json req);;
     if negb (Py.truthy data)
     then ret (Response (PDict [("error", PStr "No JSON data provided")]) 400)
     else
       text_field <- lift (Py.get data "text" (PStr ""));;
       text <- lift (Py.strip text_field);;
       length_field <- lift (Py.get data "length" (PStr "medium"));;
       length <- lift (Py.lower length_field);;
       let errors := validate_input text length in
       match errors with
       | first :: _ => ret (Response (PDict [("error", PStr first)]) 400)
       | [] =>
           result <- generate_summary ev text length;;
           ret (Response (PDict [("success", PBool true); ("data", result)]) 200)
       end)
    (fun e =>
       ret (Response
              (PDict [("success", PBool false);
                      ("error", PStr "Internal server error");
                      ("message", PStr (str_exn e))])
              500)).

(** POST /api/summarize: [summarize] under
    [@rate_limit(max_requests=10, window=60)] *)
Definition api_summarize (ev : env) : request -> M response :=
  rate_limit 10 60 (summarize ev).

End WithJson.

(** [health_check], the handler of GET /api/health *)
Definition health_check (ev : env) : M response :=
  try_except
    (model <- get_model ev;;
     available <- gets REDIS_AVAILABLE;;
     let redis_status := if (available : bool) then "connected" else "disconnected" in
     ret (Response
            (PDict [("status", PStr "healthy");
                    ("model_loaded",
                      PBool (match model with Some _ => true | None => false end));
                    ("redis", PStr redis_status);
                    ("timestamp", PStr (utcnow_isoformat ev))])
            200))
    (fun e =>
       ret (Response
              (PDict [("status", PStr "unhealthy"); ("error", PStr (str_exn e))])
              503)).


(** ** The start-up and the statistics endpoint *)

(** The commands of the client that ask the server about itself. *)
Module Admin.

(** [redis_client.ping()] *)
Definition ping (r : Redis.server) : result bool * Redis.server :=
  Redis.round_trip (fun r' => (true, r')) r.

(** [redis_client.info()], the server answering with [stats] *)
Definition info (stats : list (string * pyval)) (r : Redis.server)
  : result (list (string * pyval)) * Redis.server :=
  Redis.round_trip (fun r' => (stats, r')) r.

(** [redis_client.dbsize()], the server counting [keys] keys *)
Definition dbsize (keys : Z) (r : Redis.server) : result Z * Redis.server :=
  Redis.round_trip (fun r' => (keys, r')) r.

End Admin.

(** What the server says about itself while one request is handled: the
    fields of its INFO reply and the number of keys that DBSIZE counts. *)
Record diagnostics := Diagnostics {
  server_info : list (string * pyval);
  server_keys : Z
}.

(** The module level of app.py: the client is built, the server is pinged
    and [REDIS_AVAILABLE] is set; any exception clears it.  The model
    manager starts without a model. *)
Definition startup (r : Redis.server) : world :=
  let '(pong, r') := Admin.ping r in
  World (match pong with Return _ => true | Raise _ => false end) r' None.

(** [info.get(k, default)] on the dict of INFO *)
Definition info_get (info : list (string * pyval)) (k : string) (default : pyval)
  : pyval :=
  match Py.lookup info k with
  | Some v => v
  | None => default
  end.

(** [get_stats], the handler of GET /api/stats *)
Definition get_stats (dg : diagnostics) : M response :=
  available <- gets REDIS_AVAILABLE;;
  if negb available
  then ret (Response (PDict [("error", PStr "Redis not available")]) 503)
  else
    try_except
      (info <- redis (Admin.info (server_info dg));;
       cache_keys <- redis (Admin.dbsize (server_keys dg));;
       ret (Response
              (PDict [("cache_keys", PInt cache_keys);
                      ("memory_used",
                        info_get info "used_memory_human" (PStr "N/A"));
                      ("connected_clients",
                        info_get info "connected_clients" (PInt 0))])
              200))
      (fun e => ret (Response (PDict [("error", PStr (str_exn e))]) 500)).

(** One thing that happens to the process: a request on one of its three
    API routes, or time passing. *)
Inductive event :=
| Summarize (ev : env) (req : request)
| Health (ev : env)
| Stats (dg : diagnostics)
| Wait (ms : Z).

Section Events.

Context `{Json}.

(** The response to an event, if it is a request, and the process after it. *)
Definition handle (e : event) (w : world) : option (result response) * world :=
  match e with
  | Summarize ev req => let '(r, w') := api_summarize ev req w in (Some r, w')
  | Health ev => let '(r, w') := health_check ev w in (Some r, w')
  | Stats dg => let '(r, w') := get_stats dg w in (Some r, w')
  | Wait ms => (None, World (REDIS_AVAILABLE w)
                            (Redis.tick ms (redis_client w)) (_model w))
  end.

(** The process after a sequence of events. *)
Fixpoint run (es : list event) (w : world) : world :=
  match es with
  | [] => w
  | e :: es' => run es' (snd (handle e w))
  end.

End Events.

(** ** Requests in flight

    The server gives every request a thread of its own, and the handlers
    take no lock.  Between two accesses of a thread to what the threads
    share (a round trip to the store, a read or a write of
    [ModelManager._model]) other threads may run.  A [stage] is a request as
    far as its thread has come; [step] takes it to its next stage: the work
    local to the thread, up to and including its next access. *)

(** The caller of [get_model]: [generate_summary] for a text and a length
    option, or [health_check]. *)
Inductive caller :=
| ForSummary (text length : string)
| ForHealth.

Inductive stage :=
| Arrived (ev : env) (req : request)
  (* [wrapped] is entered *)
| Checked (ev : env) (req : request)
  (* the counter was read below the limit; the pipeline is not sent yet *)
| Passed (ev : env) (req : request)
  (* [summarize] is entered *)
| Missed (ev : env) (c : caller)
  (* [get_model] is entered *)
| Loading (ev : env) (c : caller)
  (* [_model] was read as [None]; [pipeline] runs *)
| Fetching (ev : env) (c : caller)
  (* at [return self._model] *)
| Holding (ev : env) (text length : string) (model : option Model)
  (* [generate_summary] has the model *)
| Polling (dg : diagnostics)
  (* [get_stats] is entered *)
| Counting (dg : diagnostics) (info : list (string * pyval))
  (* INFO was answered *)
| Done (r : result response).
  (* the handler has returned *)

(** What the check of the limiter finds: the count is at the limit, it is
    below, or the read failed and the request goes on uncounted. *)
Inductive verdict := Over | Below | Unchecked.

(** The [try] of [wrapped] up to the pipeline: the counter is read and
    compared; an exception is logged and dropped. *)
Definition check_counter (max_requests : Z) (req : request) : M verdict :=
  let key := "rate_limit:" +:+ remote_addr req in
  try_except
    (current <- redis (Redis.get key);;
     over <- match current with
             | Some s =>
                 if Str.truthy s
                 then n <- lift (Py.int s);; ret (max_requests <=? n)
                 else ret false
             | None => ret false
             end;;
     ret (if (over : bool) then Over else Below))
    (fun e => ret Unchecked).

(** The rest of the [try] of [wrapped]: the pipeline is sent; an exception
    is logged and dropped. *)
Definition count_request (window : Z) (req : request) : M unit :=
  let key := "rate_limit:" +:+ remote_addr req in
  try_except
    (redis (Redis.execute [Redis.INCR key; Redis.EXPIRE key window]);; ret tt)
    (fun e => ret tt).

(** [if self._model is None] *)
Definition test_model (ev : env) (c : caller) : M stage :=
  m <- gets _model;;
  ret (match m with None => Loading ev c | Some _ => Fetching ev c end).

(** [self._model = pipeline(...)] *)
Definition load_model (ev : env) (c : caller) : M stage :=
  loaded <- lift (pipeline ev);;
  set_model (Some loaded);;
  ret (Fetching ev c).

(** [return self._model] and, in [health_check], the answer *)
Definition fetch_model (ev : env) (c : caller) : M stage :=
  model <- gets _model;;
  match c with
  | ForSummary text length => ret (Holding ev text length model)
  | ForHealth =>
      available <- gets REDIS_AVAILABLE;;
      let redis_status := if (available : bool) then "connected" else "disconnected" in
      ret (Done (Return
             (Response
                (PDict [("status", PStr "healthy");
                        ("model_loaded",
                          PBool (match model with Some _ => true | None => false end));
                        ("redis", PStr redis_status);
                        ("timestamp", PStr (utcnow_isoformat ev))])
                200)))
  end.

(** [get_stats] up to its first round trip *)
Definition poll_stats (dg : diagnostics) : M stage :=
  available <- gets REDIS_AVAILABLE;;
  if negb available
  then ret (Done (Return (Response (PDict [("error", PStr "Redis not available")]) 503)))
  else info <- redis (Admin.info (server_info dg));; ret (Counting dg info).

(** [get_stats] from its second round trip *)
Definition count_keys (dg : diagnostics) (info : list (string * pyval)) : M stage :=
  cache_keys <- redis (Admin.dbsize (server_keys dg));;
  ret (Done (Return
         (Response
            (PDict [("cache_keys", PInt cache_keys);
                    ("memory_used", info_get info "used_memory_human" (PStr "N/A"));
                    ("connected_clients",
                      info_get info "connected_clients" (PInt 0))])
            200))).

Section Threads.

Context `{Json}.

(** [summarize] up to the cache lookup of [generate_summary] *)
Definition enter_summarize (ev : env) (req : request) : M stage :=
  data <- lift (get_json req);;
  if negb (Py.truthy data)
  then ret (Done (Return (Response (PDict [("error", PStr "No JSON data provided")]) 400)))
  else
    text_field <- lift (Py.get data "text" (PStr ""));;
    text <- lift (Py.strip text_field);;
    length_field <- lift (Py.get data "length" (PStr "medium"));;
    length <- lift (Py.lower length_field);;
    match validate_input text length with
    | first :: _ => ret (Done (Return (Response (PDict [("error", PStr first)]) 400)))
    | [] =>
        cached <- get_cached_summary text length;;
        if Py.truthy cached
        then result <- lift (Py.setitem cached "cached" (PBool true));;
             ret (Done (Return
                    (Response (PDict [("success", PBool true); ("data", result)]) 200)))
        else ret (Missed ev (ForSummary text length))
    end.

(** [generate_summary] from the call of the model, and the answer of
    [summarize] *)
Definition summarize_with (ev : env) (text length : string) (model : option Model)
  : M stage :=
  let config := length_config length in
  let start_time := time_start ev in
  summary_text <- lift (call model text (fst config) (snd config));;
  let inference_time := Float.sub (time_end ev) start_time in
  ratio <- lift (Float.truediv (Py.len summary_text) (Py.len text));;
  let response :=
    PDict
      [("summary", PStr summary_text);
       ("original_length", PInt (Z.of_nat (List.length (Str.split text))));
       ("summary_length", PInt (Z.of_nat (List.length (Str.split summary_text))));
       ("compression_ratio",
         PFloat (Float.round (Float.mul ratio (Float.of_Z 100)) 1));
       ("inference_time", PFloat (Float.round inference_time 2));
       ("cached", PBool false);
       ("timestamp", PStr (utcnow_isoformat ev))] in
  cache_summary text length response;;
  ret (Done (Return (Response (PDict [("success", PBool true); ("data", response)]) 200))).

(** The next access of a thread, with the local work before it. *)
Definition action (s : stage) : M stage :=
  match s with
  | Arrived ev req =>
      available <- gets REDIS_AVAILABLE;;
      if negb available then ret (Passed ev req)
      else
        v <- check_counter 10 req;;
        ret (match v with
             | Over =>
                 Done (Return
                   (Response
                      (PDict [("error", PStr "Rate limit exceeded");
                              ("message", PStr ("Max " +:+ Str.of_Z 10
                                                +:+ " requests per "
                                                +:+ Str.of_Z 60 +:+ "s"))])
                      429))
             | Below => Checked ev req
             | Unchecked => Passed ev req
             end)
  | Checked ev req => count_request 60 req;; ret (Passed ev req)
  | Passed ev req => enter_summarize ev req
  | Missed ev c => test_model ev c
  | Loading ev c => load_model ev c
  | Fetching ev c => fetch_model ev c
  | Holding ev text length model => summarize_with ev text length model
  | Polling dg => poll_stats dg
  | Counting dg info => count_keys dg info
  | Done r => ret (Done r)
  end.

(** The [except] clause around a stage: what the handler answers when the
    stage raises [e]. *)
Definition on_error (s : stage) (e : exn) : result response :=
  match s with
  | Missed _ ForHealth | Loading _ ForHealth | Fetching _ ForHealth =>
      Return (Response
                (PDict [("status", PStr "unhealthy"); ("error", PStr (str_exn e))])
                503)
  | Polling _ | Counting _ _ =>
      Return (Response (PDict [("error", PStr (str_exn e))]) 500)
  | Arrived _ _ | Checked _ _ => Raise e
  | Done r => r
  | _ =>
      Return (Response
                (PDict [("success", PBool false);
                        ("error", PStr "Internal server error");
                        ("message", PStr (str_exn e))])
                500)
  end.

Definition step (s : stage) (w : world) : stage * world :=
  match action s w with
  | (Return s', w') => (s', w')
  | (Raise e, w') => (Done (on_error s e), w')
  end.

(** A thread that runs alone for [n] steps. *)
Fixpoint finish (n : nat) (s : stage) (w : world) : stage * world :=
  match n with
  | O => (s, w)
  | S n' => let '(s', w') := step s w in finish n' s' w'
  end.

(** The stage in which the thread of a request starts. *)
Definition enter (e : event) : option stage :=
  match e with
  | Summarize ev req => Some (Arrived ev req)
  | Health ev => Some (Missed ev ForHealth)
  | Stats dg => Some (Polling dg)
  | Wait _ => None
  end.

(** What the scheduler does next: an event happens (a request arrives and
    gets a thread, or time passes), or the thread of the [i]-th request runs
    up to and including its next access. *)
Inductive move :=
| Begin (e : event)
| Advance (i : nat).

(** The process and the requests it has accepted, each at its stage. *)
Definition play (m : move) (st : world * list stage) : world * list stage :=
  let '(w, pool) := st in
  match m with
  | Begin (Wait ms) =>
      (World (REDIS_AVAILABLE w) (Redis.tick ms (redis_client w)) (_model w), pool)
  | Begin e =>
      match enter e with
      | Some s => (w, pool ++ [s])
      | None => (w, pool)
      end
  | Advance i =>
      match pool !! i with
      | Some s => let '(s', w') := step s w in (w', <[i := s']> pool)
      | None => (w, pool)
      end
  end.

Fixpoint plays (ms : list move) (st : world * list stage) : world * list stage :=
  match ms with
  | [] => st
  | m :: ms' => plays ms' (play m st)
  end.

End Threads.
(** ** Vocabulary of the properties *)

(** The text and the length option that [summarize] hands to
    [validate_input]: the request body is a true value, its ['text'] strips
    and its ['length'] lowers without an exception. *)
Definition request_fields (req : request) : option (string * string) :=
  match get_json req with
  | Return data =>
      if Py.truthy data then
        match Py.get data "text" (PStr "") with
        | Return text_field =>
            match Py.strip text_field with
            | Return text =>
                match Py.get data "length" (PStr "medium") with
                | Return length_field =>
                    match Py.lower length_field with
                    | Return length => Some (text, length)
                    | Raise _ => None
                    end
                | Raise _ => None
                end
            | Raise _ => None
            end
        | Raise _ => None
        end
      else None
  | Raise _ => None
  end.

(** A word: a non-empty string without white space. *)
Definition word (s : string) : Prop :=
  Str.truthy s = true /\ Str.has_space s = false.

(** The body of the 500 response for the exception [e]. *)
Definition internal_error (e : exn) : response :=
  Response
    (PDict [("success", PBool false);
            ("error", PStr "Internal server error");
            ("message", PStr (str_exn e))])
    500.

(** The 429 response of the rate limiter. *)
Definition rate_limited (max_requests window : Z) : response :=
  Response
    (PDict [("error", PStr "Rate limit exceeded");
            ("message", PStr ("Max " +:+ Str.of_Z max_requests
                              +:+ " requests per " +:+ Str.of_Z window +:+ "s"))])
    429.

(** The key of the rate counter of the client of a request. *)
Definition rate_key (req : request) : string := "rate_limit:" +:+ remote_addr req.

(** The next round trip to the store succeeds. *)
Definition answers (r : Redis.server) : Prop :=
  Redis.outage r (Redis.trips r) = None.

(** The store answers from now on. *)
Definition up (r : Redis.server) : Prop :=
  forall n, (Redis.trips r <= n)%nat -> Redis.outage r n = None.

(** The store cannot be reached, now or later: every round trip fails
    before its command is run. *)
Definition unreachable (r : Redis.server) : Prop :=
  forall n, exists e, Redis.outage r n = Some (Redis.Fault false e).

(** The process with the server [r] behind [redis_client]. *)
Definition with_redis (r : Redis.server) (w : world) : world :=
  World (REDIS_AVAILABLE w) r (_model w).

(** The process [ms] milliseconds later. *)
Definition later (ms : Z) (w : world) : world :=
  with_redis (Redis.tick ms (redis_client w)) w.

(** The entry of the rate counter of [ip], as the server holds it. *)
Definition counter (ip : string) (w : world) : option Redis.entry :=
  Redis.db (redis_client w) !! ("rate_limit:" +:+ ip).

(** [w'] differs from [w] by what handling a request under the limiter may
    do: the flag, the clock and the outages are the same, round trips were
    made, and every rate counter is as it was. *)
Definition keeps (w w' : world) : Prop :=
  REDIS_AVAILABLE w' = REDIS_AVAILABLE w
  /\ Redis.clock (redis_client w') = Redis.clock (redis_client w)
  /\ Redis.outage (redis_client w') = Redis.outage (redis_client w)
  /\ (Redis.trips (redis_client w) <= Redis.trips (redis_client w'))%nat
  /\ forall ip, counter ip w' = counter ip w.

(** A computation that [keeps] the world it runs in. *)
Definition keeping {A : Type} (m : M A) : Prop :=
  forall w, keeps w (snd (m w)).

(** The count that the limiter finds for the client of a request: 0 when
    the counter is absent or has expired, nothing when the stored text is
    not an integer for the server. *)
Definition count (req : request) (w : world) : option Z :=
  match Redis.live (rate_key req) (redis_client w) with
  | None => Some 0
  | Some e => Redis.to_int64 (Redis.value e)
  end.

(** The process once the limiter has let through a request that found the
    count [n]: the counter holds [n + 1] and expires [window] seconds from
    now; two round trips were made. *)
Definition counted (window n : Z) (req : request) (w : world) : world :=
  let r := redis_client w in
  with_redis
    (Redis.with_db
       (<[rate_key req := Redis.Entry (Str.of_Z (n + 1))
                            (Some (Redis.clock r + 1000 * window))]> (Redis.db r))
       (Redis.bump (Redis.bump r)))
    w.

(** [n] requests in a row on the handler [h], [gap] milliseconds after one
    another; the outcomes come out in order. *)
Fixpoint burst (h : request -> M response) (req : request) (n : nat) (gap : Z)
    (w : world) : list (result response) * world :=
  match n with
  | O => ([], w)
  | S n' =>
      let '(r, w1) := h req w in
      let '(rs, w2) := burst h req n' gap (later gap w1) in
      (r :: rs, w2)
  end.

(** An outcome that is a response other than the 429 of the limiter. *)
Definition served (r : result response) : Prop :=
  exists resp, r = Return resp /\ status resp <> 429.

(** The limiter is in force for the client of [req], who has made [n]
    counted requests in the running window. *)
Definition ready (n : Z) (req : request) (w : world) : Prop :=
  REDIS_AVAILABLE w = true /\ up (redis_client w) /\ count req w = Some n.

(** The summary that [generate_summary] builds on a cache miss, from the
    text of the model and the quotient of the two character counts. *)
Definition fresh_summary (ev : env) (text summary_text : string) (ratio : float)
  : pyval :=
  PDict
    [("summary", PStr summary_text);
     ("original_length", PInt (Z.of_nat (List.length (Str.split text))));
     ("summary_length", PInt (Z.of_nat (List.length (Str.split summary_text))));
     ("compression_ratio",
       PFloat (Float.round (Float.mul ratio (Float.of_Z 100)) 1));
     ("inference_time",
       PFloat (Float.round (Float.sub (time_end ev) (time_start ev)) 2));
     ("cached", PBool false);
     ("timestamp", PStr (utcnow_isoformat ev))].

(** The 200 response of [summarize] around a summary. *)
Definition success (data : pyval) : response :=
  Response (PDict [("success", PBool true); ("data", data)]) 200.

(** What a cache lookup finds in the entry of its key. *)
Definition cached_value `{Json} (o : option Redis.entry) : pyval :=
  match o with
  | Some e =>
      if Str.truthy (Redis.value e)
      then match json_loads (Redis.value e) with
           | Return v => v
           | Raise _ => PNone
           end
      else PNone
  | None => PNone
  end.

(** The model is loaded, or loads, as [m]. *)
Definition loads (ev : env) (w : world) (m : Model) : Prop :=
  _model w = Some m \/ (_model w = None /\ pipeline ev = Return m).

(** Every run of the computation [m] relates the world it starts in to the
    world it ends in by [R]. *)
Definition preserving {A : Type} (R : world -> world -> Prop) (m : M A) : Prop :=
  forall w, R w (snd (m w)).

(** The flag set at start-up is the same in [w']. *)
Definition same_flag (w w' : world) : Prop :=
  REDIS_AVAILABLE w' = REDIS_AVAILABLE w.

(** A model loaded in [w] is the model loaded in [w']. *)
Definition model_kept (w w' : world) : Prop :=
  forall m, _model w = Some m -> _model w' = Some m.

(** When caching was disabled in [w], it is disabled in [w'] and the client
    has made no round trip in between: the server behind [w'] is that of
    [w], but for its clock. *)
Definition store_idle (w w' : world) : Prop :=
  REDIS_AVAILABLE w = false ->
  REDIS_AVAILABLE w' = false
  /\ Redis.db (redis_client w') = Redis.db (redis_client w)
  /\ Redis.trips (redis_client w') = Redis.trips (redis_client w)
  /\ Redis.outage (redis_client w') = Redis.outage (redis_client w).

(** The pipeline that the rate limiter sends for the client of [req]. *)
Definition rate_pipe (window : Z) (req : request) : list Redis.command :=
  [Redis.INCR (rate_key req); Redis.EXPIRE (rate_key req) window].

(** The requests of one client over time: before each request the client
    waits for the given number of milliseconds.  The log holds the time of
    each request, on the clock of the store, and its outcome. *)
Fixpoint serve (h : request -> M response) (req : request) (gaps : list Z)
    (w : world) : list (Z * result response) :=
  match gaps with
  | [] => []
  | gap :: gaps' =>
      let w0 := later gap w in
      let '(r, w1) := h req w0 in
      (Redis.clock (redis_client w0), r) :: serve h req gaps' w1
  end.

(** The outcome is a response other than the 429 of the limiter. *)
Definition is_served (r : result response) : bool :=
  match r with
  | Return resp => negb (status resp =? 429)
  | Raise _ => false
  end.

(** The times of the requests of a log that were served. *)
Fixpoint served_times (log : list (Z * result response)) : list Z :=
  match log with
  | [] => []
  | (t, r) :: log' =>
      if is_served r then t :: served_times log' else served_times log'
  end.

(** Of the times [ts], in order, any eleven in a row span more than 60
    seconds. *)
Definition spaced (ts : list Z) : Prop :=
  forall (i : nat) (t1 t2 : Z),
    ts !! i = Some t1 -> ts !! (i + 10)%nat = Some t2 -> 60000 < t2 - t1.

(** The limiter between two requests of the client of [req]: [cur] holds the
    times of the requests served since the counter was created, the latest
    of which set its expiry. *)
Definition window_state (req : request) (cur : list Z) (w : world) : Prop :=
  REDIS_AVAILABLE w = true /\ up (redis_client w)
  /\ (List.length cur <= 10)%nat
  /\ ((cur = [] /\ Redis.live (rate_key req) (redis_client w) = None)
      \/ (exists latest,
             cur <> [] /\ Forall (fun t => t <= latest) cur
             /\ latest <= Redis.clock (redis_client w)
             /\ counter (remote_addr req) w
                = Some (Redis.Entry (Str.of_Z (Z.of_nat (List.length cur)))
                          (Some (latest + 60000))))).

(** The 400 response to a request without a body. *)
Definition no_json : response :=
  Response (PDict [("error", PStr "No JSON data provided")]) 400.

(** The body of the request reads as false: no JSON, [null], an empty
    object or list, [0], [false] or an empty string. *)
Definition no_body (req : request) : Prop :=
  exists data, get_json req = Return data /\ Py.truthy data = false.

(** The first validation error of the request, when it has one. *)
Definition rejected (req : request) (msg : string) : Prop :=
  exists text length rest,
    request_fields req = Some (text, length)
    /\ validate_input text length = msg :: rest.

(** The first character of [s], when it has one, does not satisfy [sp]:
    it is a character that [lstrip_with sp] keeps. *)
Definition kept_head (sp : ascii -> bool) (s : string) : Prop :=
  match s with
  | String c _ => sp c = false
  | EmptyString => True
  end.

(** The number of requests of the client [ip] that are between the check
    of the limiter and its count. *)
Fixpoint checked (ip : string) (pool : list stage) : nat :=
  match pool with
  | [] => O
  | Checked _ req :: pool' =>
      if String.eqb (remote_addr req) ip then S (checked ip pool')
      else checked ip pool'
  | _ :: pool' => checked ip pool'
  end.

(** Along the moves [ms] from [st] time does not run backwards, and at most
    [n] requests of [ip] are at once between the check and the count. *)
Fixpoint crowd `{Json} (ip : string) (n : nat) (ms : list move)
    (st : world * list stage) : Prop :=
  match ms with
  | [] => True
  | m :: ms' =>
      match m with Begin (Wait gap) => 0 <= gap | _ => True end
      /\ (checked ip (snd (play m st)) <= n)%nat
      /\ crowd ip n ms' (play m st)
  end.

(** A thread is between the test of [_model] and its assignment. *)
Definition loading (s : stage) : bool :=
  match s with Loading _ _ => true | _ => false end.

(** The counter of [ip], when it is live and the server reads it as an
    integer, is at most [b]. *)
Definition capped (b : Z) (ip : string) (w : world) : Prop :=
  forall e n,
    Redis.live ("rate_limit:" +:+ ip) (redis_client w) = Some e ->
    Redis.to_int64 (Redis.value e) = Some n -> n <= b.
(** ** A sample deployment

    Concrete values on which the properties below are instantiated. *)

Module Sample.

Definition dquote : string := String (ascii_of_N 34) EmptyString.

Definition quoted (s : string) : string := dquote +:+ s +:+ dquote.

(** A summary as [generate_summary] builds it. *)
Definition summary_data : list (string * pyval) :=
  [("summary", PStr "A short summary.");
   ("original_length", PInt 42);
   ("summary_length", PInt 3);
   ("compression_ratio", PFloat (Float.of_Z 15));
   ("inference_time", PFloat (Float.of_ratio false 1 4));
   ("cached", PBool false);
   ("timestamp", PStr "2024-01-01T12:00:00.123456")].

(** The text of [json.dumps] for [summary_data]. *)
Definition summary_json : string :=
  "{" +:+ quoted "summary" +:+ ": " +:+ quoted "A short summary." +:+ ", "
  +:+ quoted "original_length" +:+ ": 42, "
  +:+ quoted "summary_length" +:+ ": 3, "
  +:+ quoted "compression_ratio" +:+ ": 15.0, "
  +:+ quoted "inference_time" +:+ ": 0.25, "
  +:+ quoted "cached" +:+ ": false, "
  +:+ quoted "timestamp" +:+ ": " +:+ quoted "2024-01-01T12:00:00.123456"
  +:+ "}".

(** [json] on the one document the sample exchanges: every value is
    written as [summary_json], which is the only text that loads. *)
Definition json : Json := {|
  json_dumps := fun _ => summary_json;
  json_loads := fun s =>
    if String.eqb s summary_json then Return (PDict summary_data)
    else Raise (Exception "Expecting value: line 1 column 1 (char 0)")
|}.

(** A text of 1000 characters and 167 words. *)
Definition text : string := Str.repeat "lorem " 166 +:+ "ipsu".

(** A model that answers with the first 150 characters of its input. *)
Definition model : Model := fun text _ _ => Return (Str.take 150 text).

(** A model whose call fails. *)
Definition broken_model : Model :=
  fun _ _ _ => Raise (Exception "CUDA out of memory").

Definition ev : env :=
  Env (Return model) (Float.of_Z 100) (Float.of_Z 103)
      "2024-01-01T12:00:00.123456".

Definition broken_ev : env :=
  Env (Return broken_model) (Float.of_Z 100) (Float.of_Z 103)
      "2024-01-01T12:00:00.123456".

(** The model cannot be loaded. *)
Definition unloadable_ev : env :=
  Env (Raise (Exception "No space left on device")) (Float.of_Z 100)
      (Float.of_Z 103) "2024-01-01T12:00:00.123456".

Definition calm : nat -> option Redis.fault := fun _ => None.

Definition storm : nat -> option Redis.fault :=
  fun _ => Some (Redis.Fault false (Exception "Connection refused")).

(** A fresh server at time 0 that answers every round trip. *)
Definition server : Redis.server := Redis.Server ∅ 0 calm 0.

(** A server that no round trip reaches. *)
Definition dead_server : Redis.server := Redis.Server ∅ 0 storm 0.

(** A server on which the client 10.0.0.1 has used up its window. *)
Definition busy_server : Redis.server :=
  Redis.Server {["rate_limit:10.0.0.1" := Redis.Entry "10" (Some 60000)]}
               1000 calm 20.

Definition busy : world := World true busy_server None.

(** The process after start-up, the model not loaded yet. *)
Definition start : world := World true server None.

Definition req : request :=
  Request "10.0.0.1"
    (Return (PDict [("text", PStr text); ("length", PStr "Medium")])).

(** A request without a JSON body. *)
Definition empty_req : request := Request "10.0.0.1" (Return PNone).

(** The summary that [generate_summary] builds for [text] with [ev] and
    [model]. *)
Definition fresh_data : pyval :=
  fresh_summary ev text (Str.take 150 text) (Float.of_ratio false 150 1000).

Definition fresh_items : list (string * pyval) :=
  match fresh_data with
  | PDict d => d
  | _ => []
  end.

(** The text of [json.dumps] for [fresh_data]. *)
Definition fresh_json : string :=
  "{" +:+ quoted "summary" +:+ ": " +:+ quoted (Str.take 150 text) +:+ ", "
  +:+ quoted "original_length" +:+ ": 167, "
  +:+ quoted "summary_length" +:+ ": 25, "
  +:+ quoted "compression_ratio" +:+ ": 15.0, "
  +:+ quoted "inference_time" +:+ ": 3.0, "
  +:+ quoted "cached" +:+ ": false, "
  +:+ quoted "timestamp" +:+ ": " +:+ quoted "2024-01-01T12:00:00.123456"
  +:+ "}".

(** [json] on the one document that a request for [text] exchanges with
    the cache. *)
Definition fresh_codec : Json := {|
  json_dumps := fun _ => fresh_json;
  json_loads := fun s =>
    if String.eqb s fresh_json then Return (PDict fresh_items)
    else Raise (Exception "Expecting value: line 1 column 1 (char 0)")
|}.

(** [json] on the one document ["[1]"]. *)
Definition list_codec : Json := {|
  json_dumps := fun _ => "[1]";
  json_loads := fun s =>
    if String.eqb s "[1]" then Return (PList [PInt 1])
    else Raise (Exception "Expecting value: line 1 column 1 (char 0)")
|}.

(** The process when the cache entry of [req] holds ["[1]"]. *)
Definition poisoned : world :=
  World true
    (Redis.Server {[get_cache_key text "medium" := Redis.Entry "[1]" None]}
                  0 calm 0)
    None.

(** The process when the cache entry of [req] holds text that is not
    JSON. *)
Definition garbled : world :=
  World true
    (Redis.Server {[get_cache_key text "medium" := Redis.Entry "<html>" None]}
                  0 calm 0)
    None.

(** A request whose body is a list. *)
Definition list_req : request :=
  Request "10.0.0.1" (Return (PList [PStr text])).

(** A request whose text is a number. *)
Definition number_req : request :=
  Request "10.0.0.1" (Return (PDict [("text", PInt 42)])).

(** A request whose body could not be read. *)
Definition bad_req : request :=
  Request "10.0.0.1"
    (Raise (Exception "400 Bad Request: Failed to decode JSON object")).

(** A model that answers with the first 333 characters of its input. *)
Definition long_model : Model := fun text _ _ => Return (Str.take 333 text).

Definition long_ev : env :=
  Env (Return long_model) (Float.of_Z 100) (Float.of_Z 103)
      "2024-01-01T12:00:00.123456".

(** A server on which the client 10.0.0.1 has made nine requests in the
    running window. *)
Definition nine_server : Redis.server :=
  Redis.Server {["rate_limit:10.0.0.1" := Redis.Entry "9" (Some 60000)]}
               9000 calm 18.

Definition nine : world := World true nine_server None.

(** Two requests whose threads both read the counter before either sends
    its increment. *)
Definition overlap : list move :=
  [Begin (Summarize ev req); Begin (Summarize ev req);
   Advance 0; Advance 1; Advance 0; Advance 1].

(** Two health checks whose threads both test [_model] before either
    assigns it; the second loads [broken_model]. *)
Definition double_load : list move :=
  [Begin (Health ev); Begin (Health broken_ev);
   Advance 0; Advance 1; Advance 0; Advance 1].

End Sample.

(** * Properties *)

(** ** The embedding on known values *)

Example md5_empty :
  MD5.hexdigest (MD5.encode "") = "d41d8cd98f00b204e9800998ecf8427e".
Proof. vm_compute. reflexivity. Qed.

Example md5_abc :
  MD5.hexdigest (MD5.encode "abc") = "900150983cd24fb0d6963f7d28e17f72".
Proof. vm_compute. reflexivity. Qed.

Example md5_two_blocks :
  MD5.hexdigest
    (MD5.encode
       ("1234567890123456789012345678901234567890"
        +:+ "1234567890123456789012345678901234567890"))
  = "57edf4a22be3c955ac49da2e2107b67a".
Proof. vm_compute. reflexivity. Qed.

(** U+00E9 is encoded on two bytes. *)
Example md5_latin1 :
  MD5.hexdigest (MD5.encode (String (ascii_of_N 233) ":short"))
  = "cbd6b77165531d01d5bf9a33661d0db8".
Proof. vm_compute. reflexivity. Qed.

Example get_cache_key_hello :
  get_cache_key "hello world" "short"
  = "summary:29bdb845484ccfa68daf1a1838667750".
Proof. vm_compute. reflexivity. Qed.

Example split_words : Str.split "  hello   world " = ["hello"; "world"].
Proof. reflexivity. Qed.

Example strip_spaces : Str.strip "  hello   world " = "hello   world".
Proof. reflexivity. Qed.

Example lower_medium : Str.lower "MeDiuM" = "medium".
Proof. reflexivity. Qed.

Example int_literals :
  Py.int " 1_0 " = Return 10 /\ Py.int "-07" = Return (-7)
  /\ Py.int "+3" = Return 3
  /\ (exists e, Py.int "1__0" = Raise e) /\ (exists e, Py.int "" = Raise e)
  /\ (exists e, Py.int (String (ascii_of_N 28) "3") = Raise e).
Proof. vm_compute. repeat split; eauto. Qed.

Example to_int64_values :
  Redis.to_int64 "10" = Some 10 /\ Redis.to_int64 "-0" = None
  /\ Redis.to_int64 "007" = None /\ Redis.to_int64 " 5" = None
  /\ Redis.to_int64 "9223372036854775807" = Some 9223372036854775807
  /\ Redis.to_int64 "9223372036854775808" = None.
Proof. vm_compute. repeat split; reflexivity. Qed.

(** 0.15 is the float 5404319552844595 * 2^-55, and 15.0 is 15 * 2^49 * 2^-49. *)
Example truediv_150_1000 :
  Float.truediv 150 1000 = Return (S754_finite false 5404319552844595 (-55))
  /\ Float.of_Z 15 = S754_finite false 8444249301319680 (-49).
Proof. vm_compute. split; reflexivity. Qed.

(** [round] goes by the binary value: 0.125 and 0.375 are ties and go to
    the even digit, 2.675 lies below the tie, 1/2000*100 lies above it. *)
Example round_values :
  Float.round (S754_finite false 4503599627370496 (-55)) 2
  = Float.of_ratio false 12 100
  /\ Float.round (S754_finite false 6755399441055744 (-54)) 2
     = Float.of_ratio false 38 100
  /\ Float.round (Float.of_ratio false 2675 1000) 2
     = Float.of_ratio false 267 100
  /\ match Float.truediv 1 2000 with
     | Return q => Float.round (Float.mul q (Float.of_Z 100)) 1
     | Raise _ => S754_nan
     end = Float.of_ratio false 1 10.
Proof. vm_compute. repeat split; reflexivity. Qed.

Example rate_limited_message :
  Py.field (body (rate_limited 10 60)) "message"
  = Some (PStr "Max 10 requests per 60s").
Proof. reflexivity. Qed.

Example summary_json_loads :
  @json_loads Sample.json Sample.summary_json = Return (PDict Sample.summary_data).
Proof. reflexivity. Qed.

(** ** Strings *)

Lemma append_cons (c : ascii) (s t : string) :
  String c s +:+ t = String c (s +:+ t).
Proof. reflexivity. Qed.

Lemma append_nil_l (t : string) : EmptyString +:+ t = t.
Proof. reflexivity. Qed.

Lemma append_nil_r (s : string) : s +:+ EmptyString = s.
Proof.
  induction s as [|c s IH]; [reflexivity|]. now rewrite append_cons, IH.
Qed.

Lemma append_assoc (a b c : string) : (a +:+ b) +:+ c = a +:+ (b +:+ c).
Proof.
  induction a as [|x a IH]; [reflexivity|]. now rewrite !append_cons, IH.
Qed.

Lemma take_append (p a : string) : Str.take (String.length p) (p +:+ a) = p.
Proof.
  induction p as [|c p IH].
  - rewrite append_nil_l. now destruct a.
  - rewrite append_cons. simpl. now rewrite IH.
Qed.

Lemma split_from_word (w acc rest : string) :
  Str.has_space w = false ->
  Str.split_from acc (w +:+ rest) = Str.split_from (acc +:+ w) rest.
Proof.
  revert acc. induction w as [|c w IH]; intros acc Hw.
  - now rewrite append_nil_l, append_nil_r.
  - unfold Str.has_space in Hw. simpl in Hw.
    apply orb_false_iff in Hw as [Hc Hw].
    rewrite append_cons. simpl. rewrite Hc.
    rewrite IH by exact Hw. now rewrite append_assoc.
Qed.

(** Splitting words joined by single spaces gives the words back. *)
Lemma split_join (ws : list string) :
  Forall word ws -> Str.split (Str.join " " ws) = ws.
Proof.
  induction ws as [|w ws IH]; intros Hws; [reflexivity|].
  inversion Hws as [|? ? [Hne Hsp] Hrest]; subst.
  unfold Str.split in *. destruct ws as [|w2 ws].
  - simpl. rewrite <- (append_nil_r w) at 1.
    rewrite split_from_word by exact Hsp. rewrite append_nil_l.
    simpl. now rewrite Hne.
  - change (Str.join " " (w :: w2 :: ws))
      with (w +:+ String " " (Str.join " " (w2 :: ws))).
    rewrite split_from_word by exact Hsp. rewrite append_nil_l.
    simpl. rewrite Hne. f_equal. now apply IH.
Qed.

Lemma validate_input_eq (text length : string) :
  validate_input text length =
    (if negb (Str.truthy (Str.strip text)) then ["Text cannot be empty"] else [])
    ++ (if 10000 <? Py.len text
        then ["Text too long (max 10,000 characters)"] else [])
    ++ (if Z.of_nat (List.length (Str.split text)) <? 30
        then ["Text too short (minimum 30 words)"] else [])
    ++ (if negb (existsb (String.eqb length) ["short"; "medium"; "long"])
        then ["Invalid length option"] else []).
Proof.
  unfold validate_input.
  assert (Hempty : negb (Str.truthy text) || negb (Str.truthy (Str.strip text))
                   = negb (Str.truthy (Str.strip text))).
  { destruct text; [reflexivity|]. reflexivity. }
  rewrite Hempty.
  destruct (negb (Str.truthy (Str.strip text))), (10000 <? Py.len text),
    (Z.of_nat (List.length (Str.split text)) <? 30),
    (negb (existsb (String.eqb length) ["short"; "medium"; "long"]));
    reflexivity.
Qed.

(** ** The cache key *)

(** C5: [get_cache_key] is a function of its two arguments, and of no more
    than the first 1000 characters of the text: texts that agree on these
    (with the same length option) have the same key, whatever follows.  In
    particular two texts made of one prefix of 1000 characters and different
    continuations collide. *)
Theorem get_cache_key_prefix :
  (forall text1 text2 length1 length2,
      text1 = text2 -> length1 = length2 ->
      get_cache_key text1 length1 = get_cache_key text2 length2)
  /\ (forall text1 text2 length,
         Str.take 1000 text1 = Str.take 1000 text2 ->
         get_cache_key text1 length = get_cache_key text2 length)
  /\ (forall prefix rest1 rest2 length,
         String.length prefix = 1000%nat ->
         get_cache_key (prefix +:+ rest1) length
         = get_cache_key (prefix +:+ rest2) length).
Proof.
  split; [|split].
  - intros text1 text2 length1 length2 -> ->. reflexivity.
  - intros text1 text2 length Hpre. unfold get_cache_key. now rewrite Hpre.
  - intros prefix rest1 rest2 length Hlen. unfold get_cache_key.
    rewrite <- Hlen. now rewrite !take_append.
Qed.

Lemma get_cache_key_prefix_witness :
  Sample.text +:+ "one" <> Sample.text +:+ "two"
  /\ get_cache_key (Sample.text +:+ "one") "short"
     = get_cache_key (Sample.text +:+ "two") "short"
  /\ get_cache_key (Sample.text +:+ "one") "long"
     = get_cache_key (Sample.text +:+ "two") "long"
  /\ get_cache_key Sample.text "long" = get_cache_key Sample.text "long".
Proof.
  destruct get_cache_key_prefix as (Hsame & Hprefix & Hcollide).
  split; [|split; [|split]].
  - intros Heq. apply (f_equal (fun s => String.get 1000 s)) in Heq.
    vm_compute in Heq. discriminate.
  - apply (Hcollide Sample.text "one" "two" "short"). vm_compute. reflexivity.
  - apply (Hprefix (Sample.text +:+ "one") (Sample.text +:+ "two") "long").
    vm_compute. reflexivity.
  - apply Hsame; reflexivity.
Defined.

(** ** Validation *)

Lemma summarize_parsed `{Json} (ev : env) (req : request) (text length : string)
    (w : world) :
  request_fields req = Some (text, length) ->
  summarize ev req w =
    match validate_input text length with
    | first :: _ => (Return (Response (PDict [("error", PStr first)]) 400), w)
    | [] =>
        match generate_summary ev text length w with
        | (Return result, w') =>
            (Return (Response (PDict [("success", PBool true); ("data", result)])
                              200), w')
        | (Raise e, w') => (Return (internal_error e), w')
        end
    end.
Proof.
  unfold request_fields. intros Hreq.
  destruct (get_json req) as [data|] eqn:Hjson; [|discriminate].
  destruct (Py.truthy data) eqn:Hdata; [|discriminate].
  destruct (Py.get data "text" (PStr "")) as [tf|] eqn:Htf; [|discriminate].
  destruct (Py.strip tf) as [t|] eqn:Ht; [|discriminate].
  destruct (Py.get data "length" (PStr "medium")) as [lf|] eqn:Hlf; [|discriminate].
  destruct (Py.lower lf) as [l|] eqn:Hl; [|discriminate].
  injection Hreq as -> ->.
  unfold summarize, try_except, bind, lift, ret.
  rewrite Hjson, Hdata. cbn [negb]. rewrite Htf, Ht, Hlf, Hl.
  destruct (validate_input text length) as [|first rest]; [|reflexivity].
  destruct (generate_summary ev text length w) as [[result|e] w']; reflexivity.
Qed.

Lemma valid_length_iff (length : string) :
  existsb (String.eqb length) ["short"; "medium"; "long"] = true
  <-> length = "short" \/ length = "medium" \/ length = "long".
Proof.
  simpl. rewrite !orb_true_iff, !String.eqb_eq. intuition discriminate.
Qed.

(** C6: [validate_input] checks the four rules and returns the message of
    each rule that is violated; 29 words are too short and 30 are not; 10,001
    characters are too long and 10,000 are not; [summarize] answers 400 with
    the first message alone. *)
Theorem validate_input_rules `{Json} :
  (forall text length msg,
      In msg (validate_input text length) <->
        (msg = "Text cannot be empty" /\ Str.strip text = "")
        \/ (msg = "Text too long (max 10,000 characters)" /\ 10000 < Py.len text)
        \/ (msg = "Text too short (minimum 30 words)"
            /\ (List.length (Str.split text) < 30)%nat)
        \/ (msg = "Invalid length option"
            /\ length <> "short" /\ length <> "medium" /\ length <> "long"))
  /\ (forall ws length,
         Forall word ws ->
         (List.length ws = 29%nat ->
          In "Text too short (minimum 30 words)"
             (validate_input (Str.join " " ws) length))
         /\ (List.length ws = 30%nat ->
             ~ In "Text too short (minimum 30 words)"
                  (validate_input (Str.join " " ws) length)))
  /\ (forall text length,
         (Py.len text = 10001 ->
          In "Text too long (max 10,000 characters)" (validate_input text length))
         /\ (Py.len text = 10000 ->
             ~ In "Text too long (max 10,000 characters)"
                  (validate_input text length)))
  /\ (forall ev req w text length first rest,
         request_fields req = Some (text, length) ->
         validate_input text length = first :: rest ->
         summarize ev req w
         = (Return (Response (PDict [("error", PStr first)]) 400), w)).
Proof.
  assert (Hrules : forall text length msg,
      In msg (validate_input text length) <->
        (msg = "Text cannot be empty" /\ Str.strip text = "")
        \/ (msg = "Text too long (max 10,000 characters)" /\ 10000 < Py.len text)
        \/ (msg = "Text too short (minimum 30 words)"
            /\ (List.length (Str.split text) < 30)%nat)
        \/ (msg = "Invalid length option"
            /\ length <> "short" /\ length <> "medium" /\ length <> "long")).
  { intros text length msg. rewrite validate_input_eq.
    rewrite !in_app_iff.
    assert (H1 : In msg (if negb (Str.truthy (Str.strip text))
                         then ["Text cannot be empty"] else [])
                 <-> msg = "Text cannot be empty" /\ Str.strip text = "").
    { destruct (Str.strip text) eqn:Hs; simpl; intuition congruence. }
    assert (H2 : In msg (if 10000 <? Py.len text
                         then ["Text too long (max 10,000 characters)"] else [])
                 <-> msg = "Text too long (max 10,000 characters)"
                     /\ 10000 < Py.len text).
    { destruct (Z.ltb_spec 10000 (Py.len text)); simpl; intuition (try congruence; lia). }
    assert (H3 : In msg (if Z.of_nat (List.length (Str.split text)) <? 30
                         then ["Text too short (minimum 30 words)"] else [])
                 <-> msg = "Text too short (minimum 30 words)"
                     /\ (List.length (Str.split text) < 30)%nat).
    { destruct (Z.ltb_spec (Z.of_nat (List.length (Str.split text))) 30);
        simpl; intuition (try congruence; lia). }
    assert (H4 : In msg (if negb (existsb (String.eqb length)
                                          ["short"; "medium"; "long"])
                         then ["Invalid length option"] else [])
                 <-> msg = "Invalid length option"
                     /\ length <> "short" /\ length <> "medium" /\ length <> "long").
    { pose proof (valid_length_iff length) as Hv.
      destruct (existsb (String.eqb length) ["short"; "medium"; "long"]);
        simpl; [|intuition (try congruence)].
      split; [tauto|]. intros (_ & H1' & H2' & H3').
      destruct (proj1 Hv eq_refl) as [|[|]]; contradiction. }
    rewrite H1, H2, H3, H4. tauto. }
  split; [exact Hrules|]. split; [|split].
  - intros ws length Hws. split; intros Hlen.
    + apply Hrules. right. right. left. split; [reflexivity|].
      rewrite split_join by exact Hws. lia.
    + intros Hin. apply Hrules in Hin.
      destruct Hin as [[Hm _]|[[Hm _]|[[_ Hlt]|[Hm _]]]]; try discriminate.
      rewrite split_join in Hlt by exact Hws. lia.
  - intros text length. split; intros Hlen.
    + apply Hrules. right. left. split; [reflexivity|]. lia.
    + intros Hin. apply Hrules in Hin.
      destruct Hin as [[Hm _]|[[_ Hlt]|[[Hm _]|[Hm _]]]]; try discriminate.
      lia.
  - intros ev req w text length first rest Hreq Hval.
    rewrite (summarize_parsed ev req text length w Hreq). now rewrite Hval.
Qed.

Lemma validate_input_rules_witness :
  In "Text too short (minimum 30 words)"
     (validate_input (Str.join " " (List.repeat "word" 29)) "short")
  /\ ~ In "Text too short (minimum 30 words)"
         (validate_input (Str.join " " (List.repeat "word" 30)) "short")
  /\ In "Text too long (max 10,000 characters)"
        (validate_input (Str.repeat "a" (Z.to_nat 10001)) "short")
  /\ ~ In "Text too long (max 10,000 characters)"
         (validate_input (Str.repeat "a" (Z.to_nat 10000)) "short")
  /\ @summarize Sample.json Sample.ev
       (Request "10.0.0.1"
          (Return (PDict [("text", PStr "much too short");
                          ("length", PStr "tiny")])))
       Sample.start
     = (Return (Response (PDict [("error",
                                   PStr "Text too short (minimum 30 words)")])
                         400),
        Sample.start).
Proof.
  destruct (@validate_input_rules Sample.json) as (_ & Hwords & Hchars & Hfirst).
  assert (Hw : forall n, Forall word (List.repeat "word" n)).
  { intros n. induction n as [|n IH]; simpl; constructor;
      [split; reflexivity | exact IH]. }
  split; [|split; [|split; [|split]]].
  - apply (Hwords _ "short" (Hw 29%nat)). reflexivity.
  - apply (Hwords _ "short" (Hw 30%nat)). reflexivity.
  - apply (Hchars (Str.repeat "a" (Z.to_nat 10001)) "short"). vm_compute. reflexivity.
  - apply (Hchars (Str.repeat "a" (Z.to_nat 10000)) "short"). vm_compute. reflexivity.
  - apply (Hfirst Sample.ev _ Sample.start "much too short" "tiny"
             "Text too short (minimum 30 words)" ["Invalid length option"]);
      reflexivity.
Defined.

(** ** Counters written by INCR are read back by [int] *)

Lemma rstrip_without (sp : ascii -> bool) (s : string) :
  Str.has sp s = false -> Str.rstrip_with sp s = s.
Proof.
  unfold Str.has. induction s as [|c s IH]; [reflexivity|].
  simpl. intros Hs. apply orb_false_iff in Hs as [Hc Hs].
  rewrite IH by exact Hs. destruct s; [now rewrite Hc | reflexivity].
Qed.

Lemma strip_without (sp : ascii -> bool) (s : string) :
  Str.has sp s = false -> Str.strip_with sp s = s.
Proof.
  intros Hs. unfold Str.strip_with.
  assert (Hl : Str.lstrip_with sp s = s).
  { destruct s as [|c s]; [reflexivity|]. unfold Str.has in Hs.
    simpl in Hs. apply orb_false_iff in Hs as [Hc _]. simpl. now rewrite Hc. }
  rewrite Hl. now apply rstrip_without.
Qed.

Lemma uint_no_space (u : Decimal.uint) :
  Str.has Py.int_space (NilEmpty.string_of_uint u) = false.
Proof. induction u; simpl; auto. Qed.

Lemma uint_digits (u : Decimal.uint) :
  Py.digits true (NilEmpty.string_of_uint u) = Some (NilEmpty.string_of_uint u).
Proof.
  induction u; simpl; [reflexivity| ..]; rewrite IHu; reflexivity.
Qed.

Lemma uint_literal (u : Decimal.uint) :
  u <> Decimal.Nil ->
  Py.nat_literal (NilEmpty.string_of_uint u) = Some (Z.of_uint u).
Proof.
  intros Hu. unfold Py.nat_literal.
  assert (Hd : Py.digits false (NilEmpty.string_of_uint u)
               = Some (NilEmpty.string_of_uint u)).
  { destruct u; [contradiction| ..]; simpl; rewrite uint_digits; reflexivity. }
  rewrite Hd.
  assert (Hs : NilZero.uint_of_string (NilEmpty.string_of_uint u) = Some u).
  { replace (NilEmpty.string_of_uint u) with (NilZero.string_of_uint u)
      by (now destruct u).
    now apply NilZero.usu. }
  now rewrite Hs.
Qed.

Lemma pos_of_uint (p : positive) : Z.of_uint (Pos.to_uint p) = Z.pos p.
Proof. exact (DecimalZ.of_to (Z.pos p)). Qed.

(** [int] reads back the decimal text of an integer. *)
Lemma int_of_Z (n : Z) : Py.int (Str.of_Z n) = Return n.
Proof.
  destruct n as [|p|p]; [reflexivity| |].
  - unfold Str.of_Z. simpl.
    pose proof (DecimalPos.Unsigned.to_uint_nonnil p) as Hnil.
    assert (Hstr : NilZero.string_of_uint (Pos.to_uint p)
                   = NilEmpty.string_of_uint (Pos.to_uint p)).
    { now destruct (Pos.to_uint p). }
    rewrite Hstr. unfold Py.int.
    rewrite strip_without by apply uint_no_space.
    pose proof (uint_literal _ Hnil) as Hlit. rewrite pos_of_uint in Hlit.
    destruct (Pos.to_uint p); [contradiction| ..]; simpl in *; now rewrite Hlit.
  - unfold Str.of_Z. simpl.
    pose proof (DecimalPos.Unsigned.to_uint_nonnil p) as Hnil.
    assert (Hstr : NilZero.string_of_uint (Pos.to_uint p)
                   = NilEmpty.string_of_uint (Pos.to_uint p)).
    { now destruct (Pos.to_uint p). }
    rewrite Hstr. unfold Py.int.
    rewrite strip_without by (unfold Str.has; simpl; apply uint_no_space).
    pose proof (uint_literal _ Hnil) as Hlit. rewrite pos_of_uint in Hlit.
    cbv beta iota. rewrite Hlit. reflexivity.
Qed.

(** A value that INCR accepts is the decimal text of its integer, and
    [int] reads the same integer. *)
Lemma to_int64_int (s : string) (n : Z) :
  Redis.to_int64 s = Some n -> s = Str.of_Z n /\ Py.int s = Return n.
Proof.
  unfold Redis.to_int64. intros Hs.
  destruct (NilZero.int_of_string s) as [i|]; [|discriminate].
  destruct (String.eqb (Str.of_Z (Z.of_int i)) s && (- 2 ^ 63 <=? Z.of_int i)
            && (Z.of_int i <? 2 ^ 63)) eqn:Hok; [|discriminate].
  injection Hs as <-.
  apply andb_true_iff in Hok as [Hok _]. apply andb_true_iff in Hok as [Heq _].
  apply String.eqb_eq in Heq.
  split; [now symmetry|]. rewrite <- Heq at 1. apply int_of_Z.
Qed.

(** ** The store *)

Lemma live_with_db (key : string) (d : gmap string Redis.entry) (r : Redis.server) :
  Redis.live key (Redis.with_db d r)
  = match d !! key with
    | Some e => if Redis.expired (Redis.clock r) e then None else Some e
    | None => None
    end.
Proof. reflexivity. Qed.

Lemma live_lookup (key : string) (r : Redis.server) (e : Redis.entry) :
  Redis.live key r = Some e ->
  Redis.db r !! key = Some e /\ Redis.expired (Redis.clock r) e = false.
Proof.
  unfold Redis.live. destruct (Redis.db r !! key) as [e'|]; [|discriminate].
  destruct (Redis.expired (Redis.clock r) e') eqn:He; [discriminate|].
  now intros [= <-].
Qed.

(** A read leaves the server as it was, but for the count of round trips:
    there is no update on read. *)
Lemma get_server (key : string) (r : Redis.server) :
  snd (Redis.get key r) = Redis.bump r.
Proof.
  unfold Redis.get, Redis.checked, Redis.round_trip.
  destruct (Redis.outage r (Redis.trips r)) as [[[] e]|]; reflexivity.
Qed.

Lemma get_answers (key : string) (r : Redis.server) :
  answers r ->
  Redis.get key r
  = (Return (option_map Redis.value (Redis.live key r)), Redis.bump r).
Proof.
  unfold answers, Redis.get, Redis.checked, Redis.round_trip. now intros ->.
Qed.

Lemma get_fault (key : string) (r : Redis.server) (f : Redis.fault) :
  Redis.outage r (Redis.trips r) = Some f ->
  Redis.get key r = (Raise (Redis.error f), Redis.bump r).
Proof.
  unfold Redis.get, Redis.checked, Redis.round_trip. intros ->.
  now destruct (Redis.applied f).
Qed.

Lemma setex_answers (key val : string) (seconds : Z) (r : Redis.server) :
  answers r -> 0 < seconds ->
  Redis.setex key seconds val r
  = (Return tt,
     Redis.with_db
       (<[key := Redis.Entry val (Some (Redis.clock r + 1000 * seconds))]> (Redis.db r))
       (Redis.bump r)).
Proof.
  unfold answers, Redis.setex, Redis.checked, Redis.round_trip. intros -> Hs.
  simpl. destruct (Z.leb_spec seconds 0); [lia|]. reflexivity.
Qed.

Lemma setex_lost (key val : string) (seconds : Z) (r : Redis.server) (e : exn) :
  Redis.outage r (Redis.trips r) = Some (Redis.Fault false e) ->
  Redis.setex key seconds val r = (Raise e, Redis.bump r).
Proof.
  unfold Redis.setex, Redis.checked, Redis.round_trip. now intros ->.
Qed.

(** The increment and the expiry of the rate limiter, on a key that is
    absent or has expired. *)
Lemma execute_fresh (key : string) (window : Z) (r : Redis.server) :
  answers r -> 0 < window -> Redis.live key r = None ->
  Redis.execute [Redis.INCR key; Redis.EXPIRE key window] r
  = (Return [Redis.Integer 1; Redis.Integer 1],
     Redis.with_db
       (<[key := Redis.Entry "1" (Some (Redis.clock r + 1000 * window))]> (Redis.db r))
       (Redis.bump r)).
Proof.
  unfold answers, Redis.execute, Redis.checked, Redis.round_trip.
  intros -> Hw Hlive.
  cbn [Redis.run_all Redis.run].
  change (Redis.live key (Redis.bump r)) with (Redis.live key r).
  rewrite Hlive. rewrite live_with_db, lookup_insert_eq. cbn.
  destruct (Z.leb_spec window 0); [lia|]. cbn.
  now rewrite insert_insert_eq.
Qed.

(** The increment and the expiry of the rate limiter, on a live counter. *)
Lemma execute_count (key : string) (window : Z) (r : Redis.server)
    (e : Redis.entry) (n : Z) :
  answers r -> 0 < window ->
  Redis.live key r = Some e -> Redis.to_int64 (Redis.value e) = Some n ->
  n < 2 ^ 63 - 1 ->
  Redis.execute [Redis.INCR key; Redis.EXPIRE key window] r
  = (Return [Redis.Integer (n + 1); Redis.Integer 1],
     Redis.with_db
       (<[key := Redis.Entry (Str.of_Z (n + 1))
                             (Some (Redis.clock r + 1000 * window))]> (Redis.db r))
       (Redis.bump r)).
Proof.
  unfold answers, Redis.execute, Redis.checked, Redis.round_trip.
  intros -> Hw Hlive Hint Hn.
  destruct (live_lookup _ _ _ Hlive) as [_ Hexp].
  cbn [Redis.run_all Redis.run].
  change (Redis.live key (Redis.bump r)) with (Redis.live key r).
  rewrite Hlive, Hint.
  destruct (Z.eqb_spec n (2 ^ 63 - 1)); [lia|].
  rewrite live_with_db, lookup_insert_eq.
  change (Redis.expired (Redis.clock (Redis.bump r))
            (Redis.Entry (Str.of_Z (n + 1)) (Redis.deadline e)))
    with (Redis.expired (Redis.clock r) e).
  rewrite Hexp. cbn.
  destruct (Z.leb_spec window 0); [lia|]. cbn.
  now rewrite insert_insert_eq.
Qed.

(** ** The rate limiter *)

Lemma rate_limit_unavailable (mx window : Z) (f : request -> M response)
    (req : request) (w : world) :
  REDIS_AVAILABLE w = false -> rate_limit mx window f req w = f req w.
Proof.
  intros Hoff. unfold rate_limit, bind, gets. now rewrite Hoff.
Qed.

Lemma int_nonempty (s : string) (n : Z) : Py.int s = Return n -> Str.truthy s = true.
Proof. destruct s; [discriminate | reflexivity]. Qed.

Lemma rate_limit_rejects (mx window : Z) (f : request -> M response)
    (req : request) (w : world) (e : Redis.entry) (n : Z) :
  REDIS_AVAILABLE w = true -> answers (redis_client w) ->
  Redis.live (rate_key req) (redis_client w) = Some e ->
  Py.int (Redis.value e) = Return n -> mx <= n ->
  rate_limit mx window f req w
  = (Return (rate_limited mx window),
     with_redis (Redis.bump (redis_client w)) w).
Proof.
  intros Hon Hans Hlive Hint Hn.
  unfold rate_limit, bind, gets, try_except, redis, lift, ret.
  rewrite Hon. cbn [negb].
  fold (rate_key req). rewrite (get_answers _ _ Hans), Hlive. cbn [option_map].
  rewrite (int_nonempty _ _ Hint). cbn. rewrite Hint.
  destruct (Z.leb_spec mx n); [|lia]. reflexivity.
Qed.

(** Whenever the limiter does not reject, it runs the handler. *)
Lemma rate_limit_cases (mx window : Z) (f : request -> M response)
    (req : request) (w : world) :
  (exists w1, rate_limit mx window f req w = f req w1)
  \/ (exists e n,
         REDIS_AVAILABLE w = true /\ answers (redis_client w)
         /\ Redis.live (rate_key req) (redis_client w) = Some e
         /\ Py.int (Redis.value e) = Return n /\ mx <= n).
Proof.
  destruct (REDIS_AVAILABLE w) eqn:Hon;
    [|left; exists w; now apply rate_limit_unavailable].
  unfold rate_limit, bind, gets, try_except, redis, lift, ret.
  rewrite Hon. cbn [negb]. fold (rate_key req).
  destruct (Redis.outage (redis_client w) (Redis.trips (redis_client w)))
    as [flt|] eqn:Hout.
  { rewrite (get_fault _ _ _ Hout). left. eexists. reflexivity. }
  rewrite (get_answers _ _ Hout).
  destruct (Redis.live (rate_key req) (redis_client w)) as [e|] eqn:Hlive;
    cbn [option_map].
  - destruct (Str.truthy (Redis.value e)) eqn:Hs.
    + destruct (Py.int (Redis.value e)) as [n|ex] eqn:Hint.
      * destruct (Z.leb_spec mx n) as [Hle|Hlt].
        -- right. exists e, n. auto.
        -- left. cbn.
           destruct (Redis.execute _ _) as [[xs|ex] r1]; eexists; reflexivity.
      * left. eexists. reflexivity.
    + left. cbn.
      destruct (Redis.execute _ _) as [[xs|ex] r1]; eexists; reflexivity.
  - left. cbn.
    destruct (Redis.execute _ _) as [[xs|ex] r1]; eexists; reflexivity.
Qed.

(** ** What the handler leaves alone *)

Ltac keeps_now :=
  unfold keeps, counter; simpl;
  repeat match goal with |- _ /\ _ => split end; auto; try lia.

Lemma keeps_refl (w : world) : keeps w w.
Proof. keeps_now. Qed.

Lemma keeps_trans (w1 w2 w3 : world) : keeps w1 w2 -> keeps w2 w3 -> keeps w1 w3.
Proof.
  unfold keeps. intros (Ha & Hc & Ho & Ht & Hk) (Ha' & Hc' & Ho' & Ht' & Hk').
  split; [congruence|]. split; [congruence|]. split; [congruence|].
  split; [lia|]. intros ip. now rewrite Hk', Hk.
Qed.

Lemma keeping_ret {A : Type} (a : A) : keeping (ret a).
Proof. intros w. apply keeps_refl. Qed.

Lemma keeping_raise {A : Type} (e : exn) : keeping (@raise A e).
Proof. intros w. apply keeps_refl. Qed.

Lemma keeping_lift {A : Type} (r : result A) : keeping (lift r).
Proof. intros w. apply keeps_refl. Qed.

Lemma keeping_gets {A : Type} (f : world -> A) : keeping (gets f).
Proof. intros w. apply keeps_refl. Qed.

Lemma keeping_set_model (m : option Model) : keeping (set_model m).
Proof. intros w. keeps_now. Qed.

Lemma keeping_bind {A B : Type} (m : M A) (k : A -> M B) :
  keeping m -> (forall a, keeping (k a)) -> keeping (bind m k).
Proof.
  intros Hm Hk w. unfold bind. specialize (Hm w).
  destruct (m w) as [[a|e] w1]; simpl in Hm; [|exact Hm].
  eapply keeps_trans; [exact Hm | apply Hk].
Qed.

Lemma keeping_try {A : Type} (body : M A) (handler : exn -> M A) :
  keeping body -> (forall e, keeping (handler e)) ->
  keeping (try_except body handler).
Proof.
  intros Hb Hh w. unfold try_except. specialize (Hb w).
  destruct (body w) as [[a|e] w1]; simpl in Hb; [exact Hb|].
  eapply keeps_trans; [exact Hb | apply Hh].
Qed.

Lemma keeping_get (key : string) : keeping (redis (Redis.get key)).
Proof.
  intros w. unfold redis.
  pose proof (get_server key (redis_client w)) as Hs.
  destruct (Redis.get key (redis_client w)) as [x r]. simpl in Hs. subst r.
  keeps_now.
Qed.

Lemma cache_key_not_counter (text length ip : string) :
  get_cache_key text length <> "rate_limit:" +:+ ip.
Proof.
  unfold get_cache_key. rewrite !append_cons. discriminate.
Qed.

Lemma keeping_setex (text length val : string) (seconds : Z) :
  keeping (redis (Redis.setex (get_cache_key text length) seconds val)).
Proof.
  intros w. unfold redis, Redis.setex, Redis.checked, Redis.round_trip.
  assert (Hrun : forall r,
             Redis.clock (snd (Redis.run_all
                [Redis.SETEX (get_cache_key text length) seconds val] r))
             = Redis.clock r
             /\ Redis.outage (snd (Redis.run_all
                [Redis.SETEX (get_cache_key text length) seconds val] r))
                = Redis.outage r
             /\ Redis.trips (snd (Redis.run_all
                [Redis.SETEX (get_cache_key text length) seconds val] r))
                = Redis.trips r
             /\ forall ip,
                 Redis.db (snd (Redis.run_all
                   [Redis.SETEX (get_cache_key text length) seconds val] r))
                   !! ("rate_limit:" +:+ ip)
                 = Redis.db r !! ("rate_limit:" +:+ ip)).
  { intros r. cbn. destruct (seconds <=? 0); cbn; repeat split; auto.
    intros ip. apply lookup_insert_ne, cache_key_not_counter. }
  destruct (Hrun (Redis.bump (redis_client w))) as (Hc & Ho & Ht & Hk).
  destruct (Redis.run_all _ (Redis.bump (redis_client w))) as [xs r1].
  simpl in Hc, Ho, Ht, Hk.
  destruct (Redis.outage (redis_client w) (Redis.trips (redis_client w)))
    as [[[] e]|]; [ | |destruct (Redis.first_error xs)];
    unfold keeps, counter; simpl; rewrite ?Hc, ?Ho, ?Ht; keeps_now.
Qed.

Lemma keeping_get_model (ev : env) : keeping (get_model ev).
Proof.
  unfold get_model. apply keeping_bind; [apply keeping_gets|]. intros m.
  apply keeping_bind; [|intros; apply keeping_gets].
  destruct m; [apply keeping_ret|].
  apply keeping_bind; [apply keeping_lift | intros; apply keeping_set_model].
Qed.

Section Frame.

Context `{Json}.

Lemma keeping_get_cached_summary (text length : string) :
  keeping (get_cached_summary text length).
Proof.
  unfold get_cached_summary.
  apply keeping_bind; [apply keeping_gets|]. intros [|]; cbn [negb].
  - apply keeping_bind.
    + apply keeping_try; [|intros; apply keeping_ret].
      apply keeping_bind; [apply keeping_get|]. intros [s|]; [|apply keeping_ret].
      destruct (Str.truthy s); [|apply keeping_ret].
      apply keeping_bind; [apply keeping_lift | intros; apply keeping_ret].
    + intros [v|]; apply keeping_ret.
  - apply keeping_ret.
Qed.

Lemma keeping_cache_summary (text length : string) (data : pyval) :
  keeping (cache_summary text length data).
Proof.
  unfold cache_summary.
  apply keeping_bind; [apply keeping_gets|]. intros [|]; cbn [negb].
  - apply keeping_try; [apply keeping_setex | intros; apply keeping_ret].
  - apply keeping_ret.
Qed.

Lemma keeping_generate_summary (ev : env) (text length : string) :
  keeping (generate_summary ev text length).
Proof.
  unfold generate_summary.
  apply keeping_try; [|intros; apply keeping_raise].
  apply keeping_bind; [apply keeping_get_cached_summary|]. intros cached.
  destruct (Py.truthy cached); [apply keeping_lift|].
  apply keeping_bind; [apply keeping_get_model|]. intros model.
  apply keeping_bind; [apply keeping_lift|]. intros summary_text.
  apply keeping_bind; [apply keeping_lift|]. intros ratio.
  apply keeping_bind; [apply keeping_cache_summary | intros; apply keeping_ret].
Qed.

Lemma keeping_summarize (ev : env) (req : request) : keeping (summarize ev req).
Proof.
  unfold summarize.
  apply keeping_try; [|intros; apply keeping_ret].
  apply keeping_bind; [apply keeping_lift|]. intros data.
  destruct (negb (Py.truthy data)); [apply keeping_ret|].
  apply keeping_bind; [apply keeping_lift|]. intros text_field.
  apply keeping_bind; [apply keeping_lift|]. intros text.
  apply keeping_bind; [apply keeping_lift|]. intros length_field.
  apply keeping_bind; [apply keeping_lift|]. intros length.
  destruct (validate_input text length); [|apply keeping_ret].
  apply keeping_bind; [apply keeping_generate_summary | intros; apply keeping_ret].
Qed.

End Frame.

Lemma rate_limit_passes (mx window : Z) (f : request -> M response)
    (req : request) (w : world) (n : Z) :
  REDIS_AVAILABLE w = true ->
  answers (redis_client w) -> answers (Redis.bump (redis_client w)) ->
  0 < window -> mx < 2 ^ 63 ->
  count req w = Some n -> n < mx ->
  rate_limit mx window f req w = f req (counted window n req w).
Proof.
  intros Hon Hans1 Hans2 Hwin Hmx Hcount Hn.
  unfold rate_limit, bind, gets, try_except, redis, lift, ret.
  rewrite Hon. cbn [negb]. fold (rate_key req).
  rewrite (get_answers _ _ Hans1). unfold count in Hcount.
  destruct (Redis.live (rate_key req) (redis_client w)) as [e|] eqn:Hlive;
    cbn [option_map].
  - destruct (to_int64_int _ _ Hcount) as [_ Hint].
    rewrite (int_nonempty _ _ Hint). cbn. rewrite Hint.
    destruct (Z.leb_spec mx n); [lia|]. cbn.
    rewrite (execute_count (rate_key req) window (Redis.bump (redis_client w)) e n)
      by (auto; lia).
    reflexivity.
  - injection Hcount as <-. cbn.
    rewrite (execute_fresh (rate_key req) window (Redis.bump (redis_client w)))
      by auto.
    reflexivity.
Qed.

Lemma to_int64_of_Z (n : Z) :
  - 2 ^ 63 <= n < 2 ^ 63 -> Redis.to_int64 (Str.of_Z n) = Some n.
Proof.
  intros Hn. unfold Redis.to_int64, Str.of_Z.
  assert (Hparse : NilZero.int_of_string (NilZero.string_of_int (Z.to_int n))
                   = Some (Z.to_int n)).
  { apply NilZero.isi; destruct n; simpl; try discriminate;
      intros [= Hnil]; now apply DecimalPos.Unsigned.to_uint_nonnil in Hnil. }
  rewrite Hparse, DecimalZ.of_to, String.eqb_refl.
  destruct (Z.leb_spec (- 2 ^ 63) n); [|lia].
  destruct (Z.ltb_spec n (2 ^ 63)); [|lia]. reflexivity.
Qed.

Lemma summarize_total `{Json} (ev : env) (req : request) (w : world) :
  exists resp w',
    summarize ev req w = (Return resp, w')
    /\ (status resp = 200 \/ status resp = 400 \/ status resp = 500).
Proof.
  unfold summarize, try_except.
  match goal with |- context [match ?body w with _ => _ end] =>
    destruct (body w) as [[resp|e] w'] eqn:Hbody end.
  - exists resp, w'. split; [reflexivity|].
    unfold bind, lift, ret in Hbody.
    destruct (get_json req) as [data|]; [|discriminate].
    destruct (negb (Py.truthy data)); [injection Hbody as <- _; simpl; auto|].
    destruct (Py.get data "text" (PStr "")) as [tf|]; [|discriminate].
    destruct (Py.strip tf) as [text|]; [|discriminate].
    destruct (Py.get data "length" (PStr "medium")) as [lf|]; [|discriminate].
    destruct (Py.lower lf) as [length|]; [|discriminate].
    destruct (validate_input text length);
      [|injection Hbody as <- _; simpl; auto].
    destruct (generate_summary ev text length w) as [[result|e] w1];
      [|discriminate].
    injection Hbody as <- _. simpl. auto.
  - eexists _, w'. split; [reflexivity|]. simpl. auto.
Qed.

Section Burst.

Context `{Json}.

Lemma up_answers (r : Redis.server) :
  up r -> answers r /\ answers (Redis.bump r).
Proof.
  intros Hup. unfold answers. split; apply Hup; simpl; lia.
Qed.

Lemma request_step (ev : env) (req : request) (w : world) (n gap : Z)
    (r : result response) (w' : world) :
  ready n req w -> 0 <= n < 10 -> 0 <= gap <= 60000 ->
  api_summarize ev req w = (r, w') ->
  served r /\ ready (n + 1) req (later gap w')
  /\ counter (remote_addr req) w'
     = Some (Redis.Entry (Str.of_Z (n + 1))
               (Some (Redis.clock (redis_client w) + 60000))).
Proof.
  intros (Hon & Hup & Hcount) Hn Hgap Hrun.
  destruct (up_answers _ Hup) as [Hans1 Hans2].
  unfold api_summarize in Hrun.
  rewrite (rate_limit_passes 10 60 _ req w n) in Hrun by (auto; lia).
  destruct (summarize_total ev req (counted 60 n req w))
    as (resp & w1 & Hsum & Hstatus).
  rewrite Hsum in Hrun. injection Hrun as <- <-.
  pose proof (keeping_summarize ev req (counted 60 n req w)) as Hkeep.
  rewrite Hsum in Hkeep. simpl in Hkeep.
  destruct Hkeep as (Ha & Hc & Ho & Ht & Hk).
  assert (Hcounter : counter (remote_addr req) w1
            = Some (Redis.Entry (Str.of_Z (n + 1))
                      (Some (Redis.clock (redis_client w) + 60000)))).
  { rewrite Hk. unfold counter, counted. simpl.
    apply lookup_insert_eq. }
  split; [|split; [|exact Hcounter]].
  - exists resp. split; [reflexivity|]. lia.
  - unfold ready. split; [|split].
    + simpl. rewrite Ha. exact Hon.
    + intros k Hk'. simpl in *. rewrite Ho. simpl. apply Hup. lia.
    + unfold count, Redis.live, later. simpl.
      unfold counter in Hcounter. unfold rate_key. rewrite Hcounter.
      unfold Redis.expired. simpl. rewrite Hc. simpl.
      destruct (Z.ltb_spec (Redis.clock (redis_client w) + 60000)
                  (Redis.clock (redis_client w) + gap)); [lia|].
      simpl. apply to_int64_of_Z. lia.
Qed.

Lemma burst_served (ev : env) (req : request) (gap : Z) (k : nat) :
  forall n w,
    ready n req w -> 0 <= n -> n + Z.of_nat k <= 10 -> 0 <= gap <= 60000 ->
    Forall served (fst (burst (api_summarize ev) req k gap w))
    /\ List.length (fst (burst (api_summarize ev) req k gap w)) = k
    /\ ready (n + Z.of_nat k) req
         (snd (burst (api_summarize ev) req k gap w)).
Proof.
  induction k as [|k IH]; intros n w Hready Hn Hk Hgap.
  - simpl. rewrite Z.add_0_r. auto.
  - cbn [burst].
    destruct (api_summarize ev req w) as [r w1] eqn:Hrun.
    destruct (request_step ev req w n gap r w1 Hready ltac:(lia) Hgap Hrun)
      as (Hserved & Hready1 & _).
    specialize (IH (n + 1) (later gap w1) Hready1 ltac:(lia) ltac:(lia) Hgap).
    destruct (burst (api_summarize ev) req k gap (later gap w1)) as [rs w2].
    simpl in *. destruct IH as (Hall & Hlen & Hready2).
    split; [now constructor|]. split; [now rewrite Hlen|].
    replace (n + Z.of_nat (S k)) with (n + 1 + Z.of_nat k) by lia.
    exact Hready2.
Qed.

Lemma ready_rejected (ev : env) (req : request) (w : world) (n : Z) :
  ready n req w -> 10 <= n ->
  api_summarize ev req w
  = (Return (rate_limited 10 60), with_redis (Redis.bump (redis_client w)) w).
Proof.
  intros (Hon & Hup & Hcount) Hn. unfold count in Hcount.
  destruct (Redis.live (rate_key req) (redis_client w)) as [e|] eqn:Hlive;
    [|injection Hcount as <-; lia].
  destruct (to_int64_int _ _ Hcount) as [_ Hint].
  apply (rate_limit_rejects 10 60 _ req w e n); auto.
  apply up_answers, Hup.
Qed.

End Burst.

(** C1: with the counter store available, a request that finds the counter
    of its client present and at 10 or more is answered 429; a request that
    finds no counter, or a counter below 10, is handed to the handler; and
    so is every request when the store was not available at start-up.  From
    a fresh counter, ten requests in a row are served and the eleventh is
    answered 429. *)
Theorem rate_limit_decision `{Json} :
  (forall f req w e n,
      REDIS_AVAILABLE w = true -> answers (redis_client w) ->
      Redis.live (rate_key req) (redis_client w) = Some e ->
      Py.int (Redis.value e) = Return n -> 10 <= n ->
      exists w',
        rate_limit 10 60 f req w = (Return (rate_limited 10 60), w')
        /\ status (rate_limited 10 60) = 429
        /\ forall ip, counter ip w' = counter ip w)
  /\ (forall f req w,
         REDIS_AVAILABLE w = true ->
         Redis.live (rate_key req) (redis_client w) = None
         \/ (exists e n,
                Redis.live (rate_key req) (redis_client w) = Some e
                /\ Py.int (Redis.value e) = Return n /\ n < 10) ->
         exists w1, rate_limit 10 60 f req w = f req w1)
  /\ (forall f req w,
         REDIS_AVAILABLE w = false -> rate_limit 10 60 f req w = f req w)
  /\ (forall ev req w gap,
         REDIS_AVAILABLE w = true -> up (redis_client w) ->
         Redis.live (rate_key req) (redis_client w) = None ->
         0 <= gap <= 60000 ->
         Forall served (fst (burst (api_summarize ev) req 10 gap w))
         /\ List.length (fst (burst (api_summarize ev) req 10 gap w)) = 10%nat
         /\ fst (api_summarize ev req
                   (snd (burst (api_summarize ev) req 10 gap w)))
            = Return (rate_limited 10 60)).
Proof.
  split; [|split; [|split]].
  - intros f req w e n Hon Hans Hlive Hint Hn.
    rewrite (rate_limit_rejects 10 60 f req w e n) by assumption.
    eexists. split; [reflexivity|]. split; [reflexivity|]. reflexivity.
  - intros f req w Hon Hbelow.
    destruct (rate_limit_cases 10 60 f req w)
      as [Hrun|(e & n & _ & _ & Hlive & Hint & Hn)]; [exact Hrun|].
    destruct Hbelow as [Hnone|(e' & n' & Hlive' & Hint' & Hn')]; [congruence|].
    rewrite Hlive in Hlive'. injection Hlive' as <-.
    rewrite Hint in Hint'. injection Hint' as <-. lia.
  - intros f req w. apply rate_limit_unavailable.
  - intros ev req w gap Hon Hup Hlive Hgap.
    assert (Hready : ready 0 req w).
    { unfold ready, count. rewrite Hlive. auto. }
    destruct (burst_served ev req gap 10 0 w Hready) as (Hall & Hlen & Hten);
      [lia | lia | exact Hgap |].
    split; [exact Hall|]. split; [exact Hlen|].
    now rewrite (ready_rejected ev req _ 10 Hten) by lia.
Qed.

Lemma rate_limit_decision_witness :
  (exists w',
      rate_limit 10 60 (@summarize Sample.json Sample.ev) Sample.req Sample.busy
      = (Return (rate_limited 10 60), w'))
  /\ (exists w1,
         rate_limit 10 60 (@summarize Sample.json Sample.ev) Sample.req Sample.start
         = @summarize Sample.json Sample.ev Sample.req w1)
  /\ rate_limit 10 60 (@summarize Sample.json Sample.ev) Sample.req
       (World false Sample.dead_server None)
     = @summarize Sample.json Sample.ev Sample.req
         (World false Sample.dead_server None)
  /\ fst (@api_summarize Sample.json Sample.ev Sample.req
            (snd (burst (@api_summarize Sample.json Sample.ev) Sample.req 10 5000
                    Sample.start)))
     = Return (rate_limited 10 60).
Proof.
  destruct (@rate_limit_decision Sample.json) as (Hreject & Hpass & Hoff & Hburst).
  split; [|split; [|split]].
  - destruct (Hreject (@summarize Sample.json Sample.ev) Sample.req Sample.busy
                (Redis.Entry "10" (Some 60000)) 10)
      as (w' & Hrun & _); [reflexivity | reflexivity | reflexivity
                          | reflexivity | lia |].
    exists w'. exact Hrun.
  - apply Hpass; [reflexivity|]. left. reflexivity.
  - apply Hoff. reflexivity.
  - apply (Hburst Sample.ev Sample.req Sample.start 5000);
      [reflexivity | intros n _; reflexivity | reflexivity | lia].
Defined.

(** C4, as stated, fails: the eleventh attempt of a client is rejected and
    its counter stays at 10. *)
Lemma rejected_attempt_not_counted :
  let h := @api_summarize Sample.json Sample.ev in
  let w10 := snd (burst h Sample.empty_req 10 1000 Sample.start) in
  option_map Redis.value (counter "10.0.0.1" w10) = Some "10"
  /\ fst (h Sample.empty_req w10) = Return (rate_limited 10 60)
  /\ option_map Redis.value (counter "10.0.0.1" (snd (h Sample.empty_req w10)))
     = Some "10".
Proof. vm_compute. repeat split; reflexivity. Qed.

(** C4, amended: the rate counter of a client is incremented on every
    attempt that the limiter lets through while the store answers, whatever
    the outcome of the summarization; an attempt that the limiter rejects
    leaves the counter as it was. *)
Theorem counter_incremented_when_allowed `{Json} (ev : env) (req : request)
    (w : world) (n : Z) (r : result response) (w' : world) :
  REDIS_AVAILABLE w = true ->
  answers (redis_client w) -> answers (Redis.bump (redis_client w)) ->
  count req w = Some n ->
  api_summarize ev req w = (r, w') ->
  (n < 10 ->
   served r
   /\ counter (remote_addr req) w'
      = Some (Redis.Entry (Str.of_Z (n + 1))
                (Some (Redis.clock (redis_client w) + 60000))))
  /\ (10 <= n ->
      r = Return (rate_limited 10 60)
      /\ counter (remote_addr req) w' = counter (remote_addr req) w).
Proof.
  intros Hon Hans1 Hans2 Hcount Hrun. unfold api_summarize in Hrun. split; intros Hn.
  - rewrite (rate_limit_passes 10 60 _ req w n) in Hrun by (auto; lia).
    destruct (summarize_total ev req (counted 60 n req w))
      as (resp & w1 & Hsum & Hstatus).
    pose proof (keeping_summarize ev req (counted 60 n req w)) as Hkeep.
    rewrite Hsum in Hrun, Hkeep. injection Hrun as <- <-. simpl in Hkeep.
    destruct Hkeep as (_ & _ & _ & _ & Hk). split.
    + exists resp. split; [reflexivity|]. lia.
    + rewrite Hk. unfold counter, counted. simpl. apply lookup_insert_eq.
  - unfold count in Hcount.
    destruct (Redis.live (rate_key req) (redis_client w)) as [e|] eqn:Hlive;
      [|injection Hcount as <-; lia].
    destruct (to_int64_int _ _ Hcount) as [_ Hint].
    rewrite (rate_limit_rejects 10 60 _ req w e n) in Hrun by assumption.
    injection Hrun as <- <-. split; reflexivity.
Qed.

Lemma counter_incremented_when_allowed_witness :
  counter "10.0.0.1"
    (snd (@api_summarize Sample.json Sample.broken_ev Sample.req Sample.start))
  = Some (Redis.Entry "1" (Some 60000))
  /\ counter "10.0.0.1"
       (snd (@api_summarize Sample.json Sample.ev Sample.req Sample.busy))
     = counter "10.0.0.1" Sample.busy.
Proof.
  split.
  - destruct (@api_summarize Sample.json Sample.broken_ev Sample.req Sample.start)
      as [r w'] eqn:Hrun.
    apply (@counter_incremented_when_allowed Sample.json Sample.broken_ev
             Sample.req Sample.start 0 r w'); [reflexivity..| exact Hrun | lia].
  - destruct (@api_summarize Sample.json Sample.ev Sample.req Sample.busy)
      as [r w'] eqn:Hrun.
    apply (@counter_incremented_when_allowed Sample.json Sample.ev
             Sample.req Sample.busy 10 r w'); [reflexivity..| exact Hrun | lia].
Defined.

(** The expiry moves with the second request: a counter created at time 0
    by one request and touched at 30 s by a second one expires at 90 s; at
    60.001 s it is still there. *)
Lemma window_extended_by_second_request :
  let h := @api_summarize Sample.json Sample.ev in
  let w1 := snd (h Sample.empty_req Sample.start) in
  let w2 := snd (h Sample.empty_req (later 30000 w1)) in
  Redis.clock (redis_client Sample.start) = 0
  /\ counter "10.0.0.1" w1 = Some (Redis.Entry "1" (Some 60000))
  /\ counter "10.0.0.1" w2 = Some (Redis.Entry "2" (Some 90000))
  /\ Redis.clock (redis_client (later 30001 w2)) = 60001
  /\ Redis.live "rate_limit:10.0.0.1" (redis_client (later 30001 w2))
     = Some (Redis.Entry "2" (Some 90000)).
Proof. vm_compute. repeat split; reflexivity. Qed.

(** What the limiter does to the expiry: every request that it lets
    through while the store answers sets the expiry of the counter to 60
    seconds from that request, so that the counter lasts until 60 seconds
    after the latest such request; a rejected request leaves the counter and
    its expiry as they were. *)
Theorem window_restarts_on_allowed_request (f : request -> M response)
    (req : request) (w : world) (n : Z) :
  REDIS_AVAILABLE w = true ->
  answers (redis_client w) -> answers (Redis.bump (redis_client w)) ->
  count req w = Some n ->
  (n < 10 ->
   exists w1,
     rate_limit 10 60 f req w = f req w1
     /\ option_map Redis.deadline (counter (remote_addr req) w1)
        = Some (Some (Redis.clock (redis_client w) + 60000))
     /\ (forall ms, 0 <= ms <= 60000 ->
           option_map Redis.value
             (Redis.live (rate_key req) (redis_client (later ms w1)))
           = Some (Str.of_Z (n + 1)))
     /\ (forall ms, 60000 < ms ->
           Redis.live (rate_key req) (redis_client (later ms w1)) = None))
  /\ (10 <= n ->
      exists w1,
        rate_limit 10 60 f req w = (Return (rate_limited 10 60), w1)
        /\ counter (remote_addr req) w1 = counter (remote_addr req) w).
Proof.
  intros Hon Hans1 Hans2 Hcount. split; intros Hn.
  - exists (counted 60 n req w).
    split; [apply rate_limit_passes; auto; lia|].
    assert (Hentry : counter (remote_addr req) (counted 60 n req w)
              = Some (Redis.Entry (Str.of_Z (n + 1))
                        (Some (Redis.clock (redis_client w) + 60000)))).
    { unfold counter, counted. simpl. apply lookup_insert_eq. }
    split; [now rewrite Hentry|].
    unfold counter in Hentry.
    split; intros ms Hms; unfold Redis.live, later, rate_key; simpl;
      simpl in Hentry; rewrite Hentry; unfold Redis.expired; simpl.
    + destruct (Z.ltb_spec (Redis.clock (redis_client w) + 60000)
                  (Redis.clock (redis_client w) + ms)); [lia|reflexivity].
    + destruct (Z.ltb_spec (Redis.clock (redis_client w) + 60000)
                  (Redis.clock (redis_client w) + ms)); [reflexivity|lia].
  - unfold count in Hcount.
    destruct (Redis.live (rate_key req) (redis_client w)) as [e|] eqn:Hlive;
      [|injection Hcount as <-; lia].
    destruct (to_int64_int _ _ Hcount) as [_ Hint].
    rewrite (rate_limit_rejects 10 60 f req w e n) by assumption.
    eexists. split; reflexivity.
Qed.

Lemma window_restarts_on_allowed_request_witness :
  (exists w1,
      rate_limit 10 60 (@summarize Sample.json Sample.ev) Sample.req
        (later 30000 (counted 60 0 Sample.req Sample.start))
      = @summarize Sample.json Sample.ev Sample.req w1
      /\ option_map Redis.deadline (counter "10.0.0.1" w1) = Some (Some 90000))
  /\ (exists w1,
         rate_limit 10 60 (@summarize Sample.json Sample.ev) Sample.req Sample.busy
         = (Return (rate_limited 10 60), w1)
         /\ counter "10.0.0.1" w1 = counter "10.0.0.1" Sample.busy).
Proof.
  split.
  - destruct (window_restarts_on_allowed_request
                (@summarize Sample.json Sample.ev) Sample.req
                (later 30000 (counted 60 0 Sample.req Sample.start)) 1)
      as [Hpass _]; [reflexivity..|].
    destruct (Hpass ltac:(lia)) as (w1 & Hrun & Hdeadline & _).
    exists w1. split; [exact Hrun | exact Hdeadline].
  - destruct (window_restarts_on_allowed_request
                (@summarize Sample.json Sample.ev) Sample.req Sample.busy 10)
      as [_ Hreject]; [reflexivity..|].
    exact (Hreject ltac:(lia)).
Defined.

(** C8: the code breaks the claim, and the docstring of [rate_limit] with
    it.  A client sends a valid request every 10 seconds from time 0.  The
    counter is created at 0 s; each request that is let through moves its
    expiry to 60 seconds after that request (70 s after the second), so that
    the counter never expires: it holds 10 from 90 s on, and the request at
    100 s is answered 429 ['Max 10 requests per 60s'], although only five
    requests were served in the 60 seconds before it.  With the window of the
    claim the counter would have expired at 60 s. *)
Theorem steady_client_rejected :
  let h := @api_summarize Sample.fresh_codec Sample.ev in
  let w1 := snd (h Sample.req Sample.start) in
  let w2 := snd (h Sample.req (later 10000 w1)) in
  let w10 := snd (burst h Sample.req 10 10000 Sample.start) in
  let log := serve h Sample.req (0 :: List.repeat 10000 10) Sample.start in
  counter "10.0.0.1" w1 = Some (Redis.Entry "1" (Some 60000))
  /\ counter "10.0.0.1" w2 = Some (Redis.Entry "2" (Some 70000))
  /\ Redis.clock (redis_client w10) = 100000
  /\ Redis.live "rate_limit:10.0.0.1" (redis_client w10)
     = Some (Redis.Entry "10" (Some 150000))
  /\ fst (h Sample.req w10) = Return (rate_limited 10 60)
  /\ Py.field (body (rate_limited 10 60)) "message"
     = Some (PStr "Max 10 requests per 60s")
  /\ served_times log
     = [0; 10000; 20000; 30000; 40000; 50000; 60000; 70000; 80000; 90000]
  /\ List.length log = 11%nat
  /\ List.length (List.filter (fun t => 40000 <? t) (served_times log)) = 5%nat.
Proof. vm_compute. repeat split; reflexivity. Qed.

(** ** The cache layer *)

Lemma get_model_loaded (ev : env) (w : world) (m : Model) :
  _model w = Some m -> get_model ev w = (Return (Some m), w).
Proof.
  intros Hm. unfold get_model, bind, gets, ret. rewrite Hm. simpl. now rewrite Hm.
Qed.

Lemma get_model_loads (ev : env) (w : world) (m : Model) :
  _model w = None -> pipeline ev = Return m ->
  get_model ev w
  = (Return (Some m), World (REDIS_AVAILABLE w) (redis_client w) (Some m)).
Proof.
  intros Hm Hp. unfold get_model, bind, gets, lift, set_model.
  now rewrite Hm, Hp.
Qed.

Lemma get_model_fails (ev : env) (w : world) (e : exn) :
  _model w = None -> pipeline ev = Raise e -> get_model ev w = (Raise e, w).
Proof.
  intros Hm Hp. unfold get_model, bind, gets, lift. now rewrite Hm, Hp.
Qed.

Lemma get_model_some (ev : env) (w : world) (m : Model) :
  loads ev w m -> exists w', get_model ev w = (Return (Some m), w').
Proof.
  intros [Hm|[Hm Hp]]; eexists;
    [now apply get_model_loaded | now apply get_model_loads].
Qed.

Lemma lookup_store_eq (d : list (string * pyval)) (k : string) (v : pyval) :
  Py.lookup (Py.store d k v) k = Some v.
Proof.
  induction d as [|[k' v'] d IH]; simpl.
  - now rewrite String.eqb_refl.
  - destruct (String.eqb k' k) eqn:Hk; simpl; now rewrite Hk.
Qed.

Lemma lookup_store_ne (d : list (string * pyval)) (k k' : string) (v : pyval) :
  k' <> k -> Py.lookup (Py.store d k v) k' = Py.lookup d k'.
Proof.
  intros Hne. induction d as [|[k0 v0] d IH]; simpl.
  - destruct (String.eqb_spec k k'); [congruence|reflexivity].
  - destruct (String.eqb_spec k0 k) as [->|Hk]; simpl.
    + destruct (String.eqb_spec k k'); [congruence|reflexivity].
    + destruct (String.eqb k0 k'); [reflexivity|exact IH].
Qed.

Section Cache.

Context `{Json}.

Lemma get_cached_summary_unavailable (text length : string) (w : world) :
  REDIS_AVAILABLE w = false ->
  get_cached_summary text length w = (Return PNone, w).
Proof.
  intros Hoff. unfold get_cached_summary, bind, gets, ret. now rewrite Hoff.
Qed.

Lemma get_cached_summary_fault (text length : string) (w : world)
    (flt : Redis.fault) :
  REDIS_AVAILABLE w = true ->
  Redis.outage (redis_client w) (Redis.trips (redis_client w)) = Some flt ->
  get_cached_summary text length w
  = (Return PNone, with_redis (Redis.bump (redis_client w)) w).
Proof.
  intros Hon Hout.
  unfold get_cached_summary, bind, gets, try_except, redis, ret.
  rewrite Hon. cbn [negb]. now rewrite (get_fault _ _ _ Hout).
Qed.

Lemma get_cached_summary_answers (text length : string) (w : world) :
  REDIS_AVAILABLE w = true -> answers (redis_client w) ->
  get_cached_summary text length w
  = (Return (cached_value
               (Redis.live (get_cache_key text length) (redis_client w))),
     with_redis (Redis.bump (redis_client w)) w).
Proof.
  intros Hon Hans.
  unfold get_cached_summary, bind, gets, try_except, redis, lift, ret.
  rewrite Hon. cbn [negb]. rewrite (get_answers _ _ Hans).
  unfold cached_value.
  destruct (Redis.live (get_cache_key text length) (redis_client w)) as [e|];
    cbn [option_map]; [|reflexivity].
  destruct (Str.truthy (Redis.value e)); [|reflexivity].
  destruct (json_loads (Redis.value e)); reflexivity.
Qed.

Lemma get_cached_summary_returns (text length : string) (w : world) :
  exists v w', get_cached_summary text length w = (Return v, w').
Proof.
  destruct (REDIS_AVAILABLE w) eqn:Hon;
    [|eexists _, _; now apply get_cached_summary_unavailable].
  destruct (Redis.outage (redis_client w) (Redis.trips (redis_client w)))
    as [flt|] eqn:Hout.
  - eexists _, _. now apply (get_cached_summary_fault text length w flt).
  - eexists _, _. now apply get_cached_summary_answers.
Qed.

Lemma cache_summary_unavailable (text length : string) (data : pyval)
    (w : world) :
  REDIS_AVAILABLE w = false -> cache_summary text length data w = (Return tt, w).
Proof.
  intros Hoff. unfold cache_summary, bind, gets, ret. now rewrite Hoff.
Qed.

Lemma cache_summary_lost (text length : string) (data : pyval) (w : world)
    (e : exn) :
  REDIS_AVAILABLE w = true ->
  Redis.outage (redis_client w) (Redis.trips (redis_client w))
  = Some (Redis.Fault false e) ->
  cache_summary text length data w
  = (Return tt, with_redis (Redis.bump (redis_client w)) w).
Proof.
  intros Hon Hout. unfold cache_summary, bind, gets, try_except, redis, ret.
  rewrite Hon. cbn [negb]. now rewrite (setex_lost _ _ _ _ _ Hout).
Qed.

Lemma cache_summary_answers (text length : string) (data : pyval) (w : world) :
  REDIS_AVAILABLE w = true -> answers (redis_client w) ->
  cache_summary text length data w
  = (Return tt,
     with_redis
       (Redis.with_db
          (<[get_cache_key text length :=
               Redis.Entry (json_dumps data)
                 (Some (Redis.clock (redis_client w) + 1000 * 86400))]>
             (Redis.db (redis_client w)))
          (Redis.bump (redis_client w)))
       w).
Proof.
  intros Hon Hans. unfold cache_summary, bind, gets, try_except, redis, ret.
  rewrite Hon. cbn [negb]. now rewrite (setex_answers _ _ _ _ Hans) by lia.
Qed.

Lemma cache_summary_returns (text length : string) (data : pyval) (w : world) :
  exists w', cache_summary text length data w = (Return tt, w').
Proof.
  unfold cache_summary, bind, gets, try_except, ret.
  destruct (REDIS_AVAILABLE w); cbn [negb]; [|eexists; reflexivity].
  destruct (redis _ w) as [[[]|e] w1]; eexists; reflexivity.
Qed.

(** [generate_summary] when the cache lookup finds nothing it can use. *)
Lemma generate_summary_miss (ev : env) (text length : string) (w w1 w2 : world)
    (v : pyval) (model : option Model) :
  get_cached_summary text length w = (Return v, w1) ->
  Py.truthy v = false ->
  get_model ev w1 = (Return model, w2) ->
  generate_summary ev text length w
  = match call model text (fst (length_config length))
            (snd (length_config length)) with
    | Raise e => (Raise e, w2)
    | Return summary_text =>
        match Float.truediv (Py.len summary_text) (Py.len text) with
        | Raise e => (Raise e, w2)
        | Return ratio =>
            (Return (fresh_summary ev text summary_text ratio),
             snd (cache_summary text length
                    (fresh_summary ev text summary_text ratio) w2))
        end
    end.
Proof.
  intros Hget Hv Hmodel.
  unfold generate_summary, try_except, bind, lift, ret, raise.
  rewrite Hget, Hv, Hmodel.
  destruct (call model text _ _) as [summary_text|e]; [|reflexivity].
  destruct (Float.truediv _ _) as [ratio|e]; [|reflexivity].
  fold (fresh_summary ev text summary_text ratio).
  destruct (cache_summary_returns text length
              (fresh_summary ev text summary_text ratio) w2) as [w3 Hc].
  now rewrite Hc.
Qed.

Lemma generate_summary_load_fails (ev : env) (text length : string)
    (w w1 w2 : world) (v : pyval) (e : exn) :
  get_cached_summary text length w = (Return v, w1) ->
  Py.truthy v = false ->
  get_model ev w1 = (Raise e, w2) ->
  generate_summary ev text length w = (Raise e, w2).
Proof.
  intros Hget Hv Hmodel.
  unfold generate_summary, try_except, bind, lift, ret, raise.
  now rewrite Hget, Hv, Hmodel.
Qed.

(** [generate_summary] when the cache lookup finds a dict. *)
Lemma generate_summary_hit (ev : env) (text length : string) (w w1 : world)
    (d : list (string * pyval)) :
  get_cached_summary text length w = (Return (PDict d), w1) ->
  d <> [] ->
  generate_summary ev text length w
  = (Return (PDict (Py.store d "cached" (PBool true))), w1).
Proof.
  intros Hget Hd.
  unfold generate_summary, try_except, bind, lift, ret, raise.
  rewrite Hget. destruct d; [contradiction|]. reflexivity.
Qed.

End Cache.

Lemma truthy_nonempty (s : string) : s <> "" -> Str.truthy s = true.
Proof. destruct s; [contradiction|reflexivity]. Qed.

(** C2: a summary stored by [cache_summary] is found again by a lookup on
    the same text and length option until 24 hours have passed on the
    store: [generate_summary] returns it with ['cached'] set to true and
    every other field as stored, and the read leaves the entry and its
    expiry alone.  Once the 24 hours are over the lookup misses. *)
Theorem cache_round_trip `{Json} (ev : env) (text length : string)
    (d : list (string * pyval)) (w w2 : world) :
  REDIS_AVAILABLE w = true -> answers (redis_client w) ->
  d <> [] ->
  json_dumps (PDict d) <> "" ->
  json_loads (json_dumps (PDict d)) = Return (PDict d) ->
  REDIS_AVAILABLE w2 = true -> answers (redis_client w2) ->
  Redis.db (redis_client w2) !! get_cache_key text length
  = Redis.db (redis_client (snd (cache_summary text length (PDict d) w)))
      !! get_cache_key text length ->
  (Redis.clock (redis_client w2) <= Redis.clock (redis_client w) + 86400000 ->
   generate_summary ev text length w2
   = (Return (PDict (Py.store d "cached" (PBool true))),
      with_redis (Redis.bump (redis_client w2)) w2)
   /\ Py.lookup (Py.store d "cached" (PBool true)) "cached" = Some (PBool true)
   /\ forall k, k <> "cached" ->
        Py.lookup (Py.store d "cached" (PBool true)) k = Py.lookup d k)
  /\ (Redis.clock (redis_client w) + 86400000 < Redis.clock (redis_client w2) ->
      get_cached_summary text length w2
      = (Return PNone, with_redis (Redis.bump (redis_client w2)) w2)).
Proof.
  intros Hon Hans Hd Hdump Hload Hon2 Hans2 Hentry.
  rewrite (cache_summary_answers text length (PDict d) w Hon Hans) in Hentry.
  simpl in Hentry. rewrite lookup_insert_eq in Hentry.
  pose proof (get_cached_summary_answers text length w2 Hon2 Hans2) as Hget.
  unfold Redis.live in Hget. rewrite Hentry in Hget.
  unfold Redis.expired in Hget. simpl in Hget.
  change (1000 * 86400) with 86400000 in Hget.
  split; intros Htime.
  - destruct (Z.ltb_spec (Redis.clock (redis_client w) + 86400000)
                (Redis.clock (redis_client w2))); [lia|].
    unfold cached_value in Hget. simpl in Hget.
    rewrite (truthy_nonempty _ Hdump), Hload in Hget.
    split; [now apply generate_summary_hit|].
    split; [apply lookup_store_eq|]. intros k Hk. now apply lookup_store_ne.
  - destruct (Z.ltb_spec (Redis.clock (redis_client w) + 86400000)
                (Redis.clock (redis_client w2))); [|lia].
    exact Hget.
Qed.

Lemma cache_round_trip_witness :
  let stored :=
    snd (@cache_summary Sample.json Sample.text "medium"
           (PDict Sample.summary_data) Sample.start) in
  (exists w',
      @generate_summary Sample.json Sample.ev Sample.text "medium"
        (later 86400000 stored)
      = (Return (PDict (Py.store Sample.summary_data "cached" (PBool true))), w'))
  /\ (exists w',
         @get_cached_summary Sample.json Sample.text "medium"
           (later 86400001 stored)
         = (Return PNone, w')).
Proof.
  intros stored. split.
  - eexists.
    apply (@cache_round_trip Sample.json Sample.ev Sample.text "medium"
             Sample.summary_data Sample.start (later 86400000 stored));
      try reflexivity; try discriminate; simpl; lia.
  - eexists.
    apply (@cache_round_trip Sample.json Sample.ev Sample.text "medium"
             Sample.summary_data Sample.start (later 86400001 stored));
      try reflexivity; try discriminate; simpl; lia.
Defined.

(** ** Failures of the store *)

Lemma rate_limit_fault (mx window : Z) (f : request -> M response)
    (req : request) (w : world) (flt : Redis.fault) :
  REDIS_AVAILABLE w = true ->
  Redis.outage (redis_client w) (Redis.trips (redis_client w)) = Some flt ->
  rate_limit mx window f req w
  = f req (with_redis (Redis.bump (redis_client w)) w).
Proof.
  intros Hon Hout. unfold rate_limit, bind, gets, try_except, redis, ret.
  rewrite Hon. cbn [negb]. now rewrite (get_fault _ _ _ Hout).
Qed.

Lemma valid_nonempty (text length : string) :
  validate_input text length = [] -> Py.len text <> 0.
Proof.
  rewrite validate_input_eq. intros Hv. apply app_eq_nil in Hv as [Hv _].
  destruct text; [discriminate Hv|]. unfold Py.len. simpl. lia.
Qed.

Section Fresh.

Context `{Json}.

(** A lookup that finds nothing, a model that answers: a fresh summary. *)
Lemma generate_summary_fresh (ev : env) (text length : string) (w w1 : world)
    (m : Model) (s : string) :
  get_cached_summary text length w = (Return PNone, w1) ->
  loads ev w1 m ->
  m text (fst (length_config length)) (snd (length_config length)) = Return s ->
  Py.len text <> 0 ->
  exists ratio w',
    Float.truediv (Py.len s) (Py.len text) = Return ratio
    /\ generate_summary ev text length w
       = (Return (fresh_summary ev text s ratio), w').
Proof.
  intros Hget Hloads Hcall Hlen.
  destruct (get_model_some ev w1 m Hloads) as [w2 Hmodel].
  rewrite (generate_summary_miss ev text length w w1 w2 PNone (Some m)
             Hget eq_refl Hmodel).
  cbn [call]. rewrite Hcall. unfold Float.truediv.
  destruct (Z.eqb_spec (Py.len text) 0); [contradiction|].
  eexists _, _. split; reflexivity.
Qed.

End Fresh.

(** C3: a failure of the store during a cache lookup or a cache write does
    not leave the cache layer: the lookup returns nothing and the write
    returns, the store untouched when the command never reached it.  When
    the store cannot be reached at all, every valid request whose model call
    answers is served with status 200 and ['cached'] false. *)
Theorem cache_failures_absorbed `{Json} :
  (forall text length w,
      exists v w', get_cached_summary text length w = (Return v, w'))
  /\ (forall text length w flt,
         REDIS_AVAILABLE w = true ->
         Redis.outage (redis_client w) (Redis.trips (redis_client w)) = Some flt ->
         get_cached_summary text length w
         = (Return PNone, with_redis (Redis.bump (redis_client w)) w))
  /\ (forall text length data w,
         exists w', cache_summary text length data w = (Return tt, w'))
  /\ (forall text length data w e,
         REDIS_AVAILABLE w = true ->
         Redis.outage (redis_client w) (Redis.trips (redis_client w))
         = Some (Redis.Fault false e) ->
         cache_summary text length data w
         = (Return tt, with_redis (Redis.bump (redis_client w)) w))
  /\ (forall ev req w text length m s,
         REDIS_AVAILABLE w = false \/ unreachable (redis_client w) ->
         request_fields req = Some (text, length) ->
         validate_input text length = [] ->
         loads ev w m ->
         m text (fst (length_config length)) (snd (length_config length))
         = Return s ->
         exists data w',
           api_summarize ev req w = (Return (success data), w')
           /\ status (success data) = 200
           /\ Py.field data "cached" = Some (PBool false)).
Proof.
  split; [exact get_cached_summary_returns|].
  split; [exact get_cached_summary_fault|].
  split; [exact cache_summary_returns|].
  split; [exact cache_summary_lost|].
  intros ev req w text length m s Hdown Hreq Hvalid Hloads Hcall.
  pose proof (valid_nonempty _ _ Hvalid) as Hlen.
  assert (Hrun : exists w0 w1,
             api_summarize ev req w = summarize ev req w0
             /\ get_cached_summary text length w0 = (Return PNone, w1)
             /\ loads ev w1 m).
  { destruct (REDIS_AVAILABLE w) eqn:Hon.
    - destruct Hdown as [Hoff|Hdown]; [discriminate|].
      destruct (Hdown (Redis.trips (redis_client w))) as [e1 Hout1].
      destruct (Hdown (S (Redis.trips (redis_client w)))) as [e2 Hout2].
      exists (with_redis (Redis.bump (redis_client w)) w).
      eexists. split; [apply (rate_limit_fault _ _ _ _ _ _ Hon Hout1)|].
      split; [apply (get_cached_summary_fault text length
                       (with_redis (Redis.bump (redis_client w)) w) _ Hon Hout2)|].
      exact Hloads.
    - exists w, w. split; [now apply rate_limit_unavailable|].
      split; [now apply get_cached_summary_unavailable | exact Hloads]. }
  destruct Hrun as (w0 & w1 & Hlimit & Hget & Hloads1).
  destruct (generate_summary_fresh ev text length w0 w1 m s Hget Hloads1 Hcall Hlen)
    as (ratio & w' & _ & Hgen).
  exists (fresh_summary ev text s ratio), w'.
  rewrite Hlimit, (summarize_parsed ev req text length w0 Hreq), Hvalid, Hgen.
  repeat split.
Qed.

Lemma cache_failures_absorbed_witness :
  (exists w',
      @get_cached_summary Sample.json Sample.text "medium"
        (World true Sample.dead_server None)
      = (Return PNone, w'))
  /\ (exists w',
         @cache_summary Sample.json Sample.text "medium"
           (PDict Sample.summary_data) (World true Sample.dead_server None)
         = (Return tt, w'))
  /\ (exists data w',
         @api_summarize Sample.json Sample.ev Sample.req
           (World true Sample.dead_server None)
         = (Return (success data), w')
         /\ Py.field data "cached" = Some (PBool false)).
Proof.
  destruct (@cache_failures_absorbed Sample.json)
    as (_ & Hlookup & _ & Hwrite & Hserve).
  split; [|split].
  - eexists. apply (Hlookup _ _ _ (Redis.Fault false (Exception "Connection refused")));
      reflexivity.
  - eexists. apply (Hwrite _ _ _ _ (Exception "Connection refused")); reflexivity.
  - destruct (Hserve Sample.ev Sample.req (World true Sample.dead_server None)
                (Str.strip Sample.text) "medium" Sample.model
                (Str.take 150 (Str.strip Sample.text)))
      as (data & w' & Hrun & _ & Hcached).
    + right. intros n. eexists. reflexivity.
    + vm_compute. reflexivity.
    + vm_compute. reflexivity.
    + right. split; reflexivity.
    + reflexivity.
    + exists data, w'. split; [exact Hrun | exact Hcached].
Defined.

(** ** Failures of the model *)

(** C7: when loading or calling the model raises, [generate_summary] raises
    the same exception and [summarize] answers 500 with the text of the
    exception under ['message']; no exception leaves [summarize], with or
    without the rate limiter around it. *)
Theorem model_failure_is_500 `{Json} :
  (forall ev text length w v w1 model w2 e,
      get_cached_summary text length w = (Return v, w1) ->
      Py.truthy v = false ->
      get_model ev w1 = (Return model, w2) ->
      call model text (fst (length_config length)) (snd (length_config length))
      = Raise e ->
      generate_summary ev text length w = (Raise e, w2))
  /\ (forall ev text length w v w1 w2 e,
         get_cached_summary text length w = (Return v, w1) ->
         Py.truthy v = false ->
         get_model ev w1 = (Raise e, w2) ->
         generate_summary ev text length w = (Raise e, w2))
  /\ (forall ev req w text length e w',
         request_fields req = Some (text, length) ->
         validate_input text length = [] ->
         generate_summary ev text length w = (Raise e, w') ->
         summarize ev req w = (Return (internal_error e), w')
         /\ status (internal_error e) = 500
         /\ Py.field (body (internal_error e)) "message" = Some (PStr (str_exn e)))
  /\ (forall ev req w, exists resp w', summarize ev req w = (Return resp, w'))
  /\ (forall ev req w, exists resp w', api_summarize ev req w = (Return resp, w')).
Proof.
  split; [|split; [|split; [|split]]].
  - intros ev text length w v w1 model w2 e Hget Hv Hmodel Hcall.
    rewrite (generate_summary_miss ev text length w w1 w2 v model Hget Hv Hmodel).
    now rewrite Hcall.
  - intros ev text length w v w1 w2 e. apply generate_summary_load_fails.
  - intros ev req w text length e w' Hreq Hvalid Hgen.
    rewrite (summarize_parsed ev req text length w Hreq), Hvalid, Hgen.
    repeat split.
  - intros ev req w.
    destruct (summarize_total ev req w) as (resp & w' & Hrun & _). eauto.
  - intros ev req w. unfold api_summarize.
    destruct (rate_limit_cases 10 60 (summarize ev) req w)
      as [[w1 Hrun]|(e & n & Hon & Hans & Hlive & Hint & Hn)].
    + rewrite Hrun.
      destruct (summarize_total ev req w1) as (resp & w' & Hsum & _). eauto.
    + rewrite (rate_limit_rejects 10 60 _ req w e n) by assumption. eauto.
Qed.

Lemma model_failure_is_500_witness :
  (exists w',
      @summarize Sample.json Sample.broken_ev Sample.req Sample.start
      = (Return (internal_error (Exception "CUDA out of memory")), w'))
  /\ (exists w',
         @generate_summary Sample.json Sample.unloadable_ev Sample.text "medium"
           Sample.start
         = (Raise (Exception "No space left on device"), w')).
Proof.
  destruct (@model_failure_is_500 Sample.json) as (Hcall & Hload & Hhandler & _).
  split.
  - eexists.
    apply (Hhandler Sample.broken_ev Sample.req Sample.start
             (Str.strip Sample.text) "medium").
    + vm_compute. reflexivity.
    + vm_compute. reflexivity.
    + eapply (Hcall Sample.broken_ev (Str.strip Sample.text) "medium" Sample.start
                PNone _ (Some Sample.broken_model)).
      * apply get_cached_summary_answers; reflexivity.
      * reflexivity.
      * apply get_model_loads; reflexivity.
      * reflexivity.
  - eexists.
    eapply (Hload Sample.unloadable_ev Sample.text "medium" Sample.start PNone).
    + apply get_cached_summary_answers; reflexivity.
    + reflexivity.
    + apply get_model_fails; reflexivity.
Defined.

(** ** The compression ratio *)

(** [div_half_even] gives an integer nearest to the quotient. *)
Lemma div_half_even_nearest (n d : Z) :
  0 < d -> Z.abs (2 * n - 2 * d * Float.div_half_even n d) <= d.
Proof.
  intros Hd. unfold Float.div_half_even.
  pose proof (Z.div_mod n d ltac:(lia)) as Hdiv.
  pose proof (Z.mod_pos_bound n d Hd) as Hmod.
  destruct (Z.compare_spec (2 * (n mod d)) d) as [Heq|Hlt|Hgt];
    [destruct (Z.even (n / d))| |]; nia.
Qed.

(** On a tie [div_half_even] gives the even neighbour. *)
Lemma div_half_even_tie (n d : Z) :
  0 < d -> 2 * (n mod d) = d -> Z.even (Float.div_half_even n d) = true.
Proof.
  intros Hd Htie. unfold Float.div_half_even. rewrite Htie, Z.compare_refl.
  destruct (Z.even (n / d)) eqn:Heven; [exact Heven|].
  rewrite Z.even_add, Heven. reflexivity.
Qed.

(** [round(x, 1)] of a positive float with a fractional part is the float
    nearest to [k / 10], for [k] an integer nearest to [10 * x]. *)
Lemma round_tenths (m : positive) (e : Z) :
  e < 0 ->
  let k := Float.div_half_even (Z.pos m * 10) (2 ^ (- e)) in
  Float.round (S754_finite false m e) 1 = Float.of_ratio false k 10
  /\ Z.abs (2 * (Z.pos m * 10) - 2 * 2 ^ (- e) * k) <= 2 ^ (- e).
Proof.
  intros He k. split.
  - unfold Float.round. destruct (Z.leb_spec 0 e); [lia|]. reflexivity.
  - apply div_half_even_nearest. apply Z.pow_pos_nonneg; lia.
Qed.

(** C9: on a cache miss the compression ratio of the summary is
    [round(len(summary) / len(text) * 100, 1)] over the two character
    counts, next to word counts in the two length fields: a float nearest to
    [k / 10] for an integer [k] nearest to ten times the product.  For 1000
    characters of text and 150 of summary it is 15.0; 333 of 1000 and 100 of
    300 give 33.3, and 1 of 400, the tie 0.25, gives 0.2. *)
Theorem compression_ratio_of_characters `{Json} (ev : env) (text length : string)
    (w w1 w2 : world) (v : pyval) (model : option Model) (s : string) :
  get_cached_summary text length w = (Return v, w1) ->
  Py.truthy v = false ->
  get_model ev w1 = (Return model, w2) ->
  call model text (fst (length_config length)) (snd (length_config length))
  = Return s ->
  text <> "" ->
  exists ratio data w',
    Float.truediv (Z.of_nat (String.length s)) (Z.of_nat (String.length text))
    = Return ratio
    /\ generate_summary ev text length w = (Return data, w')
    /\ Py.field data "compression_ratio"
       = Some (PFloat (Float.round (Float.mul ratio (Float.of_Z 100)) 1))
    /\ Py.field data "original_length"
       = Some (PInt (Z.of_nat (List.length (Str.split text))))
    /\ Py.field data "summary_length"
       = Some (PInt (Z.of_nat (List.length (Str.split s))))
    /\ Py.field data "cached" = Some (PBool false)
    /\ (forall m e,
           Float.mul ratio (Float.of_Z 100) = S754_finite false m e -> e < 0 ->
           exists k,
             Z.abs (2 * (Z.pos m * 10) - 2 * 2 ^ (- e) * k) <= 2 ^ (- e)
             /\ Py.field data "compression_ratio"
                = Some (PFloat (Float.of_ratio false k 10)))
    /\ (String.length text = 1000%nat -> String.length s = 150%nat ->
        Py.field data "compression_ratio"
        = Some (PFloat (S754_finite false 8444249301319680 (-49))))
    /\ (String.length text = 1000%nat -> String.length s = 333%nat ->
        Float.mul ratio (Float.of_Z 100) = S754_finite false 4686558362232423 (-47)
        /\ Py.field data "compression_ratio"
           = Some (PFloat (S754_finite false 4686558362232422 (-47))))
    /\ (String.length text = 300%nat -> String.length s = 100%nat ->
        Py.field data "compression_ratio"
        = Some (PFloat (S754_finite false 4686558362232422 (-47))))
    /\ (String.length text = 400%nat -> String.length s = 1%nat ->
        Float.mul ratio (Float.of_Z 100) = S754_finite false 4503599627370496 (-54)
        /\ Py.field data "compression_ratio"
           = Some (PFloat (S754_finite false 7205759403792794 (-55)))).
Proof.
  intros Hget Hv Hmodel Hcall Htext.
  rewrite (generate_summary_miss ev text length w w1 w2 v model Hget Hv Hmodel).
  rewrite Hcall. unfold Py.len, Float.truediv.
  destruct (Z.eqb_spec (Z.of_nat (String.length text)) 0) as [Hz|_].
  { destruct text; [contradiction|]. simpl in Hz. lia. }
  eexists _, _, _. split; [reflexivity|]. split; [reflexivity|].
  split; [reflexivity|]. split; [reflexivity|]. split; [reflexivity|].
  split; [reflexivity|].
  split.
  { intros m e Hprod He.
    exists (Float.div_half_even (Z.pos m * 10) (2 ^ (- e))).
    destruct (round_tenths m e He) as [Hround Hnear].
    split; [exact Hnear|].
    cbn [Py.field Py.lookup fresh_summary String.eqb Ascii.eqb Bool.eqb].
    now rewrite Hprod, Hround. }
  split; [intros -> ->; vm_compute; reflexivity|].
  split; [intros -> ->; vm_compute; split; reflexivity|].
  split; [intros -> ->; vm_compute; reflexivity|].
  intros -> ->; vm_compute; split; reflexivity.
Qed.

Lemma compression_ratio_of_characters_witness :
  (exists data w',
      @generate_summary Sample.json Sample.ev Sample.text "medium" Sample.start
      = (Return data, w')
      /\ Py.field data "compression_ratio"
         = Some (PFloat (S754_finite false 8444249301319680 (-49))))
  /\ (exists data w',
         @generate_summary Sample.json Sample.long_ev Sample.text "medium"
           Sample.start
         = (Return data, w')
         /\ Py.field data "compression_ratio"
            = Some (PFloat (S754_finite false 4686558362232422 (-47)))
         /\ Py.field data "summary_length" = Some (PInt 56)).
Proof.
  assert (Hget : @get_cached_summary Sample.json Sample.text "medium" Sample.start
                 = (Return PNone, with_redis (Redis.bump Sample.server) Sample.start)).
  { apply get_cached_summary_answers; reflexivity. }
  split.
  - destruct (@compression_ratio_of_characters Sample.json Sample.ev Sample.text
                "medium" Sample.start
                (with_redis (Redis.bump Sample.server) Sample.start)
                (World true (Redis.bump Sample.server) (Some Sample.model))
                PNone (Some Sample.model) (Str.take 150 Sample.text)
                Hget eq_refl eq_refl eq_refl ltac:(discriminate))
      as (ratio & data & w' & _ & Hrun & _ & _ & _ & _ & _ & Hfifteen & _).
    exists data, w'. split; [exact Hrun|].
    exact (Hfifteen ltac:(vm_compute; reflexivity) ltac:(vm_compute; reflexivity)).
  - destruct (@compression_ratio_of_characters Sample.json Sample.long_ev
                Sample.text "medium" Sample.start
                (with_redis (Redis.bump Sample.server) Sample.start)
                (World true (Redis.bump Sample.server) (Some Sample.long_model))
                PNone (Some Sample.long_model) (Str.take 333 Sample.text)
                Hget eq_refl eq_refl eq_refl ltac:(discriminate))
      as (ratio & data & w' & _ & Hrun & _ & _ & Hwords & _ & _ & _ & Hthird & _).
    exists data, w'. split; [exact Hrun|]. split.
    + exact (proj2 (Hthird ltac:(vm_compute; reflexivity)
                      ltac:(vm_compute; reflexivity))).
    + rewrite Hwords. vm_compute. reflexivity.
Defined.

(** ** The health check *)

(** C10: [health_check] answers 200 or 503; a 200 answer reports
    ['model_loaded'] true and leaves the model loaded; when the model was
    not loaded, a 200 answer means that this very check loaded it, and a
    failed load gives 503. *)
Theorem health_200_model_loaded (ev : env) (w : world) :
  exists resp w',
    health_check ev w = (Return resp, w')
    /\ (status resp = 200 \/ status resp = 503)
    /\ (status resp = 200 ->
        Py.field (body resp) "model_loaded" = Some (PBool true)
        /\ exists m, _model w' = Some m)
    /\ (_model w = None -> status resp = 200 ->
        exists m, pipeline ev = Return m /\ _model w' = Some m)
    /\ (_model w = None -> forall e, pipeline ev = Raise e ->
        status resp = 503 /\ _model w' = None).
Proof.
  unfold health_check, try_except, bind, gets, ret.
  destruct (_model w) as [m|] eqn:Hm.
  - rewrite (get_model_loaded ev w m Hm). eexists _, _.
    split; [reflexivity|]. simpl. split; [auto|].
    split; [intros _; split; [reflexivity | eauto]|].
    split; discriminate.
  - destruct (pipeline ev) as [m|e] eqn:Hp.
    + rewrite (get_model_loads ev w m Hm Hp). eexists _, _.
      split; [reflexivity|]. simpl. split; [auto|].
      split; [intros _; split; [reflexivity | eauto]|].
      split; [eauto | discriminate].
    + rewrite (get_model_fails ev w e Hm Hp). eexists _, _.
      split; [reflexivity|]. simpl. split; [auto|].
      split; [discriminate|]. split; [discriminate|]. auto.
Qed.

Lemma health_200_model_loaded_witness :
  (exists resp w',
      health_check Sample.ev Sample.start = (Return resp, w')
      /\ Py.field (body resp) "model_loaded" = Some (PBool true)
      /\ _model w' = Some Sample.model)
  /\ (exists resp w',
         health_check Sample.unloadable_ev Sample.start = (Return resp, w')
         /\ status resp = 503).
Proof.
  split.
  - destruct (health_200_model_loaded Sample.ev Sample.start)
      as (resp & w' & Hrun & _ & Hloaded & Hprobe & _).
    assert (Hstatus : status resp = 200).
    { vm_compute in Hrun. injection Hrun as <- _. reflexivity. }
    exists resp, w'. split; [exact Hrun|].
    split; [apply Hloaded, Hstatus|].
    destruct (Hprobe eq_refl Hstatus) as (m & Hp & Hm).
    injection Hp as <-. exact Hm.
  - destruct (health_200_model_loaded Sample.unloadable_ev Sample.start)
      as (resp & w' & Hrun & _ & _ & _ & Hfails).
    exists resp, w'. split; [exact Hrun|].
    apply (Hfails eq_refl (Exception "No space left on device") eq_refl).
Defined.

(** ** Invariants of the process *)

Section Preserve.

Variable R : world -> world -> Prop.
Hypothesis R_refl : forall w, R w w.
Hypothesis R_trans : forall w1 w2 w3, R w1 w2 -> R w2 w3 -> R w1 w3.

Lemma preserving_ret {A : Type} (a : A) : preserving R (ret a).
Proof. intros w. apply R_refl. Qed.

Lemma preserving_raise {A : Type} (e : exn) : preserving R (@raise A e).
Proof. intros w. apply R_refl. Qed.

Lemma preserving_lift {A : Type} (r : result A) : preserving R (lift r).
Proof. intros w. apply R_refl. Qed.

Lemma preserving_gets {A : Type} (f : world -> A) : preserving R (gets f).
Proof. intros w. apply R_refl. Qed.

Lemma preserving_bind {A B : Type} (m : M A) (k : A -> M B) :
  preserving R m -> (forall a, preserving R (k a)) -> preserving R (bind m k).
Proof.
  intros Hm Hk w. unfold bind. specialize (Hm w).
  destruct (m w) as [[a|e] w1]; simpl in Hm; [|exact Hm].
  eapply R_trans; [exact Hm | apply Hk].
Qed.

Lemma preserving_try {A : Type} (body : M A) (handler : exn -> M A) :
  preserving R body -> (forall e, preserving R (handler e)) ->
  preserving R (try_except body handler).
Proof.
  intros Hb Hh w. unfold try_except. specialize (Hb w).
  destruct (body w) as [[a|e] w1]; simpl in Hb; [exact Hb|].
  eapply R_trans; [exact Hb | apply Hh].
Qed.

Hypothesis R_model : forall ev, preserving R (get_model ev).

Lemma preserving_health_check (ev : env) : preserving R (health_check ev).
Proof.
  unfold health_check.
  apply preserving_try; [|intros; apply preserving_ret].
  apply preserving_bind; [apply R_model|]. intros model.
  apply preserving_bind; [apply preserving_gets | intros; apply preserving_ret].
Qed.

Section Units.

Context `{Json}.

Hypothesis R_lookup :
  forall text length, preserving R (get_cached_summary text length).
Hypothesis R_write :
  forall text length data, preserving R (cache_summary text length data).

Lemma preserving_generate_summary (ev : env) (text length : string) :
  preserving R (generate_summary ev text length).
Proof.
  unfold generate_summary.
  apply preserving_try; [|intros; apply preserving_raise].
  apply preserving_bind; [apply R_lookup|]. intros cached.
  destruct (Py.truthy cached); [apply preserving_lift|].
  apply preserving_bind; [apply R_model|]. intros model.
  apply preserving_bind; [apply preserving_lift|]. intros summary_text.
  apply preserving_bind; [apply preserving_lift|]. intros ratio.
  apply preserving_bind; [apply R_write | intros; apply preserving_ret].
Qed.

Lemma preserving_summarize (ev : env) (req : request) :
  preserving R (summarize ev req).
Proof.
  unfold summarize.
  apply preserving_try; [|intros; apply preserving_ret].
  apply preserving_bind; [apply preserving_lift|]. intros data.
  destruct (negb (Py.truthy data)); [apply preserving_ret|].
  apply preserving_bind; [apply preserving_lift|]. intros text_field.
  apply preserving_bind; [apply preserving_lift|]. intros text.
  apply preserving_bind; [apply preserving_lift|]. intros length_field.
  apply preserving_bind; [apply preserving_lift|]. intros length.
  destruct (validate_input text length); [|apply preserving_ret].
  apply preserving_bind;
    [apply preserving_generate_summary | intros; apply preserving_ret].
Qed.

Hypothesis R_limit :
  forall ev req, preserving R (api_summarize ev req).
Hypothesis R_stats : forall dg, preserving R (get_stats dg).
Hypothesis R_wait :
  forall ms w,
    R w (World (REDIS_AVAILABLE w) (Redis.tick ms (redis_client w)) (_model w)).

Lemma preserving_handle (e : event) (w : world) : R w (snd (handle e w)).
Proof.
  destruct e as [ev req|ev|dg|ms]; simpl.
  - pose proof (R_limit ev req w) as Hr.
    now destruct (api_summarize ev req w).
  - pose proof (preserving_health_check ev w) as Hr.
    now destruct (health_check ev w).
  - pose proof (R_stats dg w) as Hr. now destruct (get_stats dg w).
  - apply R_wait.
Qed.

Lemma preserving_run (es : list event) : forall w, R w (run es w).
Proof.
  induction es as [|e es IH]; intros w; simpl; [apply R_refl|].
  eapply R_trans; [apply preserving_handle | apply IH].
Qed.

End Units.

Section Ops.

Context `{Json}.

Hypothesis R_redis :
  forall (A : Type) (op : Redis.server -> result A * Redis.server),
    preserving R (redis op).

Lemma preserving_get_cached_summary (text length : string) :
  preserving R (get_cached_summary text length).
Proof.
  unfold get_cached_summary.
  apply preserving_bind; [apply preserving_gets|]. intros available.
  destruct (negb available); [apply preserving_ret|].
  apply preserving_bind.
  - apply preserving_try; [|intros; apply preserving_ret].
    apply preserving_bind; [apply R_redis|]. intros [s|]; [|apply preserving_ret].
    destruct (Str.truthy s); [|apply preserving_ret].
    apply preserving_bind; [apply preserving_lift | intros; apply preserving_ret].
  - intros [v|]; apply preserving_ret.
Qed.

Lemma preserving_cache_summary (text length : string) (data : pyval) :
  preserving R (cache_summary text length data).
Proof.
  unfold cache_summary.
  apply preserving_bind; [apply preserving_gets|]. intros available.
  destruct (negb available); [apply preserving_ret|].
  apply preserving_try; [apply R_redis | intros; apply preserving_ret].
Qed.

Lemma preserving_rate_limit (mx window : Z) (f : request -> M response)
    (req : request) :
  (forall req', preserving R (f req')) ->
  preserving R (rate_limit mx window f req).
Proof.
  intros Hf. unfold rate_limit.
  apply preserving_bind; [apply preserving_gets|]. intros available.
  destruct (negb available); [apply Hf|].
  apply preserving_bind.
  - apply preserving_try; [|intros; apply preserving_ret].
    apply preserving_bind; [apply R_redis|]. intros current.
    apply preserving_bind.
    + destruct current as [s|]; [|apply preserving_ret].
      destruct (Str.truthy s); [|apply preserving_ret].
      apply preserving_bind; [apply preserving_lift | intros; apply preserving_ret].
    + intros [|]; [apply preserving_ret|].
      apply preserving_bind; [apply R_redis | intros; apply preserving_ret].
  - intros [r|]; [apply preserving_ret | apply Hf].
Qed.

Lemma preserving_api_summarize (ev : env) (req : request) :
  preserving R (api_summarize ev req).
Proof.
  unfold api_summarize. apply preserving_rate_limit. intros req'.
  apply preserving_summarize;
    [apply preserving_get_cached_summary | apply preserving_cache_summary].
Qed.

Lemma preserving_get_stats (dg : diagnostics) : preserving R (get_stats dg).
Proof.
  unfold get_stats.
  apply preserving_bind; [apply preserving_gets|]. intros available.
  destruct (negb available); [apply preserving_ret|].
  apply preserving_try; [|intros; apply preserving_ret].
  apply preserving_bind; [apply R_redis|]. intros info.
  apply preserving_bind; [apply R_redis | intros; apply preserving_ret].
Qed.

End Ops.

End Preserve.

Lemma same_flag_redis (A : Type) (op : Redis.server -> result A * Redis.server) :
  preserving same_flag (redis op).
Proof.
  intros w. unfold same_flag, redis. now destruct (op (redis_client w)).
Qed.

Lemma same_flag_model (ev : env) : preserving same_flag (get_model ev).
Proof.
  intros w. unfold same_flag, get_model, bind, gets, lift, set_model, ret.
  destruct (_model w); [reflexivity|]. now destruct (pipeline ev).
Qed.

Lemma same_flag_trans (w1 w2 w3 : world) :
  same_flag w1 w2 -> same_flag w2 w3 -> same_flag w1 w3.
Proof. unfold same_flag. congruence. Qed.

Lemma same_flag_run `{Json} (es : list event) (w : world) :
  REDIS_AVAILABLE (run es w) = REDIS_AVAILABLE w.
Proof.
  apply (preserving_run same_flag);
    [reflexivity | exact same_flag_trans | exact same_flag_model | |
    | reflexivity].
  - apply (preserving_api_summarize same_flag);
      [reflexivity | exact same_flag_trans | exact same_flag_model
      | exact same_flag_redis].
  - apply (preserving_get_stats same_flag);
      [reflexivity | exact same_flag_trans | exact same_flag_redis].
Qed.

Lemma startup_flag (r : Redis.server) :
  REDIS_AVAILABLE (startup r) = true <-> answers r.
Proof.
  unfold startup, Admin.ping, Redis.round_trip, answers.
  destruct (Redis.outage r (Redis.trips r)) as [flt|]; simpl;
    [destruct (Redis.applied flt)|]; simpl; split; congruence.
Qed.

(** X1: [REDIS_AVAILABLE] is decided once, by the ping at start-up, and no
    request changes it; the ['redis'] field of a health answer repeats it,
    whatever the store does at the time of the check. *)
Theorem flag_fixed_at_startup `{Json} (r : Redis.server) (es : list event)
    (ev : env) (resp : response) (w' : world) :
  health_check ev (run es (startup r)) = (Return resp, w') ->
  status resp = 200 ->
  (REDIS_AVAILABLE (run es (startup r)) = true <-> answers r)
  /\ (answers r -> Py.field (body resp) "redis" = Some (PStr "connected"))
  /\ (~ answers r -> Py.field (body resp) "redis" = Some (PStr "disconnected")).
Proof.
  intros Hrun Hstatus.
  pose proof (same_flag_run es (startup r)) as Hflag.
  pose proof (startup_flag r) as Hstart.
  split; [rewrite Hflag; exact Hstart|].
  unfold health_check, try_except, bind, gets, ret in Hrun.
  destruct (get_model ev (run es (startup r))) as [[model|e] w1] eqn:Hmodel.
  - pose proof (same_flag_model ev (run es (startup r))) as Hm.
    rewrite Hmodel in Hm. unfold same_flag in Hm. simpl in Hm.
    injection Hrun as <- _. simpl. rewrite Hm, Hflag.
    split; intros Hans.
    + now rewrite (proj2 Hstart Hans).
    + destruct (REDIS_AVAILABLE (startup r)); [|reflexivity].
      exfalso. apply Hans, Hstart. reflexivity.
  - injection Hrun as <- _. discriminate.
Qed.

Lemma flag_fixed_at_startup_witness :
  let es := [Summarize Sample.ev Sample.req; Wait 1000; Health Sample.ev] in
  (exists resp w',
      health_check Sample.ev (@run Sample.json es (startup Sample.dead_server))
      = (Return resp, w')
      /\ Py.field (body resp) "redis" = Some (PStr "disconnected"))
  /\ (exists resp w',
         health_check Sample.ev (@run Sample.json es (startup Sample.server))
         = (Return resp, w')
         /\ Py.field (body resp) "redis" = Some (PStr "connected")).
Proof.
  intros es. split.
  - destruct (health_check Sample.ev (@run Sample.json es (startup Sample.dead_server)))
      as [[resp|e] w'] eqn:Hrun; [|vm_compute in Hrun; discriminate].
    exists resp, w'. split; [reflexivity|].
    apply (@flag_fixed_at_startup Sample.json Sample.dead_server es Sample.ev
             resp w' Hrun).
    + vm_compute in Hrun. now injection Hrun as <- _.
    + unfold answers. discriminate.
  - destruct (health_check Sample.ev (@run Sample.json es (startup Sample.server)))
      as [[resp|e] w'] eqn:Hrun; [|vm_compute in Hrun; discriminate].
    exists resp, w'. split; [reflexivity|].
    apply (@flag_fixed_at_startup Sample.json Sample.server es Sample.ev
             resp w' Hrun).
    + vm_compute in Hrun. now injection Hrun as <- _.
    + reflexivity.
Defined.

Lemma model_kept_redis (A : Type) (op : Redis.server -> result A * Redis.server) :
  preserving model_kept (redis op).
Proof.
  intros w m. unfold redis. now destruct (op (redis_client w)).
Qed.

Lemma model_kept_model (ev : env) : preserving model_kept (get_model ev).
Proof.
  intros w m Hm. now rewrite (get_model_loaded ev w m Hm).
Qed.

Lemma model_kept_trans (w1 w2 w3 : world) :
  model_kept w1 w2 -> model_kept w2 w3 -> model_kept w1 w3.
Proof. unfold model_kept. auto. Qed.

Lemma store_idle_refl (w : world) : store_idle w w.
Proof. unfold store_idle. auto. Qed.

Lemma store_idle_trans (w1 w2 w3 : world) :
  store_idle w1 w2 -> store_idle w2 w3 -> store_idle w1 w3.
Proof.
  unfold store_idle. intros H12 H23 Hoff.
  destruct (H12 Hoff) as (Hoff2 & Hd & Ht & Ho).
  destruct (H23 Hoff2) as (Hoff3 & Hd' & Ht' & Ho').
  repeat split; congruence.
Qed.

Lemma store_idle_model (ev : env) : preserving store_idle (get_model ev).
Proof.
  intros w Hoff. unfold get_model, bind, gets, lift, set_model, ret.
  destruct (_model w); [auto|]. destruct (pipeline ev); simpl; auto.
Qed.

Lemma store_idle_api_summarize `{Json} (ev : env) (req : request) :
  preserving store_idle (api_summarize ev req).
Proof.
  intros w Hoff. unfold api_summarize.
  rewrite (rate_limit_unavailable 10 60 _ req w Hoff).
  apply (preserving_summarize store_idle);
    [exact store_idle_refl | exact store_idle_trans | exact store_idle_model
    | | | exact Hoff].
  - intros text length w0 Hoff0.
    rewrite (get_cached_summary_unavailable text length w0 Hoff0). simpl. auto.
  - intros text length data w0 Hoff0.
    rewrite (cache_summary_unavailable text length data w0 Hoff0). simpl. auto.
Qed.

Lemma store_idle_get_stats (dg : diagnostics) : preserving store_idle (get_stats dg).
Proof.
  intros w Hoff. unfold get_stats, bind, gets, ret. rewrite Hoff. simpl. auto.
Qed.

(** X3: a process whose start-up ping failed never contacts the store
    again: through every later request its flag stays off, the client makes
    no further round trip and the keys of the server stay as they were;
    requests are then never answered 429 and statistics are answered 503. *)
Theorem degraded_never_contacts_store `{Json} (r : Redis.server) (es : list event) :
  ~ answers r ->
  let w := run es (startup r) in
  REDIS_AVAILABLE w = false
  /\ Redis.db (redis_client w) = Redis.db (redis_client (startup r))
  /\ Redis.trips (redis_client w) = S (Redis.trips r)
  /\ (forall ev req,
        exists resp w',
          api_summarize ev req w = (Return resp, w') /\ status resp <> 429)
  /\ (forall dg,
        get_stats dg w
        = (Return (Response (PDict [("error", PStr "Redis not available")]) 503),
           w)).
Proof.
  intros Hdown w.
  assert (Hoff : REDIS_AVAILABLE (startup r) = false).
  { destruct (REDIS_AVAILABLE (startup r)) eqn:Hflag; [|reflexivity].
    exfalso. apply Hdown, startup_flag, Hflag. }
  assert (Hidle : store_idle (startup r) w).
  { apply (preserving_run store_idle);
      [exact store_idle_refl | exact store_idle_trans | exact store_idle_model
      | exact store_idle_api_summarize | exact store_idle_get_stats|].
    intros ms w0 Hoff0. simpl. auto. }
  destruct (Hidle Hoff) as (Hoffw & Hdb & Htrips & _).
  split; [exact Hoffw|]. split; [exact Hdb|]. split.
  - rewrite Htrips. unfold startup, Admin.ping, Redis.round_trip.
    destruct (Redis.outage r (Redis.trips r)) as [flt|]; [|reflexivity].
    now destruct (Redis.applied flt).
  - split.
    + intros ev req. unfold api_summarize.
      rewrite (rate_limit_unavailable 10 60 _ req w Hoffw).
      destruct (summarize_total ev req w) as (resp & w' & Hrun & Hstatus).
      exists resp, w'. split; [exact Hrun|]. lia.
    + intros dg. unfold get_stats, bind, gets, ret. now rewrite Hoffw.
Qed.

Lemma degraded_never_contacts_store_witness :
  let w := @run Sample.json
             [Summarize Sample.ev Sample.req; Wait 1000;
              Stats (Diagnostics [] 0); Summarize Sample.ev Sample.req]
             (startup Sample.dead_server) in
  REDIS_AVAILABLE w = false /\ Redis.trips (redis_client w) = 1%nat.
Proof.
  intros w.
  destruct (@degraded_never_contacts_store Sample.json Sample.dead_server
              [Summarize Sample.ev Sample.req; Wait 1000;
               Stats (Diagnostics [] 0); Summarize Sample.ev Sample.req])
    as (Hoff & _ & Htrips & _); [unfold answers; discriminate|].
  split; [exact Hoff | exact Htrips].
Defined.

(** ** The statistics endpoint *)

(** X4: [get_stats] answers 503 without a round trip when caching is
    disabled; 200 with the key count and the two INFO fields, or their
    defaults ['N/A'] and 0, when both round trips answer; 500 with the text
    of the exception when either round trip fails.  It never changes a key. *)
Theorem get_stats_status (dg : diagnostics) (w : world) :
  (REDIS_AVAILABLE w = false ->
   get_stats dg w
   = (Return (Response (PDict [("error", PStr "Redis not available")]) 503), w))
  /\ (REDIS_AVAILABLE w = true ->
      answers (redis_client w) -> answers (Redis.bump (redis_client w)) ->
      get_stats dg w
      = (Return
           (Response
              (PDict [("cache_keys", PInt (server_keys dg));
                      ("memory_used",
                        match Py.lookup (server_info dg) "used_memory_human" with
                        | Some v => v
                        | None => PStr "N/A"
                        end);
                      ("connected_clients",
                        match Py.lookup (server_info dg) "connected_clients" with
                        | Some v => v
                        | None => PInt 0
                        end)])
              200),
         with_redis (Redis.bump (Redis.bump (redis_client w))) w))
  /\ (REDIS_AVAILABLE w = true ->
      forall flt,
        Redis.outage (redis_client w) (Redis.trips (redis_client w)) = Some flt
        \/ (answers (redis_client w)
            /\ Redis.outage (redis_client w) (S (Redis.trips (redis_client w)))
               = Some flt) ->
        exists w',
          get_stats dg w
          = (Return (Response (PDict [("error",
                                        PStr (str_exn (Redis.error flt)))])
                              500),
             w'))
  /\ Redis.db (redis_client (snd (get_stats dg w))) = Redis.db (redis_client w).
Proof.
  unfold get_stats, bind, gets, try_except, redis, ret, Admin.info, Admin.dbsize,
    Redis.round_trip, answers.
  destruct (REDIS_AVAILABLE w) eqn:Hon; cbn [negb].
  - split; [discriminate|]. split; [|split].
    + intros _ Hans1 Hans2. rewrite Hans1. cbn. cbn in Hans2.
      rewrite Hans2. reflexivity.
    + intros _ flt [Hout|[Hans Hout]].
      * rewrite Hout. destruct (Redis.applied flt); eexists; reflexivity.
      * rewrite Hans. cbn. rewrite Hout.
        destruct (Redis.applied flt); eexists; reflexivity.
    + destruct (Redis.outage (redis_client w) (Redis.trips (redis_client w)))
        as [flt|]; [now destruct (Redis.applied flt)|].
      cbn.
      destruct (Redis.outage (redis_client w) (S (Redis.trips (redis_client w))))
        as [flt|]; [now destruct (Redis.applied flt)|reflexivity].
  - split; [reflexivity|]. split; [discriminate|]. split; [discriminate|].
    reflexivity.
Qed.

Lemma get_stats_status_witness :
  (exists w',
      get_stats (Diagnostics [("connected_clients", PInt 3)] 7) Sample.start
      = (Return
           (Response
              (PDict [("cache_keys", PInt 7); ("memory_used", PStr "N/A");
                      ("connected_clients", PInt 3)])
              200), w'))
  /\ (exists w',
         get_stats (Diagnostics [] 0) (World true Sample.dead_server None)
         = (Return (Response (PDict [("error", PStr "Connection refused")]) 500),
            w'))
  /\ (exists w',
         get_stats (Diagnostics [] 0) (World false Sample.dead_server None)
         = (Return (Response (PDict [("error", PStr "Redis not available")]) 503),
            w')).
Proof.
  split; [|split].
  - eexists.
    apply (get_stats_status (Diagnostics [("connected_clients", PInt 3)] 7)
             Sample.start); reflexivity.
  - destruct (get_stats_status (Diagnostics [] 0)
                (World true Sample.dead_server None)) as (_ & _ & Hfail & _).
    apply (Hfail eq_refl (Redis.Fault false (Exception "Connection refused"))).
    left. reflexivity.
  - eexists.
    apply (get_stats_status (Diagnostics [] 0)
             (World false Sample.dead_server None)). reflexivity.
Defined.

(** ** More on the rate limiter *)

(** What the increment and the expiry leave on the server. *)
Lemma pipeline_entry (key : string) (window : Z) (r : Redis.server) :
  0 < window ->
  let r' := snd (Redis.run_all [Redis.INCR key; Redis.EXPIRE key window] r) in
  (forall key', key' <> key -> Redis.db r' !! key' = Redis.db r !! key')
  /\ Redis.clock r' = Redis.clock r
  /\ Redis.db r' !! key
     = Some (Redis.Entry
               match Redis.live key r with
               | None => "1"
               | Some e =>
                   match Redis.to_int64 (Redis.value e) with
                   | Some n =>
                       if n =? 2 ^ 63 - 1 then Redis.value e else Str.of_Z (n + 1)
                   | None => Redis.value e
                   end
               end
               (Some (Redis.clock r + 1000 * window))).
Proof.
  intros Hw. cbn [Redis.run_all Redis.run].
  destruct (Z.leb_spec window 0) as [|_]; [lia|].
  destruct (Redis.live key r) as [e|] eqn:Hlive.
  - destruct (live_lookup _ _ _ Hlive) as [Hdb Hexp].
    destruct (Redis.to_int64 (Redis.value e)) as [n|].
    + destruct (n =? 2 ^ 63 - 1).
      * rewrite Hlive. cbn. split; [|split; [reflexivity|]].
        -- intros key' Hne. now apply lookup_insert_ne.
        -- apply lookup_insert_eq.
      * rewrite live_with_db, lookup_insert_eq.
        change (Redis.expired (Redis.clock r)
                  (Redis.Entry (Str.of_Z (n + 1)) (Redis.deadline e)))
          with (Redis.expired (Redis.clock r) e).
        rewrite Hexp. cbn. split; [|split; [reflexivity|]].
        -- intros key' Hne. rewrite !lookup_insert_ne by auto. reflexivity.
        -- apply lookup_insert_eq.
    + rewrite Hlive. cbn. split; [|split; [reflexivity|]].
      * intros key' Hne. now apply lookup_insert_ne.
      * apply lookup_insert_eq.
  - rewrite live_with_db, lookup_insert_eq. cbn. split; [|split; [reflexivity|]].
    + intros key' Hne. rewrite !lookup_insert_ne by auto. reflexivity.
    + apply lookup_insert_eq.
Qed.

(** The server after [pipe.execute()]: the commands were run or they were
    not. *)
Lemma execute_server (cs : list Redis.command) (r : Redis.server) :
  snd (Redis.execute cs r) = Redis.bump r
  \/ snd (Redis.execute cs r) = snd (Redis.run_all cs (Redis.bump r)).
Proof.
  unfold Redis.execute, Redis.checked, Redis.round_trip.
  destruct (Redis.outage r (Redis.trips r)) as [[[] e]|]; simpl; auto.
  destruct (Redis.run_all cs (Redis.bump r)) as [xs r1]. simpl.
  destruct (Redis.first_error xs); auto.
Qed.

(** The three ways through the limiter when it is in force: the read or
    the parse fails and the handler runs; the count is at the limit and the
    request is rejected; the count is below and the pipeline is sent before
    the handler runs. *)
Lemma rate_limit_shape (mx window : Z) (f : request -> M response)
    (req : request) (w : world) :
  REDIS_AVAILABLE w = true ->
  rate_limit mx window f req w
  = f req (with_redis (Redis.bump (redis_client w)) w)
  \/ (rate_limit mx window f req w
      = (Return (rate_limited mx window),
         with_redis (Redis.bump (redis_client w)) w)
      /\ exists e n,
           Redis.live (rate_key req) (redis_client w) = Some e
           /\ Py.int (Redis.value e) = Return n /\ mx <= n)
  \/ (rate_limit mx window f req w
      = f req (with_redis
                 (snd (Redis.execute (rate_pipe window req)
                         (Redis.bump (redis_client w))))
                 w)
      /\ forall e n,
           Redis.live (rate_key req) (redis_client w) = Some e ->
           Redis.to_int64 (Redis.value e) = Some n -> n < mx).
Proof.
  intros Hon.
  unfold rate_limit, bind, gets, try_except, redis, lift, ret.
  rewrite Hon. cbn [negb]. fold (rate_key req). fold (rate_pipe window req).
  destruct (Redis.outage (redis_client w) (Redis.trips (redis_client w)))
    as [flt|] eqn:Hout.
  { rewrite (get_fault _ _ _ Hout). left. reflexivity. }
  rewrite (get_answers _ _ Hout).
  destruct (Redis.live (rate_key req) (redis_client w)) as [e|] eqn:Hlive;
    cbn [option_map].
  - destruct (Str.truthy (Redis.value e)) eqn:Hs.
    + destruct (Py.int (Redis.value e)) as [n|ex] eqn:Hint.
      * destruct (Z.leb_spec mx n) as [Hle|Hlt].
        -- right. left. split; [reflexivity|]. exists e, n. auto.
        -- right. right. cbn.
           destruct (Redis.execute _ _) as [[xs|ex] r1]; simpl;
             (split; [reflexivity|]); intros e' n' [= <-] Hn';
             destruct (to_int64_int _ _ Hn') as [_ Hint'];
             rewrite Hint in Hint'; injection Hint' as <-; exact Hlt.
      * left. reflexivity.
    + right. right. cbn.
      destruct (Redis.execute _ _) as [[xs|ex] r1]; simpl;
        (split; [reflexivity|]); intros e' n' [= <-] Hn';
        destruct (to_int64_int _ _ Hn') as [_ Hint'];
        apply int_nonempty in Hint'; congruence.
  - right. right. cbn.
    destruct (Redis.execute _ _) as [[xs|ex] r1]; simpl;
      (split; [reflexivity|]); intros e' n'; discriminate.
Qed.

Lemma counter_key_inj (ip ip' : string) :
  "rate_limit:" +:+ ip = "rate_limit:" +:+ ip' -> ip = ip'.
Proof. rewrite !append_cons, !append_nil_l. now intros [= ->]. Qed.

(** The world in which the handler starts, or with which the request is
    rejected: every counter but the client's own is as before. *)
Lemma rate_limit_others (mx window : Z) (f : request -> M response)
    (req : request) (w : world) :
  0 < window ->
  exists w1,
    (rate_limit mx window f req w = f req w1
     \/ rate_limit mx window f req w = (Return (rate_limited mx window), w1))
    /\ forall ip, ip <> remote_addr req -> counter ip w1 = counter ip w.
Proof.
  intros Hwin. destruct (REDIS_AVAILABLE w) eqn:Hon.
  - destruct (rate_limit_shape mx window f req w Hon)
      as [Hrun|[[Hrun _]|[Hrun _]]]; rewrite Hrun; eexists;
      (split; [auto|]); intros ip Hip; unfold counter; simpl; auto.
    destruct (execute_server (rate_pipe window req) (Redis.bump (redis_client w)))
      as [Hs|Hs]; rewrite Hs; [reflexivity|].
    destruct (pipeline_entry (rate_key req) window
                (Redis.bump (Redis.bump (redis_client w))) Hwin)
      as (Hother & _).
    apply Hother. intros Heq. apply Hip. now apply counter_key_inj in Heq.
  - exists w. split; [left; now apply rate_limit_unavailable | auto].
Qed.

Lemma limiter_counts_apart `{Json} (ev : env) (req : request) (w : world)
    (ip : string) :
  ip <> remote_addr req ->
  counter ip (snd (api_summarize ev req w)) = counter ip w.
Proof.
  intros Hip. unfold api_summarize.
  destruct (rate_limit_others 10 60 (summarize ev) req w ltac:(lia))
    as (w1 & [Hrun|Hrun] & Hothers); rewrite Hrun.
  - pose proof (keeping_summarize ev req w1) as (_ & _ & _ & _ & Hk).
    rewrite Hk. now apply Hothers.
  - simpl. now apply Hothers.
Qed.

Lemma get_stats_db (dg : diagnostics) (w : world) :
  Redis.db (redis_client (snd (get_stats dg w))) = Redis.db (redis_client w).
Proof.
  unfold get_stats, bind, gets, try_except, redis, ret, Admin.info, Admin.dbsize,
    Redis.round_trip.
  destruct (REDIS_AVAILABLE w); cbn [negb]; [|reflexivity].
  destruct (Redis.outage (redis_client w) (Redis.trips (redis_client w)))
    as [flt|]; [now destruct (Redis.applied flt)|].
  cbn.
  destruct (Redis.outage (redis_client w) (S (Redis.trips (redis_client w))))
    as [flt|]; [now destruct (Redis.applied flt)|reflexivity].
Qed.

(** X5: the limiter keeps its clients apart: a request changes the rate
    counter of no other client, whatever the store and the handler do. *)
Theorem limiter_isolates_clients `{Json} (ev : env) (req : request) (w : world)
    (ip : string) :
  ip <> remote_addr req ->
  counter ip (snd (api_summarize ev req w)) = counter ip w.
Proof.
  exact (limiter_counts_apart ev req w ip).
Qed.

Lemma limiter_isolates_clients_witness :
  counter "10.0.0.1"
    (snd (@api_summarize Sample.json Sample.ev
            (Request "10.0.0.2" (get_json Sample.req)) Sample.busy))
  = counter "10.0.0.1" Sample.busy.
Proof.
  apply (@limiter_isolates_clients Sample.json Sample.ev
           (Request "10.0.0.2" (get_json Sample.req)) Sample.busy "10.0.0.1").
  discriminate.
Defined.

Lemma to_int64_range (s : string) (n : Z) :
  Redis.to_int64 s = Some n -> - 2 ^ 63 <= n < 2 ^ 63.
Proof.
  unfold Redis.to_int64.
  destruct (NilZero.int_of_string s) as [i|]; [|discriminate].
  destruct (String.eqb (Str.of_Z (Z.of_int i)) s && (- 2 ^ 63 <=? Z.of_int i)
            && (Z.of_int i <? 2 ^ 63)) eqn:Hok; [|discriminate].
  intros [= <-].
  apply andb_true_iff in Hok as [Hok Hhi]. apply andb_true_iff in Hok as [_ Hlo].
  lia.
Qed.

Lemma live_none_later (key : string) (r : Redis.server) (ms : Z) :
  0 <= ms -> Redis.live key r = None -> Redis.live key (Redis.tick ms r) = None.
Proof.
  unfold Redis.live, Redis.expired. simpl. intros Hms.
  destruct (Redis.db r !! key) as [e|]; [|reflexivity].
  destruct (Redis.deadline e) as [t|]; [|discriminate].
  destruct (Z.ltb_spec t (Redis.clock r)); [|discriminate].
  destruct (Z.ltb_spec t (Redis.clock r + ms)); [reflexivity|lia].
Qed.

Section Window.

Context `{Json}.

(** A request that finds a count below the limit. *)
Lemma allowed_step (ev : env) (req : request) (w : world) (n : Z)
    (r : result response) (w' : world) :
  ready n req w -> n < 10 ->
  api_summarize ev req w = (r, w') ->
  is_served r = true
  /\ REDIS_AVAILABLE w' = true /\ up (redis_client w')
  /\ Redis.clock (redis_client w') = Redis.clock (redis_client w)
  /\ counter (remote_addr req) w'
     = Some (Redis.Entry (Str.of_Z (n + 1))
               (Some (Redis.clock (redis_client w) + 60000))).
Proof.
  intros (Hon & Hup & Hcount) Hn Hrun.
  destruct (up_answers _ Hup) as [Hans1 Hans2].
  unfold api_summarize in Hrun.
  rewrite (rate_limit_passes 10 60 _ req w n) in Hrun by (auto; lia).
  destruct (summarize_total ev req (counted 60 n req w))
    as (resp & w1 & Hsum & Hstatus).
  pose proof (keeping_summarize ev req (counted 60 n req w)) as Hkeep.
  rewrite Hsum in Hrun, Hkeep. injection Hrun as <- <-. simpl in Hkeep.
  destruct Hkeep as (Ha & Hc & Ho & Ht & Hk).
  split; [simpl; destruct Hstatus as [-> | [-> | ->]]; reflexivity|].
  split; [now rewrite Ha|].
  split; [intros k Hk'; rewrite Ho; simpl; apply Hup; simpl in Ht; lia|].
  split; [exact Hc|].
  rewrite Hk. unfold counter, counted. simpl. apply lookup_insert_eq.
Qed.

(** One request of the log: it is served and joins the running window, or
    it is served and opens a new window more than 60 seconds after every
    request of the last one, or it is rejected. *)
Lemma window_step (ev : env) (req : request) (cur : list Z) (w : world) (gap : Z)
    (r : result response) (w1 : world) :
  window_state req cur w -> 0 <= gap ->
  api_summarize ev req (later gap w) = (r, w1) ->
  let t := Redis.clock (redis_client w) + gap in
  Redis.clock (redis_client w1) = t
  /\ ((is_served r = true /\ window_state req (cur ++ [t]) w1)
      \/ (is_served r = true /\ window_state req [t] w1
          /\ Forall (fun x => x + 60000 < t) cur)
      \/ (is_served r = false /\ window_state req cur w1)).
Proof.
  intros (Hon & Hup & Hlen & Hcur) Hgap Hrun t.
  assert (Hup0 : up (redis_client (later gap w))) by exact Hup.
  destruct Hcur as [[-> Hlive] | (latest & Hne & Hmax & Hnow & Hentry)].
  - (* no counter: the request opens a window *)
    assert (Hready : ready 0 req (later gap w)).
    { split; [exact Hon|]. split; [exact Hup0|]. unfold count, later. simpl.
      now rewrite (live_none_later _ _ _ Hgap Hlive). }
    destruct (allowed_step ev req _ 0 r w1 Hready ltac:(lia) Hrun)
      as (Hserved & Hon1 & Hup1 & Hclock & Hcounter).
    split; [exact Hclock|]. left. split; [exact Hserved|].
    split; [exact Hon1|]. split; [exact Hup1|]. split; [simpl; lia|].
    right. exists t. split; [discriminate|]. split; [repeat constructor; lia|].
    split; [rewrite Hclock; simpl; lia|]. exact Hcounter.
  - destruct (Z.ltb_spec (latest + 60000) t) as [Hexpired|Hlive].
    + (* the counter has expired: the request opens a window *)
      assert (Hready : ready 0 req (later gap w)).
      { split; [exact Hon|]. split; [exact Hup0|].
        unfold count, Redis.live, later, rate_key. simpl.
        unfold counter in Hentry. rewrite Hentry. unfold Redis.expired. simpl.
        fold t. destruct (Z.ltb_spec (latest + 60000) t); [reflexivity|lia]. }
      destruct (allowed_step ev req _ 0 r w1 Hready ltac:(lia) Hrun)
        as (Hserved & Hon1 & Hup1 & Hclock & Hcounter).
      split; [exact Hclock|]. right. left. split; [exact Hserved|]. split.
      * split; [exact Hon1|]. split; [exact Hup1|]. split; [simpl; lia|].
        right. exists t. split; [discriminate|].
        split; [repeat constructor; lia|].
        split; [rewrite Hclock; simpl; lia|]. exact Hcounter.
      * eapply Forall_impl; [exact Hmax|]. simpl. intros x Hx. lia.
    + (* the counter is live *)
      assert (Hready : ready (Z.of_nat (List.length cur)) req (later gap w)).
      { split; [exact Hon|]. split; [exact Hup0|].
        unfold count, Redis.live, later, rate_key. simpl.
        unfold counter in Hentry. rewrite Hentry. unfold Redis.expired. simpl.
        fold t. destruct (Z.ltb_spec (latest + 60000) t); [lia|].
        simpl. apply to_int64_of_Z. lia. }
      destruct (Z.ltb_spec (Z.of_nat (List.length cur)) 10) as [Hbelow|Hfull].
      * destruct (allowed_step ev req _ _ r w1 Hready Hbelow Hrun)
          as (Hserved & Hon1 & Hup1 & Hclock & Hcounter).
        split; [exact Hclock|]. left. split; [exact Hserved|].
        split; [exact Hon1|]. split; [exact Hup1|].
        split; [rewrite length_app; simpl; lia|].
        right. exists t. split; [now destruct cur|]. split.
        { apply Forall_app. split; [|repeat constructor; lia].
          eapply Forall_impl; [exact Hmax|]. simpl. intros x Hx. lia. }
        split; [rewrite Hclock; simpl; lia|].
        rewrite Hcounter, length_app. simpl.
        replace (Z.of_nat (List.length cur + 1)) with (Z.of_nat (List.length cur) + 1)
          by lia.
        reflexivity.
      * rewrite (ready_rejected ev req _ _ Hready Hfull) in Hrun.
        injection Hrun as <- <-. split; [reflexivity|]. right. right.
        split; [reflexivity|]. split; [exact Hon|].
        split; [intros k Hk; apply Hup; simpl in Hk; lia|].
        split; [exact Hlen|]. right. exists latest.
        split; [exact Hne|]. split; [exact Hmax|].
        split; [simpl; lia|]. exact Hentry.
Qed.

End Window.

Lemma spaced_app_far (l1 l2 : list Z) :
  (List.length l1 <= 10)%nat ->
  Forall (fun x => Forall (fun y => x + 60000 < y) l2) l1 ->
  spaced l2 -> spaced (l1 ++ l2).
Proof.
  intros Hlen Hfar Hl2 i t1 t2 H1 H2.
  rewrite lookup_app_r in H2 by lia.
  destruct (le_lt_dec (List.length l1) i) as [Hi|Hi].
  - rewrite lookup_app_r in H1 by lia.
    apply (Hl2 (i - List.length l1)%nat); [exact H1|].
    replace (i - List.length l1 + 10)%nat with (i + 10 - List.length l1)%nat by lia.
    exact H2.
  - rewrite lookup_app_l in H1 by lia.
    pose proof (proj1 (Forall_lookup _ _) Hfar i t1 H1) as Hy.
    pose proof (proj1 (Forall_lookup _ _) Hy _ t2 H2) as Hgap.
    simpl in Hgap. lia.
Qed.

Lemma spaced_short (l : list Z) : (List.length l <= 10)%nat -> spaced l.
Proof.
  intros Hlen i t1 t2 _ H2. apply lookup_lt_Some in H2. lia.
Qed.

Section Spaced.

Context `{Json}.

Lemma window_log (ev : env) (req : request) (gaps : list Z) :
  forall cur w,
    window_state req cur w -> Forall (fun gap => 0 <= gap) gaps ->
    Forall (fun t => Redis.clock (redis_client w) <= t)
      (served_times (serve (api_summarize ev) req gaps w))
    /\ spaced (cur ++ served_times (serve (api_summarize ev) req gaps w)).
Proof.
  induction gaps as [|gap gaps IH]; intros cur w Hstate Hgaps.
  - simpl. split; [constructor|]. rewrite app_nil_r.
    apply spaced_short. apply Hstate.
  - inversion Hgaps as [|? ? Hgap Hrest]; subst. cbn [serve].
    destruct (api_summarize ev req (later gap w)) as [r w1] eqn:Hrun.
    destruct (window_step ev req cur w gap r w1 Hstate Hgap Hrun)
      as (Hclock & Hcases).
    cbn [served_times]. simpl (Redis.clock (redis_client (later gap w))).
    assert (Hmono : forall cur',
               window_state req cur' w1 ->
               Forall (fun t => Redis.clock (redis_client w) + gap <= t)
                 (served_times (serve (api_summarize ev) req gaps w1))
               /\ spaced (cur' ++ served_times
                                    (serve (api_summarize ev) req gaps w1))).
    { intros cur' Hstate'. destruct (IH cur' w1 Hstate' Hrest) as [Hts Hsp].
      rewrite Hclock in Hts. auto. }
    destruct Hcases as [[Hserved Hstate1]|[(Hserved & Hstate1 & Hfar)|[Hserved Hstate1]]];
      rewrite Hserved; destruct (Hmono _ Hstate1) as [Hts Hsp].
    + split.
      * constructor; [lia|]. eapply Forall_impl; [exact Hts|]. simpl. lia.
      * now rewrite <- app_assoc in Hsp.
    + split.
      * constructor; [lia|]. eapply Forall_impl; [exact Hts|]. simpl. lia.
      * apply spaced_app_far; [apply Hstate| |exact Hsp].
        eapply Forall_impl; [exact Hfar|]. simpl. intros x Hx.
        constructor; [exact Hx|].
        eapply Forall_impl; [exact Hts|]. simpl. lia.
    + split; [|exact Hsp].
      eapply Forall_impl; [exact Hts|]. simpl. lia.
Qed.

End Spaced.

Example served_times_sample :
  served_times
    (serve (@api_summarize Sample.json Sample.ev) Sample.empty_req
       [0; 7000; 7000; 7000; 7000; 7000; 7000; 7000; 7000; 7000; 7000; 60001]
       Sample.start)
  = [0; 7000; 14000; 21000; 28000; 35000; 42000; 49000; 56000; 63000; 130001].
Proof. vm_compute. reflexivity. Qed.

(** ** What is written to the cache, and when *)

Lemma get_model_world (ev : env) (w : world) :
  redis_client (snd (get_model ev w)) = redis_client w
  /\ REDIS_AVAILABLE (snd (get_model ev w)) = REDIS_AVAILABLE w.
Proof.
  destruct (_model w) as [m|] eqn:Hm.
  - now rewrite (get_model_loaded ev w m Hm).
  - destruct (pipeline ev) as [m|e] eqn:Hp.
    + now rewrite (get_model_loads ev w m Hm Hp).
    + now rewrite (get_model_fails ev w e Hm Hp).
Qed.

Lemma setex_other (key key' val : string) (seconds : Z) (r : Redis.server) :
  key' <> key ->
  Redis.db (snd (Redis.setex key seconds val r)) !! key' = Redis.db r !! key'.
Proof.
  intros Hne. unfold Redis.setex, Redis.checked, Redis.round_trip.
  assert (Hrun : forall r0,
             Redis.db (snd (Redis.run_all [Redis.SETEX key seconds val] r0)) !! key'
             = Redis.db r0 !! key').
  { intros r0. cbn. destruct (seconds <=? 0); cbn; [reflexivity|].
    now apply lookup_insert_ne. }
  specialize (Hrun (Redis.bump r)).
  destruct (Redis.run_all _ (Redis.bump r)) as [xs r1]. simpl in Hrun.
  destruct (Redis.outage r (Redis.trips r)) as [[[] e]|]; simpl; auto.
  destruct (Redis.first_error xs); simpl; auto.
Qed.

Section Writes.

Context `{Json}.

Lemma get_cached_summary_db (text length : string) (w : world) :
  Redis.db (redis_client (snd (get_cached_summary text length w)))
  = Redis.db (redis_client w).
Proof.
  destruct (REDIS_AVAILABLE w) eqn:Hon;
    [|now rewrite (get_cached_summary_unavailable text length w Hon)].
  destruct (Redis.outage (redis_client w) (Redis.trips (redis_client w)))
    as [flt|] eqn:Hout.
  - now rewrite (get_cached_summary_fault text length w flt Hon Hout).
  - now rewrite (get_cached_summary_answers text length w Hon Hout).
Qed.

Lemma cache_summary_other (text length : string) (data : pyval) (w : world)
    (key : string) :
  key <> get_cache_key text length ->
  Redis.db (redis_client (snd (cache_summary text length data w))) !! key
  = Redis.db (redis_client w) !! key.
Proof.
  intros Hne. unfold cache_summary, bind, gets, try_except, redis, ret.
  destruct (REDIS_AVAILABLE w); cbn [negb]; [|reflexivity].
  pose proof (setex_other (get_cache_key text length) key (json_dumps data)
                86400 (redis_client w) Hne) as Hset.
  destruct (Redis.setex _ _ _ (redis_client w)) as [[[]|e] r1]; exact Hset.
Qed.

(** [generate_summary] changes no key but that of its text and length
    option, and changes that one only when it returns a fresh summary. *)
Lemma generate_summary_db (ev : env) (text length : string) (w : world)
    (r : result pyval) (w' : world) :
  generate_summary ev text length w = (r, w') ->
  (forall key, key <> get_cache_key text length ->
     Redis.db (redis_client w') !! key = Redis.db (redis_client w) !! key)
  /\ (Redis.db (redis_client w') = Redis.db (redis_client w)
      \/ exists s ratio, r = Return (fresh_summary ev text s ratio)).
Proof.
  intros Hrun.
  destruct (get_cached_summary_returns text length w) as (v & w1 & Hget).
  pose proof (get_cached_summary_db text length w) as Hdb1.
  rewrite Hget in Hdb1. simpl in Hdb1.
  destruct (Py.truthy v) eqn:Hv.
  - unfold generate_summary, try_except, bind, lift, raise in Hrun.
    rewrite Hget, Hv in Hrun.
    assert (Hw : w' = w1).
    { destruct (Py.setitem v "cached" (PBool true)); now injection Hrun as _ <-. }
    subst w'. rewrite Hdb1. auto.
  - destruct (get_model ev w1) as [[model|e] w2] eqn:Hmodel.
    + pose proof (get_model_world ev w1) as [Hr2 _].
      rewrite Hmodel in Hr2. simpl in Hr2.
      rewrite (generate_summary_miss ev text length w w1 w2 v model Hget Hv Hmodel)
        in Hrun.
      destruct (call model text _ _) as [s|e];
        [|injection Hrun as _ <-; rewrite Hr2, Hdb1; auto].
      destruct (Float.truediv _ _) as [ratio|e];
        [|injection Hrun as _ <-; rewrite Hr2, Hdb1; auto].
      injection Hrun as <- <-. split; [|right; eauto].
      intros key Hkey. rewrite (cache_summary_other _ _ _ _ _ Hkey).
      now rewrite Hr2, Hdb1.
    + pose proof (get_model_world ev w1) as [Hr2 _].
      rewrite Hmodel in Hr2. simpl in Hr2.
      rewrite (generate_summary_load_fails ev text length w w1 w2 v e Hget Hv Hmodel)
        in Hrun.
      injection Hrun as _ <-. rewrite Hr2, Hdb1. auto.
Qed.

Lemma summarize_unparsed (ev : env) (req : request) (w : world) :
  request_fields req = None ->
  exists resp, summarize ev req w = (Return resp, w) /\ status resp <> 200.
Proof.
  unfold request_fields, summarize, try_except, bind, lift, ret.
  destruct (get_json req) as [data|e]; [|intros _; eexists; split; [reflexivity|easy]].
  destruct (Py.truthy data); cbn [negb];
    [|intros _; eexists; split; [reflexivity|easy]].
  destruct (Py.get data "text" (PStr "")) as [tf|e];
    [|intros _; eexists; split; [reflexivity|easy]].
  destruct (Py.strip tf) as [text|e];
    [|intros _; eexists; split; [reflexivity|easy]].
  destruct (Py.get data "length" (PStr "medium")) as [lf|e];
    [|intros _; eexists; split; [reflexivity|easy]].
  destruct (Py.lower lf) as [length|e];
    [discriminate|intros _; eexists; split; [reflexivity|easy]].
Qed.

End Writes.

(** X8: [summarize] writes to the store only what it serves fresh: it
    changes no key but the cache key of the text and length option of its
    request, and when it changes that key its answer is a 200 whose summary
    has ['cached'] false.  Rejected input, failures of the model and cache
    hits write nothing. *)
Theorem only_fresh_summaries_are_cached `{Json} (ev : env) (req : request)
    (w : world) (resp : response) (w' : world) :
  summarize ev req w = (Return resp, w') ->
  (forall key,
      (forall text length,
          request_fields req = Some (text, length) ->
          key <> get_cache_key text length) ->
      Redis.db (redis_client w') !! key = Redis.db (redis_client w) !! key)
  /\ (Redis.db (redis_client w') <> Redis.db (redis_client w) ->
      status resp = 200
      /\ exists data,
           Py.field (body resp) "data" = Some data
           /\ Py.field data "cached" = Some (PBool false)).
Proof.
  intros Hrun. destruct (request_fields req) as [[text length]|] eqn:Hreq.
  - rewrite (summarize_parsed ev req text length w Hreq) in Hrun.
    destruct (validate_input text length) as [|first rest].
    + destruct (generate_summary ev text length w) as [r w1] eqn:Hgen.
      destruct (generate_summary_db ev text length w r w1 Hgen) as [Hother Hfresh].
      assert (Hw : w' = w1) by (destruct r; now injection Hrun as _ <-).
      subst w1. split; [intros key Hkey; now apply Hother, Hkey|].
      intros Hchanged. destruct Hfresh as [Hsame|(s & ratio & ->)];
        [contradiction|].
      injection Hrun as <-. split; [reflexivity|].
      eexists. split; reflexivity.
    + injection Hrun as _ <-. split; [reflexivity|]. intros Hne. contradiction.
  - destruct (summarize_unparsed ev req w Hreq) as (resp' & Hrun' & _).
    rewrite Hrun' in Hrun. injection Hrun as _ <-.
    split; [reflexivity|]. intros Hne. contradiction.
Qed.

Lemma only_fresh_summaries_are_cached_witness :
  exists resp w',
    @summarize Sample.json Sample.ev Sample.req Sample.start = (Return resp, w')
    /\ Redis.db (redis_client w') !! "rate_limit:10.0.0.1"
       = Redis.db (redis_client Sample.start) !! "rate_limit:10.0.0.1"
    /\ status resp = 200.
Proof.
  destruct (@summarize_total Sample.json Sample.ev Sample.req Sample.start)
    as (resp & w' & Hrun & _).
  exists resp, w'. split; [exact Hrun|].
  destruct (@only_fresh_summaries_are_cached Sample.json Sample.ev Sample.req
              Sample.start resp w' Hrun) as [Hother Hfresh].
  split.
  - apply Hother. intros text length _. apply not_eq_sym.
    apply (cache_key_not_counter text length "10.0.0.1").
  - apply Hfresh. vm_compute in Hrun. injection Hrun as _ <-.
    intros Heq. apply (f_equal (fun d => size d)) in Heq.
    vm_compute in Heq. discriminate.
Defined.

(** ** Cache hits, corrupt entries and the second request *)

Lemma live_counted (text length : string) (window n : Z) (req : request)
    (w : world) :
  Redis.live (get_cache_key text length) (redis_client (counted window n req w))
  = Redis.live (get_cache_key text length) (redis_client w).
Proof.
  unfold counted. simpl. rewrite live_with_db.
  rewrite lookup_insert_ne by (apply not_eq_sym, cache_key_not_counter).
  reflexivity.
Qed.

Section Twice.

Context `{Json}.

(** [generate_summary] on any lookup that finds a true value. *)
Lemma generate_summary_found (ev : env) (text length : string) (w w1 : world)
    (v : pyval) :
  get_cached_summary text length w = (Return v, w1) ->
  Py.truthy v = true ->
  generate_summary ev text length w = (Py.setitem v "cached" (PBool true), w1).
Proof.
  intros Hget Hv. unfold generate_summary, try_except, bind, lift, raise.
  rewrite Hget, Hv. now destruct (Py.setitem v "cached" (PBool true)).
Qed.

(** A request that the limiter lets through and that hits the cache. *)
Lemma api_hit (ev : env) (req : request) (w : world) (text length : string)
    (k : Z) (e : Redis.entry) (d : list (string * pyval)) :
  REDIS_AVAILABLE w = true -> up (redis_client w) ->
  request_fields req = Some (text, length) ->
  validate_input text length = [] ->
  count req w = Some k -> k < 10 ->
  Redis.live (get_cache_key text length) (redis_client w) = Some e ->
  Str.truthy (Redis.value e) = true ->
  json_loads (Redis.value e) = Return (PDict d) -> d <> [] ->
  api_summarize ev req w
  = (Return (success (PDict (Py.store d "cached" (PBool true)))),
     with_redis (Redis.bump (redis_client (counted 60 k req w)))
       (counted 60 k req w)).
Proof.
  intros Hon Hup Hreq Hvalid Hcount Hk Hlive Hs Hload Hd.
  destruct (up_answers _ Hup) as [Hans1 Hans2].
  unfold api_summarize.
  rewrite (rate_limit_passes 10 60 _ req w k) by (auto; lia).
  rewrite (summarize_parsed ev req text length _ Hreq), Hvalid.
  assert (Hget : get_cached_summary text length (counted 60 k req w)
                 = (Return (PDict d),
                    with_redis (Redis.bump (redis_client (counted 60 k req w)))
                      (counted 60 k req w))).
  { rewrite get_cached_summary_answers;
      [|exact Hon | unfold answers; simpl; apply Hup; lia].
    rewrite live_counted, Hlive. unfold cached_value. now rewrite Hs, Hload. }
  rewrite (generate_summary_hit ev text length _ _ d Hget Hd). reflexivity.
Qed.

(** A request that the limiter lets through, that misses the cache and whose
    summary is written to it. *)
Lemma api_fresh (ev : env) (req : request) (w : world) (text length : string)
    (n : Z) (m : Model) (s : string) (ratio : float) :
  REDIS_AVAILABLE w = true -> up (redis_client w) ->
  request_fields req = Some (text, length) ->
  validate_input text length = [] ->
  count req w = Some n -> n < 10 ->
  Redis.live (get_cache_key text length) (redis_client w) = None ->
  loads ev w m ->
  m text (fst (length_config length)) (snd (length_config length)) = Return s ->
  Float.truediv (Py.len s) (Py.len text) = Return ratio ->
  exists w1,
    api_summarize ev req w = (Return (success (fresh_summary ev text s ratio)), w1)
    /\ REDIS_AVAILABLE w1 = true /\ up (redis_client w1)
    /\ Redis.clock (redis_client w1) = Redis.clock (redis_client w)
    /\ _model w1 = Some m
    /\ counter (remote_addr req) w1
       = Some (Redis.Entry (Str.of_Z (n + 1))
                 (Some (Redis.clock (redis_client w) + 60000)))
    /\ Redis.db (redis_client w1) !! get_cache_key text length
       = Some (Redis.Entry (json_dumps (fresh_summary ev text s ratio))
                 (Some (Redis.clock (redis_client w) + 86400000))).
Proof.
  intros Hon Hup Hreq Hvalid Hcount Hn Hmiss Hloads Hcall Hratio.
  destruct (up_answers _ Hup) as [Hans1 Hans2].
  unfold api_summarize.
  rewrite (rate_limit_passes 10 60 _ req w n) by (auto; lia).
  rewrite (summarize_parsed ev req text length _ Hreq), Hvalid.
  set (wc := counted 60 n req w).
  set (w1 := with_redis (Redis.bump (redis_client wc)) wc).
  assert (Hget : get_cached_summary text length wc = (Return PNone, w1)).
  { rewrite get_cached_summary_answers;
      [|exact Hon | unfold answers; simpl; apply Hup; lia].
    unfold wc. now rewrite live_counted, Hmiss. }
  assert (Hmodel : exists w2,
             get_model ev w1 = (Return (Some m), w2)
             /\ REDIS_AVAILABLE w2 = true /\ redis_client w2 = redis_client w1
             /\ _model w2 = Some m).
  { destruct Hloads as [Hm|[Hm Hp]].
    - exists w1. rewrite (get_model_loaded ev w1 m Hm). auto.
    - eexists. rewrite (get_model_loads ev w1 m Hm Hp). simpl. auto. }
  destruct Hmodel as (w2 & Hmodel & Hon2 & Hr2 & Hm2).
  rewrite (generate_summary_miss ev text length wc w1 w2 PNone (Some m)
             Hget eq_refl Hmodel).
  cbn [call]. rewrite Hcall, Hratio.
  rewrite (cache_summary_answers text length _ w2 Hon2)
    by (rewrite Hr2; unfold answers; simpl; apply Hup; lia).
  eexists. split; [reflexivity|]. simpl. rewrite Hr2. simpl.
  split; [exact Hon2|].
  split; [intros k Hk; simpl in *; apply Hup; lia|].
  split; [reflexivity|]. split; [exact Hm2|]. split.
  - unfold counter. simpl.
    rewrite lookup_insert_ne by apply cache_key_not_counter.
    apply lookup_insert_eq.
  - apply lookup_insert_eq.
Qed.

End Twice.

(** X9: the same request twice: with the store answering and a [json]
    that reads back what it writes, a valid request that misses the cache is
    served with ['cached'] false, and the same request made again within 24
    hours is served the same summary with ['cached'] true, without the model:
    the second answer does not depend on what the model would do. *)
Theorem second_request_hits_cache `{Json} (ev : env) (req : request) (w : world)
    (text length : string) (n gap : Z) (m : Model) (s : string) (ratio : float)
    (d : list (string * pyval)) :
  REDIS_AVAILABLE w = true -> up (redis_client w) ->
  request_fields req = Some (text, length) ->
  validate_input text length = [] ->
  count req w = Some n -> 0 <= n < 9 ->
  Redis.live (get_cache_key text length) (redis_client w) = None ->
  loads ev w m ->
  m text (fst (length_config length)) (snd (length_config length)) = Return s ->
  Float.truediv (Py.len s) (Py.len text) = Return ratio ->
  fresh_summary ev text s ratio = PDict d ->
  json_dumps (PDict d) <> "" ->
  json_loads (json_dumps (PDict d)) = Return (PDict d) ->
  0 <= gap <= 86400000 ->
  exists w1 w2,
    api_summarize ev req w = (Return (success (PDict d)), w1)
    /\ Py.lookup d "cached" = Some (PBool false)
    /\ (forall ev',
          api_summarize ev' req (later gap w1)
          = (Return (success (PDict (Py.store d "cached" (PBool true)))), w2))
    /\ Py.lookup (Py.store d "cached" (PBool true)) "summary" = Some (PStr s).
Proof.
  intros Hon Hup Hreq Hvalid Hcount Hn Hmiss Hloads Hcall Hratio Hd Hdump Hload Hgap.
  destruct (api_fresh ev req w text length n m s ratio Hon Hup Hreq Hvalid Hcount
              ltac:(lia) Hmiss Hloads Hcall Hratio)
    as (w1 & Hrun & Hon1 & Hup1 & Hclock & _ & Hcounter & Hentry).
  rewrite Hd in Hrun, Hentry.
  assert (Hlive : Redis.live (get_cache_key text length)
                    (redis_client (later gap w1))
                  = Some (Redis.Entry (json_dumps (PDict d))
                            (Some (Redis.clock (redis_client w) + 86400000)))).
  { unfold Redis.live, later. simpl. rewrite Hentry.
    unfold Redis.expired. simpl. rewrite Hclock.
    destruct (Z.ltb_spec (Redis.clock (redis_client w) + 86400000)
                (Redis.clock (redis_client w) + gap)); [lia|reflexivity]. }
  assert (Hcount1 : exists k, count req (later gap w1) = Some k /\ k < 10).
  { unfold count, Redis.live, later, rate_key. simpl.
    unfold counter in Hcounter. rewrite Hcounter. unfold Redis.expired. simpl.
    destruct (_ <? _); [exists 0; split; [reflexivity|lia]|].
    exists (n + 1). split; [apply to_int64_of_Z; lia|lia]. }
  destruct Hcount1 as (k & Hcount1 & Hk).
  assert (Hne : d <> []).
  { intros ->. unfold fresh_summary in Hd. discriminate. }
  exists w1. eexists. split; [exact Hrun|].
  split; [unfold fresh_summary in Hd; now injection Hd as <-|].
  split.
  - intros ev'.
    apply (api_hit ev' req (later gap w1) text length k
             (Redis.Entry (json_dumps (PDict d))
                (Some (Redis.clock (redis_client w) + 86400000))) d);
      auto using truthy_nonempty.
  - unfold fresh_summary in Hd. injection Hd as <-. reflexivity.
Qed.

Lemma second_request_hits_cache_witness :
  exists w1 w2,
    @api_summarize Sample.fresh_codec Sample.ev Sample.req Sample.start
    = (Return (success (PDict Sample.fresh_items)), w1)
    /\ @api_summarize Sample.fresh_codec Sample.broken_ev Sample.req
         (later 3600000 w1)
       = (Return (success (PDict (Py.store Sample.fresh_items "cached"
                                    (PBool true)))), w2).
Proof.
  assert (Hreq : request_fields Sample.req = Some (Sample.text, "medium"))
    by (vm_compute; reflexivity).
  assert (Hvalid : validate_input Sample.text "medium" = [])
    by (vm_compute; reflexivity).
  assert (Hratio : Float.truediv (Py.len (Str.take 150 Sample.text))
                     (Py.len Sample.text)
                   = Return (Float.of_ratio false 150 1000))
    by (vm_compute; reflexivity).
  assert (Hdump : @json_dumps Sample.fresh_codec (PDict Sample.fresh_items) <> "").
  { intros Heq. apply (f_equal String.length) in Heq.
    vm_compute in Heq. discriminate. }
  assert (Hload : @json_loads Sample.fresh_codec
                    (@json_dumps Sample.fresh_codec (PDict Sample.fresh_items))
                  = Return (PDict Sample.fresh_items)).
  { cbv [json_loads json_dumps Sample.fresh_codec].
    now rewrite String.eqb_refl. }
  destruct (@second_request_hits_cache Sample.fresh_codec Sample.ev Sample.req
              Sample.start Sample.text "medium" 0 3600000 Sample.model
              (Str.take 150 Sample.text) (Float.of_ratio false 150 1000)
              Sample.fresh_items
              eq_refl (fun k _ => eq_refl) Hreq Hvalid eq_refl ltac:(lia)
              eq_refl (or_intror (conj eq_refl eq_refl)) eq_refl Hratio eq_refl
              Hdump Hload ltac:(lia))
    as (w1 & w2 & Hfirst & _ & Hsecond & _).
  exists w1, w2. split; [exact Hfirst | apply Hsecond].
Defined.

(** ** Requests that cannot be read *)

Section Malformed.
Context `{Json}.

Lemma summarize_body_raises (ev : env) (req : request) (w : world) (e : exn) :
  get_json req = Raise e -> summarize ev req w = (Return (internal_error e), w).
Proof.
  intros Hbody. unfold summarize, try_except, bind, lift, ret. now rewrite Hbody.
Qed.

Lemma summarize_no_body (ev : env) (req : request) (w : world) (data : pyval) :
  get_json req = Return data -> Py.truthy data = false ->
  summarize ev req w = (Return no_json, w).
Proof.
  intros Hbody Hdata. unfold summarize, try_except, bind, lift, ret.
  now rewrite Hbody, Hdata.
Qed.

Lemma summarize_not_dict (ev : env) (req : request) (w : world) (data : pyval) :
  get_json req = Return data -> Py.truthy data = true ->
  (forall d, data <> PDict d) ->
  summarize ev req w
  = (Return (internal_error (Py.AttributeError data "get")), w).
Proof.
  intros Hbody Hdata Hdict. unfold summarize, try_except, bind, lift, ret.
  rewrite Hbody, Hdata. cbn [negb].
  destruct data as [| | | | |l|d]; try reflexivity. now destruct (Hdict d).
Qed.

Lemma summarize_text_not_str (ev : env) (req : request) (w : world)
    (d : list (string * pyval)) (v : pyval) :
  get_json req = Return (PDict d) -> Py.lookup d "text" = Some v ->
  (forall s, v <> PStr s) ->
  summarize ev req w
  = (Return (internal_error (Py.AttributeError v "strip")), w).
Proof.
  intros Hbody Htext Hstr. unfold summarize, try_except, bind, lift, ret.
  rewrite Hbody.
  assert (Hd : Py.truthy (PDict d) = true) by (now destruct d).
  rewrite Hd. cbn [negb Py.get]. rewrite Htext.
  destruct v as [| | | |s| |]; try reflexivity. now destruct (Hstr s).
Qed.

Lemma summarize_length_not_str (ev : env) (req : request) (w : world)
    (d : list (string * pyval)) (text : string) (v : pyval) :
  get_json req = Return (PDict d) -> d <> [] ->
  Py.get (PDict d) "text" (PStr "") = Return (PStr text) ->
  Py.lookup d "length" = Some v -> (forall s, v <> PStr s) ->
  summarize ev req w
  = (Return (internal_error (Py.AttributeError v "lower")), w).
Proof.
  intros Hbody Hd Htext Hlength Hstr.
  unfold summarize, try_except, bind, lift, ret.
  rewrite Hbody.
  assert (Htrue : Py.truthy (PDict d) = true) by (now destruct d).
  rewrite Htrue. cbn [negb]. rewrite Htext. cbn [Py.strip Py.get].
  rewrite Hlength.
  destruct v as [| | | |s| |]; try reflexivity. now destruct (Hstr s).
Qed.

Lemma request_fields_body (req : request) (text length : string) :
  request_fields req = Some (text, length) ->
  exists data, get_json req = Return data /\ Py.truthy data = true.
Proof.
  unfold request_fields. destruct (get_json req) as [data|e]; [|discriminate].
  destruct (Py.truthy data) eqn:Hdata; [|discriminate]. intros _. now exists data.
Qed.

(** A request that [summarize] cannot read is answered 400 when it has no
    body and 500 otherwise, and leaves the process as it was. *)
Lemma summarize_malformed (ev : env) (req : request) (w : world) :
  request_fields req = None ->
  (no_body req /\ summarize ev req w = (Return no_json, w))
  \/ (~ no_body req /\ exists e, summarize ev req w = (Return (internal_error e), w)).
Proof.
  unfold request_fields, no_body, summarize, try_except, bind, lift, ret.
  destruct (get_json req) as [data|e].
  2:{ intros _. right. split; [now intros (data & Hd & _)|]. now exists e. }
  destruct (Py.truthy data) eqn:Hdata; cbn [negb].
  2:{ intros _. left. split; [now exists data | reflexivity]. }
  assert (Hbody : ~ (exists data0, Return data = Return data0
                                   /\ Py.truthy data0 = false)).
  { intros (data0 & Heq & Hfalse). injection Heq as <-. congruence. }
  destruct (Py.get data "text" (PStr "")) as [tf|e];
    [|intros _; right; split; [exact Hbody | now exists e]].
  destruct (Py.strip tf) as [text|e];
    [|intros _; right; split; [exact Hbody | now exists e]].
  destruct (Py.get data "length" (PStr "medium")) as [lf|e];
    [|intros _; right; split; [exact Hbody | now exists e]].
  destruct (Py.lower lf) as [length|e];
    [discriminate | intros _; right; split; [exact Hbody | now exists e]].
Qed.

End Malformed.

(** X10: a request that cannot be read never reaches the validation, the
    cache or the model, and leaves the process as it was.  A body that reads
    as false is answered 400 ['No JSON data provided']; a body that
    [get_json] rejects is answered 500 with the text of its exception; a
    body that is not an object, a ['text'] that is not a string and a
    ['length'] that is not a string are answered 500 with the text of the
    [AttributeError] for [get], [strip] and [lower]. *)
Theorem unreadable_request_answers `{Json} (ev : env) (req : request) (w : world) :
  (forall data,
      get_json req = Return data -> Py.truthy data = false ->
      summarize ev req w = (Return no_json, w))
  /\ (forall e,
         get_json req = Raise e ->
         summarize ev req w = (Return (internal_error e), w))
  /\ (forall data,
         get_json req = Return data -> Py.truthy data = true ->
         (forall d, data <> PDict d) ->
         summarize ev req w
         = (Return (internal_error
                      (Exception ("'" +:+ Py.type_name data
                                  +:+ "' object has no attribute 'get'"))), w))
  /\ (forall d v,
         get_json req = Return (PDict d) -> Py.lookup d "text" = Some v ->
         (forall s, v <> PStr s) ->
         summarize ev req w
         = (Return (internal_error
                      (Exception ("'" +:+ Py.type_name v
                                  +:+ "' object has no attribute 'strip'"))), w))
  /\ (forall d text v,
         get_json req = Return (PDict d) -> d <> [] ->
         Py.get (PDict d) "text" (PStr "") = Return (PStr text) ->
         Py.lookup d "length" = Some v -> (forall s, v <> PStr s) ->
         summarize ev req w
         = (Return (internal_error
                      (Exception ("'" +:+ Py.type_name v
                                  +:+ "' object has no attribute 'lower'"))), w)).
Proof.
  split; [exact (summarize_no_body ev req w)|].
  split; [exact (summarize_body_raises ev req w)|].
  split; [exact (summarize_not_dict ev req w)|].
  split; [exact (summarize_text_not_str ev req w)|].
  exact (summarize_length_not_str ev req w).
Qed.

Lemma unreadable_request_answers_witness :
  @summarize Sample.json Sample.ev Sample.empty_req Sample.start
  = (Return no_json, Sample.start)
  /\ @summarize Sample.json Sample.ev Sample.bad_req Sample.start
     = (Return (internal_error
                  (Exception "400 Bad Request: Failed to decode JSON object")),
        Sample.start)
  /\ @summarize Sample.json Sample.ev Sample.list_req Sample.start
     = (Return (internal_error
                  (Exception "'list' object has no attribute 'get'")),
        Sample.start)
  /\ @summarize Sample.json Sample.ev Sample.number_req Sample.start
     = (Return (internal_error
                  (Exception "'int' object has no attribute 'strip'")),
        Sample.start).
Proof.
  split; [|split; [|split]].
  - destruct (@unreadable_request_answers Sample.json Sample.ev Sample.empty_req
                Sample.start) as (Hnone & _).
    apply (Hnone PNone); reflexivity.
  - destruct (@unreadable_request_answers Sample.json Sample.ev Sample.bad_req
                Sample.start) as (_ & Hraise & _).
    apply Hraise. reflexivity.
  - destruct (@unreadable_request_answers Sample.json Sample.ev Sample.list_req
                Sample.start) as (_ & _ & Hlist & _).
    apply (Hlist (PList [PStr Sample.text])); [reflexivity | reflexivity | easy].
  - destruct (@unreadable_request_answers Sample.json Sample.ev Sample.number_req
                Sample.start) as (_ & _ & _ & Hnumber & _).
    apply (Hnumber [("text", PInt 42)] (PInt 42)); [reflexivity | reflexivity | easy].
Defined.

(** X11: [summarize] answers 200, 400 or 500, and a response is returned
    for every request.  It answers 400 exactly when the body reads as false
    or the text and length option fail the validation, then with the first
    validation error; it answers 200 exactly when the request is read and
    valid and [generate_summary] returns. *)
Theorem summarize_status `{Json} (ev : env) (req : request) (w : world) :
  exists resp w',
    summarize ev req w = (Return resp, w')
    /\ (status resp = 200 \/ status resp = 400 \/ status resp = 500)
    /\ (status resp = 400 <->
        no_body req \/ exists msg, rejected req msg)
    /\ (forall msg, rejected req msg -> resp = Response (PDict [("error", PStr msg)]) 400)
    /\ (status resp = 200 <->
        exists text length data w0,
          request_fields req = Some (text, length)
          /\ validate_input text length = []
          /\ generate_summary ev text length w = (Return data, w0)).
Proof.
  destruct (request_fields req) as [[text length]|] eqn:Hreq.
  - pose proof (summarize_parsed ev req text length w Hreq) as Hrun.
    assert (Hbody : ~ no_body req).
    { intros (data & Hdata & Hfalse).
      destruct (request_fields_body req text length Hreq) as (data' & Hdata' & Htrue).
      congruence. }
    destruct (validate_input text length) as [|first rest] eqn:Hvalid.
    + destruct (generate_summary ev text length w) as [[data|e] w0] eqn:Hgen;
        eexists _, _; (split; [exact Hrun|]).
      * split; [now left|]. split; [|split].
        -- split; [discriminate|].
           intros [Hno|(msg & t & l & r & Ht & Hv)]; [contradiction|]. congruence.
        -- intros msg (t & l & r & Ht & Hv). congruence.
        -- split; [|reflexivity]. intros _. now exists text, length, data, w0.
      * split; [now right; right|]. split; [|split].
        -- split; [discriminate|].
           intros [Hno|(msg & t & l & r & Ht & Hv)]; [contradiction|]. congruence.
        -- intros msg (t & l & r & Ht & Hv). congruence.
        -- split; [discriminate|].
           intros (t & l & d & w1 & Ht & _ & Hg). congruence.
    + eexists _, _. split; [exact Hrun|].
      split; [now right; left|]. split; [|split].
      * split; [|reflexivity]. intros _. right. exists first.
        now exists text, length, rest.
      * intros msg (t & l & r & Ht & Hv). congruence.
      * split; [discriminate|].
        intros (t & l & d & w1 & Ht & Hv & _). congruence.
  - assert (Hnot : forall msg, ~ rejected req msg).
    { intros msg (t & l & r & Ht & _). congruence. }
    destruct (summarize_malformed ev req w Hreq)
      as [[Hno Hrun]|[Hbody [e Hrun]]]; eexists _, _; (split; [exact Hrun|]).
    + split; [now right; left|]. split; [|split].
      * split; [now left | reflexivity].
      * intros msg Hmsg. now destruct (Hnot msg).
      * split; [discriminate|].
        intros (t & l & d & w1 & Ht & _). congruence.
    + split; [now right; right|]. split; [|split].
      * split; [discriminate|].
        intros [Hno|[msg Hmsg]]; [contradiction | now destruct (Hnot msg)].
      * intros msg Hmsg. now destruct (Hnot msg).
      * split; [discriminate|].
        intros (t & l & d & w1 & Ht & _). congruence.
Qed.

(** ** Cache entries that cannot be used *)

Lemma setitem_not_dict (v : pyval) (k : string) (x : pyval) :
  (forall d, v <> PDict d) ->
  Py.setitem v k x
  = Raise (match v with
           | PList _ => Exception "list indices must be integers or slices, not str"
           | _ => Exception ("'" +:+ Py.type_name v
                             +:+ "' object does not support item assignment")
           end).
Proof.
  intros Hdict. destruct v as [| | | | | |d]; try reflexivity. now destruct (Hdict d).
Qed.

(** X12: a cache entry that is not a summary.  With the store answering, a
    valid request whose cache entry holds JSON for a true value that is not
    an object is answered 500 with the text of the [TypeError] of the item
    assignment, the model is not asked and the entry stays; an entry whose
    text is not JSON is taken as a miss, and the request is served a fresh
    summary. *)
Theorem corrupt_cache_entry `{Json} (ev : env) (req : request) (w : world)
    (text length : string) (e : Redis.entry) :
  REDIS_AVAILABLE w = true -> answers (redis_client w) ->
  request_fields req = Some (text, length) ->
  validate_input text length = [] ->
  Redis.live (get_cache_key text length) (redis_client w) = Some e ->
  Str.truthy (Redis.value e) = true ->
  (forall v,
      json_loads (Redis.value e) = Return v -> Py.truthy v = true ->
      (forall d, v <> PDict d) ->
      summarize ev req w
      = (Return
           (internal_error
              (match v with
               | PList _ =>
                   Exception "list indices must be integers or slices, not str"
               | _ => Exception ("'" +:+ Py.type_name v
                                 +:+ "' object does not support item assignment")
               end)),
         with_redis (Redis.bump (redis_client w)) w))
  /\ (forall x m s,
         json_loads (Redis.value e) = Raise x ->
         loads ev w m ->
         m text (fst (length_config length)) (snd (length_config length))
         = Return s ->
         exists ratio w',
           summarize ev req w = (Return (success (fresh_summary ev text s ratio)), w')).
Proof.
  intros Hon Hans Hreq Hvalid Hlive He.
  pose proof (get_cached_summary_answers text length w Hon Hans) as Hget.
  rewrite Hlive in Hget. cbn [cached_value] in Hget. rewrite He in Hget.
  split.
  - intros v Hv Htrue Hdict. rewrite Hv in Hget.
    rewrite (summarize_parsed ev req text length w Hreq), Hvalid.
    rewrite (generate_summary_found ev text length w _ v Hget Htrue).
    now rewrite (setitem_not_dict v "cached" (PBool true) Hdict).
  - intros x m s Hx Hloads Hcall. rewrite Hx in Hget.
    destruct (generate_summary_fresh ev text length w _ m s Hget Hloads Hcall
                (valid_nonempty _ _ Hvalid)) as (ratio & w' & _ & Hgen).
    exists ratio, w'.
    now rewrite (summarize_parsed ev req text length w Hreq), Hvalid, Hgen.
Qed.

Lemma corrupt_cache_entry_witness :
  @summarize Sample.list_codec Sample.ev Sample.req Sample.poisoned
  = (Return (internal_error
               (Exception "list indices must be integers or slices, not str")),
     with_redis (Redis.bump (redis_client Sample.poisoned)) Sample.poisoned)
  /\ exists ratio w',
       @summarize Sample.list_codec Sample.ev Sample.req Sample.garbled
       = (Return (success (fresh_summary Sample.ev Sample.text
                             (Str.take 150 Sample.text) ratio)), w').
Proof.
  assert (Hreq : request_fields Sample.req = Some (Sample.text, "medium"))
    by (vm_compute; reflexivity).
  assert (Hvalid : validate_input Sample.text "medium" = [])
    by (vm_compute; reflexivity).
  split.
  - assert (Hlive : Redis.live (get_cache_key Sample.text "medium")
                      (redis_client Sample.poisoned)
                    = Some (Redis.Entry "[1]" None))
      by (vm_compute; reflexivity).
    pose proof (@corrupt_cache_entry Sample.list_codec Sample.ev Sample.req
                  Sample.poisoned Sample.text "medium" (Redis.Entry "[1]" None)
                  eq_refl eq_refl Hreq Hvalid Hlive eq_refl) as [Hlist _].
    assert (Hdict : forall d, PList [PInt 1] <> PDict d)
      by (intros d Hd; discriminate Hd).
    exact (Hlist (PList [PInt 1]) eq_refl eq_refl Hdict).
  - assert (Hlive : Redis.live (get_cache_key Sample.text "medium")
                      (redis_client Sample.garbled)
                    = Some (Redis.Entry "<html>" None))
      by (vm_compute; reflexivity).
    pose proof (@corrupt_cache_entry Sample.list_codec Sample.ev Sample.req
                  Sample.garbled Sample.text "medium" (Redis.Entry "<html>" None)
                  eq_refl eq_refl Hreq Hvalid Hlive eq_refl) as [_ Hgarbled].
    exact (Hgarbled (Exception "Expecting value: line 1 column 1 (char 0)")
             Sample.model (Str.take 150 Sample.text) eq_refl
             (or_intror (conj eq_refl eq_refl)) eq_refl).
Defined.

(** ** Requests that differ by white space and case *)

Lemma lower_char_idem (c : ascii) : Str.lower_char (Str.lower_char c) = Str.lower_char c.
Proof.
  destruct c as [[] [] [] [] [] [] [] []]; reflexivity.
Qed.

Lemma lower_idem (s : string) : Str.lower (Str.lower s) = Str.lower s.
Proof.
  induction s as [|c s IH]; [reflexivity|].
  simpl. now rewrite lower_char_idem, IH.
Qed.

Section Strip.
Variable sp : ascii -> bool.

Lemma rstrip_with_idem (s : string) :
  Str.rstrip_with sp (Str.rstrip_with sp s) = Str.rstrip_with sp s.
Proof.
  induction s as [|c s IH]; [reflexivity|].
  simpl. destruct (Str.rstrip_with sp s) as [|c' r] eqn:Hr.
  - destruct (sp c) eqn:Hc; [reflexivity|]. simpl. now rewrite Hc.
  - simpl. simpl in IH. now rewrite IH.
Qed.

Lemma lstrip_with_head (s : string) : kept_head sp (Str.lstrip_with sp s).
Proof.
  induction s as [|c s IH]; [exact I|].
  simpl. destruct (sp c) eqn:Hc; [exact IH | exact Hc].
Qed.

Lemma rstrip_with_head (s : string) :
  kept_head sp s -> kept_head sp (Str.rstrip_with sp s).
Proof.
  destruct s as [|c s]; [intros _; exact I|].
  simpl. intros Hc. destruct (Str.rstrip_with sp s); [now rewrite Hc | exact Hc].
Qed.

Lemma lstrip_with_kept (s : string) : kept_head sp s -> Str.lstrip_with sp s = s.
Proof.
  destruct s as [|c s]; [reflexivity|]. simpl. now intros ->.
Qed.

Lemma strip_with_idem (s : string) :
  Str.strip_with sp (Str.strip_with sp s) = Str.strip_with sp s.
Proof.
  unfold Str.strip_with.
  rewrite (lstrip_with_kept _ (rstrip_with_head _ (lstrip_with_head s))).
  apply rstrip_with_idem.
Qed.

End Strip.

Lemma strip_idem (s : string) : Str.strip (Str.strip s) = Str.strip s.
Proof.
  exact (strip_with_idem Str.isspace s).
Qed.

(** X13: [summarize] reads the text without its surrounding white space and
    the length option in lower case, and takes a missing length option as
    ['medium']: a request and the request with its text stripped and its
    length option lowered are answered alike, from the same cache entry. *)
Theorem request_normalised `{Json} (ev : env) (ip ip' : string) (t l : string)
    (w : world) :
  request_fields (Request ip (Return (PDict [("text", PStr t); ("length", PStr l)])))
  = Some (Str.strip t, Str.lower l)
  /\ summarize ev (Request ip (Return (PDict [("text", PStr t); ("length", PStr l)]))) w
     = summarize ev
         (Request ip'
            (Return (PDict [("text", PStr (Str.strip t));
                            ("length", PStr (Str.lower l))]))) w
  /\ summarize ev (Request ip (Return (PDict [("text", PStr t)]))) w
     = summarize ev
         (Request ip' (Return (PDict [("text", PStr t); ("length", PStr "medium")]))) w.
Proof.
  assert (Hfields : forall a x y,
             request_fields
               (Request a (Return (PDict [("text", PStr x); ("length", PStr y)])))
             = Some (Str.strip x, Str.lower y)) by reflexivity.
  split; [apply Hfields|]. split.
  - rewrite (summarize_parsed ev _ _ _ w (Hfields ip t l)).
    pose proof (Hfields ip' (Str.strip t) (Str.lower l)) as Hnorm.
    rewrite strip_idem, lower_idem in Hnorm.
    now rewrite (summarize_parsed ev _ _ _ w Hnorm).
  - assert (Hdefault : request_fields (Request ip (Return (PDict [("text", PStr t)])))
                       = Some (Str.strip t, "medium")) by reflexivity.
    rewrite (summarize_parsed ev _ _ _ w Hdefault).
    now rewrite (summarize_parsed ev _ _ _ w (Hfields ip' t "medium")).
Qed.

(** ** Threads that run alone *)

Section Alone.

Context `{Json}.

Lemma finish_done (n : nat) (r : result response) (w : world) :
  finish n (Done r) w = (Done r, w).
Proof. induction n as [|n IH]; [reflexivity|]. simpl. exact IH. Qed.

(** A thread that runs alone through [summarize] answers as [summarize]
    does. *)
Lemma finish_summarize (ev : env) (req : request) (w : world) :
  finish 5 (Passed ev req) w
  = (Done (fst (summarize ev req w)), snd (summarize ev req w)).
Proof.
  unfold summarize, generate_summary, get_model.
  cbn [finish]. unfold step at 1. cbn [action].
  unfold enter_summarize, try_except, bind, lift, ret, raise, gets, set_model.
  destruct (get_json req) as [data|e]; [|reflexivity].
  destruct (Py.truthy data); cbn [negb]; [|reflexivity].
  destruct (Py.get data "text" (PStr "")) as [tf|e]; [|reflexivity].
  destruct (Py.strip tf) as [text|e]; [|reflexivity].
  destruct (Py.get data "length" (PStr "medium")) as [lf|e]; [|reflexivity].
  destruct (Py.lower lf) as [length|e]; [|reflexivity].
  destruct (validate_input text length) as [|first rest]; [|reflexivity].
  destruct (get_cached_summary text length w) as [[v|e] w1]; [|reflexivity].
  destruct (Py.truthy v).
  { destruct (Py.setitem v "cached" (PBool true)); reflexivity. }
  unfold step at 1. cbn [action]. unfold test_model, bind, gets, ret.
  destruct (_model w1) as [m|] eqn:Hm.
  - unfold step at 1. cbn [action]. unfold fetch_model, bind, gets, ret.
    rewrite Hm.
    unfold step at 1. cbn [action].
    unfold summarize_with, bind, lift, ret.
    destruct (call (Some m) text _ _) as [s|e]; [|reflexivity].
    destruct (Float.truediv (Py.len s) (Py.len text)) as [ratio|e]; [|reflexivity].
    destruct (cache_summary text length _ w1) as [[[]|e] w2]; reflexivity.
  - unfold step at 1. cbn [action].
    unfold load_model, bind, lift, set_model, ret.
    destruct (pipeline ev) as [m|e]; [|reflexivity].
    unfold step at 1. cbn [action]. unfold fetch_model, bind, gets, ret.
    cbn [_model].
    unfold step at 1. cbn [action].
    unfold summarize_with, bind, lift, ret.
    destruct (call (Some m) text _ _) as [s|e]; [|reflexivity].
    destruct (Float.truediv (Py.len s) (Py.len text)) as [ratio|e]; [|reflexivity].
    destruct (cache_summary text length _ _) as [[[]|e] w2]; reflexivity.
Qed.

Lemma finish_more (n k : nat) (s : stage) (w : world) (r : result response)
    (w' : world) :
  finish n s w = (Done r, w') -> finish (n + k) s w = (Done r, w').
Proof.
  revert s w. induction n as [|n IH]; intros s w; simpl.
  - intros [= -> ->]. apply finish_done.
  - destruct (step s w) as [s1 w1]. apply IH.
Qed.

(** A thread that runs alone through the limiter and [summarize] answers as
    the decorated handler does. *)
Lemma finish_api_summarize (ev : env) (req : request) (w : world) :
  finish 7 (Arrived ev req) w
  = (Done (fst (api_summarize ev req w)), snd (api_summarize ev req w)).
Proof.
  unfold api_summarize, rate_limit.
  change 7%nat with (1 + 6)%nat. cbn [finish Nat.add]. unfold step at 1. cbn [action].
  unfold check_counter, try_except, bind, gets, ret.
  destruct (REDIS_AVAILABLE w); cbn [negb].
  2:{ apply (finish_more 5 1). apply finish_summarize. }
  destruct (redis (Redis.get ("rate_limit:" +:+ remote_addr req)) w)
    as [[current|e] w1].
  2:{ apply (finish_more 5 1). apply finish_summarize. }
  assert (Hbelow :
    finish 6 (Checked ev req) w1
    = (Done (fst (match redis (Redis.execute
                           [Redis.INCR ("rate_limit:" +:+ remote_addr req);
                            Redis.EXPIRE ("rate_limit:" +:+ remote_addr req) 60]) w1
                  with
                  | (Return _, w2) => summarize ev req w2
                  | (Raise _, w2) => summarize ev req w2
                  end)),
       snd (match redis (Redis.execute
                           [Redis.INCR ("rate_limit:" +:+ remote_addr req);
                            Redis.EXPIRE ("rate_limit:" +:+ remote_addr req) 60]) w1
            with
            | (Return _, w2) => summarize ev req w2
            | (Raise _, w2) => summarize ev req w2
            end))).
  { change 6%nat with (1 + 5)%nat. cbn [finish Nat.add]. unfold step at 1.
    cbn [action]. unfold count_request, try_except, bind, ret.
    destruct (redis _ w1) as [[xs|e] w2]; apply finish_summarize. }
  destruct current as [s|].
  - destruct (Str.truthy s).
    + unfold lift. destruct (Py.int s) as [n|e].
      * destruct (10 <=? n); [exact (finish_done 6 _ w1)|].
        refine (eq_trans Hbelow _). now destruct (redis _ w1) as [[xs|e] w2].
      * apply (finish_more 5 1). apply finish_summarize.
    + refine (eq_trans Hbelow _). now destruct (redis _ w1) as [[xs|e] w2].
  - refine (eq_trans Hbelow _). now destruct (redis _ w1) as [[xs|e] w2].
Qed.

(** A thread that runs alone through [health_check] answers as it does. *)
Lemma finish_health_check (ev : env) (w : world) :
  finish 3 (Missed ev ForHealth) w
  = (Done (fst (health_check ev w)), snd (health_check ev w)).
Proof.
  unfold health_check, get_model, try_except, bind, gets, lift, set_model, ret.
  cbn [finish]. unfold step at 1. cbn [action]. unfold test_model, bind, gets, ret.
  destruct (_model w) as [m|] eqn:Hm.
  - unfold step at 1. cbn [action]. unfold fetch_model, bind, gets, ret.
    rewrite Hm. reflexivity.
  - unfold step at 1. cbn [action]. unfold load_model, bind, lift, set_model, ret.
    destruct (pipeline ev) as [m|e]; reflexivity.
Qed.

(** A thread that runs alone through [get_stats] answers as it does. *)
Lemma finish_get_stats (dg : diagnostics) (w : world) :
  finish 2 (Polling dg) w = (Done (fst (get_stats dg w)), snd (get_stats dg w)).
Proof.
  unfold get_stats, try_except, bind, gets, ret.
  cbn [finish]. unfold step at 1. cbn [action]. unfold poll_stats, bind, gets, ret.
  destruct (REDIS_AVAILABLE w); cbn [negb]; [|reflexivity].
  destruct (redis (Admin.info (server_info dg)) w) as [[info|e] w1]; [|reflexivity].
  unfold step at 1. cbn [action]. unfold count_keys, bind, ret.
  destruct (redis (Admin.dbsize (server_keys dg)) w1) as [[n|e] w2]; reflexivity.
Qed.

End Alone.

(** ** Threads that interleave *)

Lemma keeping_answer {A : Type} (x : A) :
  keeping (redis (Redis.round_trip (fun r => (x, r)))).
Proof.
  intros w. unfold redis, Redis.round_trip.
  destruct (Redis.outage (redis_client w) (Redis.trips (redis_client w)))
    as [[[] e]|]; keeps_now.
Qed.

Lemma keeping_check_counter (mx : Z) (req : request) :
  keeping (check_counter mx req).
Proof.
  unfold check_counter.
  apply keeping_try; [|intros; apply keeping_ret].
  apply keeping_bind; [apply keeping_get|]. intros current.
  apply keeping_bind; [|intros; apply keeping_ret].
  destruct current as [s|]; [|apply keeping_ret].
  destruct (Str.truthy s); [|apply keeping_ret].
  apply keeping_bind; [apply keeping_lift | intros; apply keeping_ret].
Qed.

Section Interleaved.

Context `{Json}.

Lemma snd_step (s : stage) (w : world) : snd (step s w) = snd (action s w).
Proof. unfold step. now destruct (action s w) as [[s'|e] w']. Qed.

(** The stages that follow a stage. *)
Lemma step_stage (s : stage) (w : world) :
  match s with
  | Arrived ev req =>
      fst (step s w) = Passed ev req \/ fst (step s w) = Checked ev req
      \/ exists r, fst (step s w) = Done r
  | Checked ev req => fst (step s w) = Passed ev req
  | Passed ev req =>
      (exists text length, fst (step s w) = Missed ev (ForSummary text length))
      \/ exists r, fst (step s w) = Done r
  | Missed ev c =>
      (_model w = None /\ fst (step s w) = Loading ev c)
      \/ (_model w <> None /\ fst (step s w) = Fetching ev c)
  | Loading ev c =>
      fst (step s w) = Fetching ev c \/ exists r, fst (step s w) = Done r
  | Fetching ev c =>
      (exists text length model, fst (step s w) = Holding ev text length model)
      \/ exists r, fst (step s w) = Done r
  | Holding _ _ _ _ => exists r, fst (step s w) = Done r
  | Polling dg =>
      (exists info, fst (step s w) = Counting dg info)
      \/ exists r, fst (step s w) = Done r
  | Counting _ _ => exists r, fst (step s w) = Done r
  | Done r => fst (step s w) = Done r
  end.
Proof.
  destruct s as [ev req|ev req|ev req|ev c|ev c|ev c|ev text length model|dg|dg info|r];
    unfold step; cbn [action].
  - unfold bind, gets, ret. destruct (REDIS_AVAILABLE w); cbn [negb]; [|now left].
    destruct (check_counter 10 req w) as [[[| |]|e] w1]; simpl; eauto.
  - unfold count_request, try_except, bind, ret.
    now destruct (redis _ w) as [[xs|e] w1].
  - unfold enter_summarize, bind, lift, ret.
    destruct (get_json req) as [data|e]; [|eauto].
    destruct (Py.truthy data); cbn [negb]; [|eauto].
    destruct (Py.get data "text" (PStr "")) as [tf|e]; [|eauto].
    destruct (Py.strip tf) as [text|e]; [|eauto].
    destruct (Py.get data "length" (PStr "medium")) as [lf|e]; [|eauto].
    destruct (Py.lower lf) as [length|e]; [|eauto].
    destruct (validate_input text length) as [|first rest]; [|eauto].
    destruct (get_cached_summary text length w) as [[v|e] w1]; [|eauto].
    destruct (Py.truthy v); [|eauto].
    destruct (Py.setitem v "cached" (PBool true)); eauto.
  - unfold test_model, bind, gets, ret.
    destruct (_model w); simpl; [right|left]; split; congruence.
  - unfold load_model, bind, lift, set_model, ret.
    destruct (pipeline ev); simpl; eauto.
  - unfold fetch_model, bind, gets, ret. destruct c; simpl; eauto.
  - unfold summarize_with, bind, lift, ret.
    destruct (call model text _ _) as [s|e]; [|eauto].
    destruct (Float.truediv _ _) as [ratio|e]; [|eauto].
    destruct (cache_summary _ _ _ w) as [[[]|e] w1]; eauto.
  - unfold poll_stats, bind, gets, ret.
    destruct (REDIS_AVAILABLE w); cbn [negb]; [|eauto].
    destruct (redis _ w) as [[info|e] w1]; eauto.
  - unfold count_keys, bind, ret. destruct (redis _ w) as [[n|e] w1]; eauto.
  - reflexivity.
Qed.

(** Only the count of the limiter touches a rate counter. *)
Lemma keeps_step (s : stage) (w : world) :
  (forall ev req, s <> Checked ev req) -> keeps w (snd (step s w)).
Proof.
  intros Hs. rewrite snd_step.
  destruct s as [ev req|ev req|ev req|ev c|ev c|ev c|ev text length model|dg|dg info|r];
    cbn [action].
  - apply keeping_bind; [apply keeping_gets|]. intros available.
    destruct (negb available); [apply keeping_ret|].
    apply keeping_bind; [apply keeping_check_counter | intros; apply keeping_ret].
  - now destruct (Hs ev req).
  - unfold enter_summarize.
    apply keeping_bind; [apply keeping_lift|]. intros data.
    destruct (negb (Py.truthy data)); [apply keeping_ret|].
    apply keeping_bind; [apply keeping_lift|]. intros text_field.
    apply keeping_bind; [apply keeping_lift|]. intros text.
    apply keeping_bind; [apply keeping_lift|]. intros length_field.
    apply keeping_bind; [apply keeping_lift|]. intros length.
    destruct (validate_input text length); [|apply keeping_ret].
    apply keeping_bind; [apply keeping_get_cached_summary|]. intros cached.
    destruct (Py.truthy cached); [|apply keeping_ret].
    apply keeping_bind; [apply keeping_lift | intros; apply keeping_ret].
  - unfold test_model.
    apply keeping_bind; [apply keeping_gets | intros; apply keeping_ret].
  - unfold load_model.
    apply keeping_bind; [apply keeping_lift|]. intros loaded.
    apply keeping_bind; [apply keeping_set_model | intros; apply keeping_ret].
  - unfold fetch_model.
    apply keeping_bind; [apply keeping_gets|]. intros model.
    destruct c; [apply keeping_ret|].
    apply keeping_bind; [apply keeping_gets | intros; apply keeping_ret].
  - unfold summarize_with.
    apply keeping_bind; [apply keeping_lift|]. intros summary_text.
    apply keeping_bind; [apply keeping_lift|]. intros ratio.
    apply keeping_bind; [apply keeping_cache_summary | intros; apply keeping_ret].
  - unfold poll_stats.
    apply keeping_bind; [apply keeping_gets|]. intros available.
    destruct (negb available); [apply keeping_ret|].
    apply keeping_bind; [apply keeping_answer | intros; apply keeping_ret].
  - unfold count_keys.
    apply keeping_bind; [apply keeping_answer | intros; apply keeping_ret].
  - apply keeping_ret.
Qed.

End Interleaved.

(** ** The counter under interleaving *)

Lemma capped_mono (b b' : Z) (ip : string) (w : world) :
  b <= b' -> capped b ip w -> capped b' ip w.
Proof. intros Hb Hcap e n He Hn. specialize (Hcap e n He Hn). lia. Qed.

Lemma capped_keeps (b : Z) (ip : string) (w w' : world) :
  keeps w w' -> capped b ip w -> capped b ip w'.
Proof.
  intros (_ & Hclock & _ & _ & Hcounter) Hcap e n He Hn.
  apply (Hcap e n); [|exact Hn].
  specialize (Hcounter ip). unfold counter in Hcounter.
  unfold Redis.live in *. now rewrite <- Hcounter, <- Hclock.
Qed.

Lemma live_earlier (key : string) (r : Redis.server) (ms : Z) (e : Redis.entry) :
  0 <= ms -> Redis.live key (Redis.tick ms r) = Some e -> Redis.live key r = Some e.
Proof.
  unfold Redis.live, Redis.expired. simpl. intros Hms.
  destruct (Redis.db r !! key) as [e'|]; [|discriminate].
  destruct (Redis.deadline e') as [t|]; [|auto].
  destruct (Z.ltb_spec t (Redis.clock r + ms)); [discriminate|].
  destruct (Z.ltb_spec t (Redis.clock r)); [lia|auto].
Qed.

Lemma capped_tick (b : Z) (ip : string) (w : world) (ms : Z) :
  0 <= ms -> capped b ip w ->
  capped b ip (World (REDIS_AVAILABLE w) (Redis.tick ms (redis_client w)) (_model w)).
Proof.
  intros Hms Hcap e n He Hn. apply (Hcap e n); [|exact Hn].
  simpl in He. now apply (live_earlier _ _ ms).
Qed.

Lemma checked_app (ip : string) (p q : list stage) :
  checked ip (p ++ q) = (checked ip p + checked ip q)%nat.
Proof.
  induction p as [|s p IH]; [reflexivity|].
  destruct s as [| ev req | | | | | | | |]; simpl; auto.
  destruct (String.eqb (remote_addr req) ip); simpl; auto.
Qed.

Lemma checked_cons (ip : string) (s : stage) (p : list stage) :
  checked ip (s :: p) = (checked ip [s] + checked ip p)%nat.
Proof. exact (checked_app ip [s] p). Qed.

Lemma checked_insert (ip : string) (pool : list stage) (i : nat) (s s' : stage) :
  pool !! i = Some s ->
  (checked ip (<[i := s']> pool) + checked ip [s]
   = checked ip pool + checked ip [s'])%nat.
Proof.
  revert i. induction pool as [|s0 pool IH]; intros i; [discriminate|].
  destruct i as [|i]; intros Hi; simpl in Hi.
  - injection Hi as ->.
    change (<[0%nat := s']> (s :: pool)) with (s' :: pool).
    rewrite (checked_cons ip s' pool), (checked_cons ip s pool). lia.
  - specialize (IH i Hi).
    change (<[S i := s']> (s0 :: pool)) with (s0 :: <[i := s']> pool).
    rewrite (checked_cons ip s0 (<[i := s']> pool)), (checked_cons ip s0 pool). lia.
Qed.

Section Capped.

Context `{Json}.

(** A request passes the check only on a count below 10. *)
Lemma check_below (ev : env) (req : request) (w : world) :
  fst (step (Arrived ev req) w) = Checked ev req ->
  capped 9 (remote_addr req) w.
Proof.
  unfold step. cbn [action]. unfold bind, gets, ret.
  destruct (REDIS_AVAILABLE w); cbn [negb]; [|discriminate].
  unfold check_counter, try_except, bind, redis, lift, ret.
  pose proof (get_server ("rate_limit:" +:+ remote_addr req) (redis_client w)) as Hs.
  destruct (Redis.outage (redis_client w) (Redis.trips (redis_client w)))
    as [flt|] eqn:Hout.
  { rewrite (get_fault _ _ flt Hout). discriminate. }
  rewrite (get_answers _ _ Hout).
  intros Hrun e n He Hn. rewrite He in Hrun. cbn [option_map] in Hrun.
  destruct (to_int64_int _ _ Hn) as [_ Hint]. rewrite Hint in Hrun.
  destruct (Redis.value e) as [|c s]; [vm_compute in Hn; discriminate|].
  cbn [Str.truthy] in Hrun.
  destruct (Z.leb_spec 10 n); [discriminate|lia].
Qed.

(** The count adds at most one to the counter of its client and leaves the
    other counters alone. *)
Lemma count_capped (ev : env) (req : request) (w : world) (b : Z) (ip : string) :
  capped b ip w ->
  (ip = remote_addr req -> 0 <= b) ->
  capped (if String.eqb (remote_addr req) ip then b + 1 else b) ip
    (snd (step (Checked ev req) w)).
Proof.
  intros Hcap Hb. rewrite snd_step. cbn [action].
  unfold count_request, try_except, bind, redis, ret.
  set (key := "rate_limit:" +:+ remote_addr req).
  assert (Hw : forall r',
             r' = snd (Redis.execute [Redis.INCR key; Redis.EXPIRE key 60]
                         (redis_client w)) ->
             capped (if String.eqb (remote_addr req) ip then b + 1 else b) ip
               (World (REDIS_AVAILABLE w) r' (_model w))).
  { intros r' ->.
    destruct (execute_server [Redis.INCR key; Redis.EXPIRE key 60] (redis_client w))
      as [Hs|Hs]; rewrite Hs.
    - intros e n He Hn. specialize (Hcap e n He Hn).
      destruct (String.eqb (remote_addr req) ip); lia.
    - destruct (pipeline_entry key 60 (Redis.bump (redis_client w)) ltac:(lia))
        as (Hother & Hclock & Hentry).
      change (Redis.live key (Redis.bump (redis_client w)))
        with (Redis.live key (redis_client w)) in Hentry.
      change (Redis.clock (Redis.bump (redis_client w)))
        with (Redis.clock (redis_client w)) in Hentry, Hclock.
      intros e n He Hn. cbn [redis_client] in He.
      destruct (live_lookup _ _ _ He) as [Hdb Hexp].
      destruct (String.eqb_spec (remote_addr req) ip) as [Hip|Hip].
      + subst ip. fold key in Hdb. rewrite Hentry in Hdb. injection Hdb as <-.
        cbn [Redis.value] in Hn.
        destruct (Redis.live key (redis_client w)) as [e0|] eqn:Hlive.
        * destruct (Redis.to_int64 (Redis.value e0)) as [n0|] eqn:Hn0.
          -- pose proof (Hcap e0 n0 Hlive Hn0) as Hle.
             pose proof (to_int64_range _ _ Hn0) as Hrange.
             destruct (Z.eqb_spec n0 (2 ^ 63 - 1)).
             ++ rewrite Hn0 in Hn. injection Hn as <-. lia.
             ++ rewrite to_int64_of_Z in Hn by lia. injection Hn as <-. lia.
          -- congruence.
        * vm_compute in Hn. injection Hn as <-. specialize (Hb eq_refl). lia.
      + apply (Hcap e n); [|exact Hn].
        assert (Hne : "rate_limit:" +:+ ip <> key).
        { intros Heq. apply Hip. symmetry. now apply counter_key_inj in Heq. }
        pose proof (Hother _ Hne) as Ho.
        change (Redis.db (Redis.bump (redis_client w)))
          with (Redis.db (redis_client w)) in Ho.
        rewrite Hdb in Ho. rewrite Hclock in Hexp.
        unfold Redis.live. now rewrite <- Ho, Hexp. }
  destruct (Redis.execute [Redis.INCR key; Redis.EXPIRE key 60] (redis_client w))
    as [[xs|e] r'] eqn:Hexec; apply Hw; reflexivity.
Qed.

End Capped.

Section Overlap.

Context `{Json}.

Lemma play_capped (N : nat) (ip : string) (m : move) (w : world)
    (pool : list stage) :
  (checked ip pool <= N)%nat ->
  capped (9 + Z.of_nat N - Z.of_nat (checked ip pool)) ip w ->
  match m with Begin (Wait gap) => 0 <= gap | _ => True end ->
  (checked ip (snd (play m (w, pool))) <= N)%nat ->
  capped (9 + Z.of_nat N - Z.of_nat (checked ip (snd (play m (w, pool))))) ip
    (fst (play m (w, pool))).
Proof.
  intros Hpool Hcap Htime Hnext.
  destruct m as [e|i].
  - destruct e as [ev req|ev|dg|gap]; cbn [play enter fst snd] in *;
      rewrite ?checked_app; cbn [checked]; rewrite ?Nat.add_0_r;
      [exact Hcap..|].
    now apply capped_tick.
  - cbn [play] in *. destruct (pool !! i) as [s|] eqn:Hi; [|exact Hcap].
    pose proof (step_stage s w) as Hstage.
    pose proof (keeps_step s w) as Hkeeps.
    pose proof (snd_step s w) as Hsnd.
    destruct (step s w) as [s' w'] eqn:Hstep. cbn [fst snd] in *.
    pose proof (checked_insert ip pool i s s' Hi) as Hins.
    assert (Hsame : (forall ev req, s <> Checked ev req) ->
                    checked ip [s'] = checked ip [s] ->
                    capped (9 + Z.of_nat N - Z.of_nat (checked ip (<[i:=s']> pool)))
                      ip w').
    { intros Hs Hweight. rewrite Hweight in Hins.
      replace (checked ip (<[i:=s']> pool)) with (checked ip pool) by lia.
      apply (capped_keeps _ _ w); [|exact Hcap]. now apply Hkeeps. }
    destruct s as [ev req|ev req|ev req|ev c|ev c|ev c|ev text length model|dg
                  |dg info|r].
    + destruct Hstage as [->|[->|[r ->]]]; [now apply Hsame| |now apply Hsame].
      destruct (String.eqb (remote_addr req) ip) eqn:Hip;
        [|apply Hsame; [discriminate|simpl; now rewrite Hip]].
      apply String.eqb_eq in Hip. subst ip.
      apply (capped_keeps _ _ w); [now apply Hkeeps|].
      apply (capped_mono 9); [lia|].
      apply (check_below ev req w). now rewrite Hstep.
    + subst s'.
      pose proof (count_capped ev req w _ ip Hcap) as Hcount.
      rewrite Hstep in Hcount. cbn [snd] in Hcount.
      cbn [checked] in Hins.
      destruct (String.eqb_spec (remote_addr req) ip) as [Hip|Hip].
      * replace (9 + Z.of_nat N - Z.of_nat (checked ip (<[i:=Passed ev req]> pool)))
          with (9 + Z.of_nat N - Z.of_nat (checked ip pool) + 1) by lia.
        apply Hcount. intros _. lia.
      * replace (checked ip (<[i:=Passed ev req]> pool)) with (checked ip pool)
          by lia.
        apply Hcount. intros Heq. now destruct Hip.
    + destruct Hstage as [(text & length & ->)|[r ->]]; now apply Hsame.
    + destruct Hstage as [[_ ->]|[_ ->]]; now apply Hsame.
    + destruct Hstage as [->|[r ->]]; now apply Hsame.
    + destruct Hstage as [(text & length & model & ->)|[r ->]]; now apply Hsame.
    + destruct Hstage as [r ->]. now apply Hsame.
    + destruct Hstage as [[info ->]|[r ->]]; now apply Hsame.
    + destruct Hstage as [r ->]. now apply Hsame.
    + subst s'. now apply Hsame.
Qed.

Lemma plays_capped (N : nat) (ip : string) (ms : list move) :
  forall (w : world) (pool : list stage),
    (checked ip pool <= N)%nat ->
    capped (9 + Z.of_nat N - Z.of_nat (checked ip pool)) ip w ->
    crowd ip N ms (w, pool) ->
    capped (9 + Z.of_nat N) ip (fst (plays ms (w, pool))).
Proof.
  induction ms as [|m ms IH]; intros w pool Hpool Hcap Hcrowd.
  - simpl. apply (capped_mono (9 + Z.of_nat N - Z.of_nat (checked ip pool)));
      [lia | exact Hcap].
  - cbn [plays]. destruct Hcrowd as (Htime & Hnext & Hcrowd).
    pose proof (play_capped N ip m w pool Hpool Hcap Htime Hnext) as Hstep.
    destruct (play m (w, pool)) as [w' pool']. now apply IH.
Qed.

End Overlap.

(** X6: the counter of a client under interleaving.  A request reads the
    counter and sends the increment in two round trips, and other requests
    may run in between.  Along any schedule of the threads in which at most
    [N] requests of the client are at once between the two, whichever round
    trips fail, a counter that started at 10 or less never reads above
    [9 + N]: handled one at a time it stays within the limit 10, and every
    further request in flight may add one. *)
Theorem counter_bounded_by_overlap `{Json} (N : nat) (ip : string)
    (ms : list move) (w : world) :
  (1 <= N)%nat ->
  capped 10 ip w ->
  crowd ip N ms (w, []) ->
  capped (9 + Z.of_nat N) ip (fst (plays ms (w, []))).
Proof.
  intros HN Hcap Hcrowd.
  apply plays_capped; [simpl; lia | | exact Hcrowd].
  apply (capped_mono 10); [simpl; lia | exact Hcap].
Qed.

Lemma counter_bounded_by_overlap_witness :
  capped 11 "10.0.0.1" (fst (@plays Sample.json Sample.overlap (Sample.nine, [])))
  /\ option_map Redis.value
       (counter "10.0.0.1" (fst (@plays Sample.json Sample.overlap (Sample.nine, []))))
     = Some "11".
Proof.
  split; [|vm_compute; reflexivity].
  assert (Hstart : capped 10 "10.0.0.1" Sample.nine).
  { intros e n He Hn. vm_compute in He. injection He as <-.
    vm_compute in Hn. injection Hn as <-. lia. }
  assert (Hcrowd : @crowd Sample.json "10.0.0.1" 2 Sample.overlap (Sample.nine, [])).
  { vm_compute. repeat split; lia. }
  exact (@counter_bounded_by_overlap Sample.json 2 "10.0.0.1" Sample.overlap
           Sample.nine ltac:(lia) Hstart Hcrowd).
Defined.

(** ** Two requests that overlap in the limiter *)

Section Race.

Context `{Json}.

Lemma step_check (ev : env) (req : request) (w : world) (e : Redis.entry) (n : Z) :
  REDIS_AVAILABLE w = true -> answers (redis_client w) ->
  Redis.live (rate_key req) (redis_client w) = Some e ->
  Redis.to_int64 (Redis.value e) = Some n -> n < 10 ->
  step (Arrived ev req) w
  = (Checked ev req, with_redis (Redis.bump (redis_client w)) w).
Proof.
  intros Hon Hans Hlive Hn Hlt.
  unfold step. cbn [action].
  unfold check_counter, try_except, bind, gets, ret, redis, lift. cbv zeta.
  rewrite Hon. cbn [negb]. fold (rate_key req).
  rewrite (get_answers _ _ Hans), Hlive. cbn [option_map].
  destruct (to_int64_int _ _ Hn) as [_ Hint].
  rewrite (int_nonempty _ _ Hint). cbn. rewrite Hint.
  destruct (Z.leb_spec 10 n); [lia|]. reflexivity.
Qed.

Lemma step_count (ev : env) (req : request) (w : world) (e : Redis.entry) (n : Z) :
  answers (redis_client w) ->
  Redis.live (rate_key req) (redis_client w) = Some e ->
  Redis.to_int64 (Redis.value e) = Some n -> n < 2 ^ 63 - 1 ->
  step (Checked ev req) w
  = (Passed ev req,
     with_redis
       (Redis.with_db
          (<[rate_key req := Redis.Entry (Str.of_Z (n + 1))
                               (Some (Redis.clock (redis_client w) + 1000 * 60))]>
             (Redis.db (redis_client w)))
          (Redis.bump (redis_client w)))
       w).
Proof.
  intros Hans Hlive Hn Hlt.
  unfold step. cbn [action].
  unfold count_request, try_except, bind, redis, ret. cbv zeta.
  fold (rate_key req).
  now rewrite (execute_count (rate_key req) 60 (redis_client w) e n)
    by (auto; lia).
Qed.

Lemma play_advance (i : nat) (w : world) (pool : list stage) (s : stage) :
  pool !! i = Some s ->
  play (Advance i) (w, pool) = (snd (step s w), <[i := fst (step s w)]> pool).
Proof. intros Hi. cbn [play]. rewrite Hi. now destruct (step s w). Qed.

(** Two requests of one client that both read the counter at [n], below the
    limit, before either sends its increment are both let through, and
    leave the counter at [n + 2]. *)
Lemma overlap_counts (evA evB : env) (reqA reqB : request) (w : world)
    (e : Redis.entry) (n : Z) :
  REDIS_AVAILABLE w = true -> up (redis_client w) ->
  remote_addr reqB = remote_addr reqA ->
  Redis.live (rate_key reqA) (redis_client w) = Some e ->
  Redis.to_int64 (Redis.value e) = Some n -> n < 10 ->
  exists w',
    plays [Begin (Summarize evA reqA); Begin (Summarize evB reqB);
           Advance 0; Advance 1; Advance 0; Advance 1] (w, [])
    = (w', [Passed evA reqA; Passed evB reqB])
    /\ counter (remote_addr reqA) w'
       = Some (Redis.Entry (Str.of_Z (n + 2))
                 (Some (Redis.clock (redis_client w) + 60000))).
Proof.
  intros Hon Hup Haddr Hlive Hn Hlt.
  assert (Hkey : rate_key reqB = rate_key reqA) by (unfold rate_key; now rewrite Haddr).
  pose proof (to_int64_range _ _ Hn) as Hrange.
  assert (Hans : forall k, answers (Nat.iter k Redis.bump (redis_client w))).
  { intros k. unfold answers.
    assert (Hiter : forall j r,
               Redis.outage (Nat.iter j Redis.bump r) = Redis.outage r
               /\ Redis.trips (Nat.iter j Redis.bump r) = (j + Redis.trips r)%nat).
    { induction j as [|j IH]; intros r; [now split|].
      simpl. destruct (IH r) as [Ho Ht]. split; [exact Ho|]. now rewrite Ht. }
    destruct (Hiter k (redis_client w)) as [-> ->]. apply Hup. lia. }
  cbn [plays].
  change (play (Begin (Summarize evA reqA)) (w, [])) with (w, [Arrived evA reqA]).
  change (play (Begin (Summarize evB reqB)) (w, [Arrived evA reqA]))
    with (w, [Arrived evA reqA; Arrived evB reqB]).
  rewrite (play_advance 0 w [Arrived evA reqA; Arrived evB reqB] (Arrived evA reqA) eq_refl).
  rewrite (step_check evA reqA w e n Hon (Hans 0%nat) Hlive Hn Hlt).
  cbn [fst snd].
  change (<[0%nat := Checked evA reqA]> [Arrived evA reqA; Arrived evB reqB])
    with [Checked evA reqA; Arrived evB reqB].
  set (w1 := with_redis (Redis.bump (redis_client w)) w).
  rewrite (play_advance 1 w1 [Checked evA reqA; Arrived evB reqB] (Arrived evB reqB) eq_refl).
  rewrite (step_check evB reqB w1 e n Hon (Hans 1%nat)
             ltac:(rewrite Hkey; exact Hlive) Hn Hlt).
  cbn [fst snd].
  change (<[1%nat := Checked evB reqB]> [Checked evA reqA; Arrived evB reqB])
    with [Checked evA reqA; Checked evB reqB].
  set (w2 := with_redis (Redis.bump (redis_client w1)) w1).
  rewrite (play_advance 0 w2 [Checked evA reqA; Checked evB reqB] (Checked evA reqA) eq_refl).
  rewrite (step_count evA reqA w2 e n (Hans 2%nat) Hlive Hn ltac:(lia)).
  cbn [fst snd].
  change (<[0%nat := Passed evA reqA]> [Checked evA reqA; Checked evB reqB])
    with [Passed evA reqA; Checked evB reqB].
  set (e1 := Redis.Entry (Str.of_Z (n + 1))
               (Some (Redis.clock (redis_client w2) + 1000 * 60))).
  set (w3 := with_redis _ w2).
  assert (Hlive3 : Redis.live (rate_key reqB) (redis_client w3) = Some e1).
  { rewrite Hkey. unfold w3. cbn [redis_client with_redis].
    rewrite live_with_db, lookup_insert_eq. unfold Redis.expired, e1. simpl.
    match goal with |- context [?a <? ?b] => destruct (Z.ltb_spec a b) end;
      [lia|reflexivity]. }
  rewrite (play_advance 1 w3 [Passed evA reqA; Checked evB reqB] (Checked evB reqB) eq_refl).
  rewrite (step_count evB reqB w3 e1 (n + 1) (Hans 3%nat) Hlive3
             ltac:(apply to_int64_of_Z; lia) ltac:(lia)).
  cbn [fst snd].
  change (<[1%nat := Passed evB reqB]> [Passed evA reqA; Checked evB reqB])
    with [Passed evA reqA; Passed evB reqB].
  eexists. split; [reflexivity|].
  unfold counter. cbn [redis_client with_redis Redis.db Redis.with_db].
  fold (rate_key reqA). rewrite Hkey, lookup_insert_eq.
  replace (n + 1 + 1) with (n + 2) by lia. reflexivity.
Qed.

End Race.

(** ** The model under interleaving *)

Section Stages.

Variable R : world -> world -> Prop.
Hypothesis R_refl : forall w, R w w.
Hypothesis R_trans : forall w1 w2 w3, R w1 w2 -> R w2 w3 -> R w1 w3.
Hypothesis R_redis :
  forall (A : Type) (op : Redis.server -> result A * Redis.server),
    preserving R (redis op).

Context `{Json}.

(** Every stage but the assignment of [get_model] is made of reads, local
    work and round trips. *)
Lemma preserving_action (s : stage) :
  loading s = false -> preserving R (action s).
Proof.
  destruct s as [ev req|ev req|ev req|ev c|ev c|ev c|ev text length model|dg|dg info|r];
    cbn [action loading]; intros Hs; try discriminate Hs.
  - apply (preserving_bind R R_trans); [apply (preserving_gets R R_refl)|]. intros available.
    destruct (negb available); [apply (preserving_ret R R_refl)|].
    apply (preserving_bind R R_trans); [|intros; apply (preserving_ret R R_refl)].
    unfold check_counter. apply (preserving_try R R_trans); [|intros; apply (preserving_ret R R_refl)].
    apply (preserving_bind R R_trans); [apply R_redis|]. intros current.
    apply (preserving_bind R R_trans); [|intros; apply (preserving_ret R R_refl)].
    destruct current as [s|]; [|apply (preserving_ret R R_refl)].
    destruct (Str.truthy s); [|apply (preserving_ret R R_refl)].
    apply (preserving_bind R R_trans); [apply (preserving_lift R R_refl) | intros; apply (preserving_ret R R_refl)].
  - apply (preserving_bind R R_trans); [|intros; apply (preserving_ret R R_refl)].
    unfold count_request. apply (preserving_try R R_trans); [|intros; apply (preserving_ret R R_refl)].
    apply (preserving_bind R R_trans); [apply R_redis | intros; apply (preserving_ret R R_refl)].
  - unfold enter_summarize.
    apply (preserving_bind R R_trans); [apply (preserving_lift R R_refl)|]. intros data.
    destruct (negb (Py.truthy data)); [apply (preserving_ret R R_refl)|].
    apply (preserving_bind R R_trans); [apply (preserving_lift R R_refl)|]. intros text_field.
    apply (preserving_bind R R_trans); [apply (preserving_lift R R_refl)|]. intros text.
    apply (preserving_bind R R_trans); [apply (preserving_lift R R_refl)|]. intros length_field.
    apply (preserving_bind R R_trans); [apply (preserving_lift R R_refl)|]. intros length.
    destruct (validate_input text length); [|apply (preserving_ret R R_refl)].
    apply (preserving_bind R R_trans);
      [apply (preserving_get_cached_summary R R_refl R_trans); apply R_redis|].
    intros cached. destruct (Py.truthy cached); [|apply (preserving_ret R R_refl)].
    apply (preserving_bind R R_trans); [apply (preserving_lift R R_refl) | intros; apply (preserving_ret R R_refl)].
  - unfold test_model. apply (preserving_bind R R_trans); [apply (preserving_gets R R_refl) | intros; apply (preserving_ret R R_refl)].
  - unfold fetch_model. apply (preserving_bind R R_trans); [apply (preserving_gets R R_refl)|]. intros model.
    destruct c; [apply (preserving_ret R R_refl)|].
    apply (preserving_bind R R_trans); [apply (preserving_gets R R_refl) | intros; apply (preserving_ret R R_refl)].
  - unfold summarize_with.
    apply (preserving_bind R R_trans); [apply (preserving_lift R R_refl)|]. intros summary_text.
    apply (preserving_bind R R_trans); [apply (preserving_lift R R_refl)|]. intros ratio.
    apply (preserving_bind R R_trans);
      [apply (preserving_cache_summary R R_refl R_trans); apply R_redis
      |intros; apply (preserving_ret R R_refl)].
  - unfold poll_stats. apply (preserving_bind R R_trans); [apply (preserving_gets R R_refl)|]. intros available.
    destruct (negb available); [apply (preserving_ret R R_refl)|].
    apply (preserving_bind R R_trans); [apply R_redis | intros; apply (preserving_ret R R_refl)].
  - unfold count_keys. apply (preserving_bind R R_trans); [apply R_redis | intros; apply (preserving_ret R R_refl)].
  - apply (preserving_ret R R_refl).
Qed.

End Stages.

Section Loaded.

Context `{Json}.

(** A stage other than the assignment keeps the loaded model. *)
Lemma step_model_kept (s : stage) (w : world) :
  loading s = false -> model_kept w (snd (step s w)).
Proof.
  intros Hs. rewrite snd_step.
  apply (preserving_action model_kept); auto.
  - intros w0 m Hm. exact Hm.
  - exact model_kept_trans.
  - exact model_kept_redis.
Qed.

(** No stage unloads the model. *)
Lemma step_loaded (s : stage) (w : world) :
  _model w <> None -> _model (snd (step s w)) <> None.
Proof.
  intros Hw. destruct (loading s) eqn:Hs.
  - destruct s; try discriminate Hs. rewrite snd_step. cbn [action].
    unfold load_model, bind, lift, set_model, ret.
    destruct (pipeline ev); [discriminate | exact Hw].
  - destruct (_model w) as [m|] eqn:Hm; [|contradiction].
    now rewrite (step_model_kept s w Hs m Hm).
Qed.

Lemma plays_loaded (ms : list move) :
  forall (w : world) (pool : list stage),
    _model w <> None -> _model (fst (plays ms (w, pool))) <> None.
Proof.
  induction ms as [|mv ms IH]; intros w pool Hw; [exact Hw|].
  cbn [plays]. destruct mv as [e|i].
  - destruct e as [ev req|ev|dg|gap]; cbn [play enter]; now apply IH.
  - cbn [play]. destruct (pool !! i) as [s|]; [|now apply IH].
    pose proof (step_loaded s w Hw) as Hstep.
    destruct (step s w) as [s' w']. now apply IH.
Qed.

(** While no request is between the test of [_model] and its assignment,
    none gets there once the model is loaded. *)
Lemma plays_same (ms : list move) (m : Model) :
  forall (w : world) (pool : list stage),
    _model w = Some m -> Forall (fun s => loading s = false) pool ->
    _model (fst (plays ms (w, pool))) = Some m
    /\ Forall (fun s => loading s = false) (snd (plays ms (w, pool))).
Proof.
  induction ms as [|mv ms IH]; intros w pool Hw Hpool; [now split|].
  cbn [plays]. destruct mv as [e|i].
  - destruct e as [ev req|ev|dg|gap]; cbn [play enter]; apply IH; auto;
      apply Forall_app; split; auto.
  - cbn [play]. destruct (pool !! i) as [s|] eqn:Hi; [|now apply IH].
    pose proof (Forall_lookup_1 _ _ _ _ Hpool Hi) as Hs. cbn beta in Hs.
    pose proof (step_model_kept s w Hs m Hw) as Hkept.
    pose proof (step_stage s w) as Hstage.
    destruct (step s w) as [s' w']. cbn [fst snd] in *.
    apply IH; [exact Hkept|].
    apply Forall_insert; [exact Hpool|].
    destruct s as [ev req|ev req|ev req|ev c|ev c|ev c|ev text length model|dg
                  |dg info|r]; try discriminate Hs.
    + now destruct Hstage as [->|[->|[r ->]]].
    + now subst s'.
    + now destruct Hstage as [(text & length & ->)|[r ->]].
    + destruct Hstage as [[Hnone _]|[_ ->]]; [congruence|reflexivity].
    + now destruct Hstage as [(text & length & model & ->)|[r ->]].
    + now destruct Hstage as [r ->].
    + now destruct Hstage as [[info ->]|[r ->]].
    + now destruct Hstage as [r ->].
    + now subst s'.
Qed.

Lemma step_test_none (ev : env) (c : caller) (w : world) :
  _model w = None -> step (Missed ev c) w = (Loading ev c, w).
Proof.
  intros Hm. unfold step. cbn [action]. unfold test_model, bind, gets, ret.
  now rewrite Hm.
Qed.

Lemma step_load (ev : env) (c : caller) (w : world) (m : Model) :
  pipeline ev = Return m ->
  step (Loading ev c) w
  = (Fetching ev c, World (REDIS_AVAILABLE w) (redis_client w) (Some m)).
Proof.
  intros Hp. unfold step. cbn [action]. unfold load_model, bind, lift, set_model, ret.
  now rewrite Hp.
Qed.

(** Two first calls of [get_model] that both test [_model] before either
    assigns it: both load, and the later assignment replaces the model that
    the earlier one had stored. *)
Lemma double_load (evA evB : env) (cA cB : caller) (mA mB : Model) (w : world) :
  _model w = None -> pipeline evA = Return mA -> pipeline evB = Return mB ->
  plays [Advance 0; Advance 1] (w, [Missed evA cA; Missed evB cB])
  = (w, [Loading evA cA; Loading evB cB])
  /\ plays [Advance 0; Advance 1; Advance 0] (w, [Missed evA cA; Missed evB cB])
     = (World (REDIS_AVAILABLE w) (redis_client w) (Some mA),
        [Fetching evA cA; Loading evB cB])
  /\ plays [Advance 0; Advance 1; Advance 0; Advance 1]
       (w, [Missed evA cA; Missed evB cB])
     = (World (REDIS_AVAILABLE w) (redis_client w) (Some mB),
        [Fetching evA cA; Fetching evB cB]).
Proof.
  intros Hm HA HB.
  assert (H2 : plays [Advance 0; Advance 1] (w, [Missed evA cA; Missed evB cB])
               = (w, [Loading evA cA; Loading evB cB])).
  { cbn [plays].
    rewrite (play_advance 0 w [Missed evA cA; Missed evB cB] (Missed evA cA) eq_refl).
    rewrite (step_test_none evA cA w Hm). cbn [fst snd].
    change (<[0%nat := Loading evA cA]> [Missed evA cA; Missed evB cB])
      with [Loading evA cA; Missed evB cB].
    rewrite (play_advance 1 w [Loading evA cA; Missed evB cB] (Missed evB cB) eq_refl).
    now rewrite (step_test_none evB cB w Hm). }
  assert (H3 : play (Advance 0) (w, [Loading evA cA; Loading evB cB])
               = (World (REDIS_AVAILABLE w) (redis_client w) (Some mA),
                  [Fetching evA cA; Loading evB cB])).
  { rewrite (play_advance 0 w [Loading evA cA; Loading evB cB] (Loading evA cA) eq_refl).
    now rewrite (step_load evA cA w mA HA). }
  split; [exact H2|]. split.
  - change [Advance 0; Advance 1; Advance 0]
      with ([Advance 0; Advance 1] ++ [Advance 0]).
    cbn [plays app] in *. now rewrite H2.
  - cbn [plays] in *. rewrite H2, H3.
    rewrite (play_advance 1 _ [Fetching evA cA; Loading evB cB] (Loading evB cB) eq_refl).
    now rewrite (step_load evB cB _ mB HB).
Qed.

End Loaded.

(** X2: the model under interleaving.  [get_model] tests [_model] and
    assigns it without a lock.  Whatever the threads do, a loaded model is
    never unloaded, and it stays the same model through every schedule that
    starts with no request between the test and the assignment.  But the
    model is not loaded once: two first calls that both test [_model] before
    either assigns it both load, and the later assignment replaces the model
    that the earlier one had stored. *)
Theorem model_stays_loaded `{Json} (ms : list move) (w : world)
    (pool : list stage) :
  (_model w <> None -> _model (fst (plays ms (w, pool))) <> None)
  /\ (forall m,
         _model w = Some m -> Forall (fun s => loading s = false) pool ->
         _model (fst (plays ms (w, pool))) = Some m)
  /\ (forall evA evB mA mB,
         _model w = None -> pipeline evA = Return mA -> pipeline evB = Return mB ->
         plays [Begin (Health evA); Begin (Health evB);
                Advance 0; Advance 1; Advance 0] (w, [])
         = (World (REDIS_AVAILABLE w) (redis_client w) (Some mA),
            [Fetching evA ForHealth; Loading evB ForHealth])
         /\ plays [Begin (Health evA); Begin (Health evB);
                   Advance 0; Advance 1; Advance 0; Advance 1] (w, [])
            = (World (REDIS_AVAILABLE w) (redis_client w) (Some mB),
               [Fetching evA ForHealth; Fetching evB ForHealth])).
Proof.
  split; [apply plays_loaded|]. split.
  - intros m Hm Hpool. now apply plays_same.
  - intros evA evB mA mB Hm HA HB.
    destruct (double_load evA evB ForHealth ForHealth mA mB w Hm HA HB)
      as (_ & H5 & H6).
    split; [exact H5 | exact H6].
Qed.

Lemma model_stays_loaded_witness :
  _model (fst (@plays Sample.json Sample.double_load
                 (World true Sample.server (Some Sample.model), [])))
  = Some Sample.model
  /\ @plays Sample.json Sample.double_load (Sample.start, [])
     = (World true Sample.server (Some Sample.broken_model),
        [Fetching Sample.ev ForHealth; Fetching Sample.broken_ev ForHealth]).
Proof.
  split.
  - destruct (@model_stays_loaded Sample.json Sample.double_load
                (World true Sample.server (Some Sample.model)) [])
      as (_ & Hsame & _).
    exact (Hsame Sample.model eq_refl (Forall_nil_2 _)).
  - destruct (@model_stays_loaded Sample.json [] Sample.start [])
      as (_ & _ & Hrace).
    exact (proj2 (Hrace Sample.ev Sample.broken_ev Sample.model
                    Sample.broken_model eq_refl eq_refl eq_refl)).
Defined.

(** A request that has passed the limiter is answered by [summarize], never
    with 429. *)
Lemma passed_served `{Json} (ev : env) (req : request) (w : world) :
  exists resp w',
    finish 5 (Passed ev req) w = (Done (Return resp), w') /\ status resp <> 429.
Proof.
  destruct (summarize_total ev req w) as (resp & w' & Hrun & Hstatus).
  exists resp, w'. rewrite finish_summarize, Hrun. split; [reflexivity|]. lia.
Qed.

(** X7: ten requests a minute, for requests handled one at a time.  A
    thread that runs alone answers as [api_summarize] does, and of the
    requests of one client that are handled one after the other, starting
    without a counter and with the store answering, any eleven served in a
    row span more than 60 seconds.  Overlapping requests escape the limit:
    two requests of a client that both read the counter at [n < 10] before
    either sends its increment are both let through and served, and leave
    the counter at [n + 2], eleven for a count of nine. *)
Theorem ten_per_minute_one_at_a_time `{Json} (ev : env) (req : request)
    (gaps : list Z) (w : world) :
  (forall w0,
      finish 7 (Arrived ev req) w0
      = (Done (fst (api_summarize ev req w0)), snd (api_summarize ev req w0)))
  /\ (REDIS_AVAILABLE w = true -> up (redis_client w) ->
      Redis.live (rate_key req) (redis_client w) = None ->
      Forall (fun gap => 0 <= gap) gaps ->
      spaced (served_times (serve (api_summarize ev) req gaps w)))
  /\ (forall ev' req' e n,
         REDIS_AVAILABLE w = true -> up (redis_client w) ->
         remote_addr req' = remote_addr req ->
         Redis.live (rate_key req) (redis_client w) = Some e ->
         Redis.to_int64 (Redis.value e) = Some n -> n < 10 ->
         exists w',
           plays [Begin (Summarize ev req); Begin (Summarize ev' req');
                  Advance 0; Advance 1; Advance 0; Advance 1] (w, [])
           = (w', [Passed ev req; Passed ev' req'])
           /\ counter (remote_addr req) w'
              = Some (Redis.Entry (Str.of_Z (n + 2))
                        (Some (Redis.clock (redis_client w) + 60000)))
           /\ (forall w1, exists resp w2,
                  finish 5 (Passed ev req) w1 = (Done (Return resp), w2)
                  /\ status resp <> 429)
           /\ (forall w1, exists resp w2,
                  finish 5 (Passed ev' req') w1 = (Done (Return resp), w2)
                  /\ status resp <> 429)).
Proof.
  split; [intros w0; apply finish_api_summarize|]. split.
  - intros Hon Hup Hlive Hgaps.
    assert (Hstate : window_state req [] w).
    { split; [exact Hon|]. split; [exact Hup|]. split; [simpl; lia|]. left. auto. }
    destruct (window_log ev req gaps [] w Hstate Hgaps) as [_ Hspaced].
    exact Hspaced.
  - intros ev' req' e n Hon Hup Haddr Hlive Hn Hlt.
    destruct (overlap_counts ev ev' req req' w e n Hon Hup Haddr Hlive Hn Hlt)
      as (w' & Hplays & Hcounter).
    exists w'. split; [exact Hplays|]. split; [exact Hcounter|].
    split; intros w1; apply passed_served.
Qed.

Lemma ten_per_minute_one_at_a_time_witness :
  spaced
    (served_times
       (serve (@api_summarize Sample.json Sample.ev) Sample.empty_req
          [0; 7000; 7000; 7000; 7000; 7000; 7000; 7000; 7000; 7000; 7000; 60001]
          Sample.start))
  /\ exists w',
       @plays Sample.json Sample.overlap (Sample.nine, [])
       = (w', [Passed Sample.ev Sample.req; Passed Sample.ev Sample.req])
       /\ counter "10.0.0.1" w' = Some (Redis.Entry "11" (Some 69000)).
Proof.
  split.
  - destruct (@ten_per_minute_one_at_a_time Sample.json Sample.ev Sample.empty_req
                [0; 7000; 7000; 7000; 7000; 7000; 7000; 7000; 7000; 7000; 7000; 60001]
                Sample.start) as (_ & Hseq & _).
    apply Hseq; [reflexivity | intros n _; reflexivity | reflexivity|].
    repeat constructor; lia.
  - destruct (@ten_per_minute_one_at_a_time Sample.json Sample.ev Sample.req []
                Sample.nine) as (_ & _ & Hrace).
    assert (Hlive : Redis.live (rate_key Sample.req) (redis_client Sample.nine)
                    = Some (Redis.Entry "9" (Some 60000)))
      by (vm_compute; reflexivity).
    assert (Hnine : Redis.to_int64 (Redis.value (Redis.Entry "9" (Some 60000)))
                    = Some 9) by (vm_compute; reflexivity).
    destruct (Hrace Sample.ev Sample.req (Redis.Entry "9" (Some 60000)) 9
                eq_refl (fun n _ => eq_refl) eq_refl Hlive Hnine ltac:(lia))
      as (w' & Hplays & Hcounter & _).
    exists w'. split; [exact Hplays | exact Hcounter].
Defined.

